(** * RFMizer: a shallow embedding of [rfmizer.py] and its properties

    The engine of [rfmizer.py] (class [Rfmizer]) is embedded as pure
    functions over an explicit engine state.  Conventions:

    - a [datetime] produced by [parse_date] is a day at midnight; it is
      represented by its proleptic Gregorian ordinal ([date.toordinal()]),
      an integer, and a [timedelta] by its number of days;
    - order values are Python floats; their arithmetic is idealised as exact
      rational arithmetic ([Q]);
    - a Python [dict] is an association list in insertion order with unique
      keys;
    - a raised exception is a [Raise] result carrying the place in the
      source that raises it;
    - the script runs under Python 2 and Python 3 ([main] branches on
      [sys.version]); the two differ on [/] between two integers, which
      [segmentize] uses, so the interpreter is part of the engine state.

    The embedding starts where a row of the input has been split into its
    columns and [parse_date] and [parse_value] have returned.  What fails
    before that is not part of it: [parse_date] raises [ValueError] on a
    string that matches its pattern without being a calendar date
    ([strptime], line 67), and [row[i]] raises [IndexError] on a row with
    too few columns (lines 122-124); [load_input] then does not return.
    The configuration is taken with every key present that the code reads;
    a missing key raises [KeyError], for a segments count at line 202.
    Files and logging are left out. *)

From Stdlib Require Import ZArith QArith List String Bool Lia Sorted Permutation.
Import ListNotations.
Open Scope Z_scope.

Set Implicit Arguments.

(** ** Exceptions and results *)

(** The places of the source that can raise. *)
Inductive site : Type :=
| at_max_i            (* line 216: uids_count / segments_count *)
| at_first_ranked     (* line 217: uids[0] *)
| at_border_lookup    (* line 223: self.borders[dimension][segment] *)
| at_next_max_i       (* line 229: (uids_count - i) / (segments_count - segment + 1) *)
| at_metrics_lookup   (* lines 206-220: user['metrics'][dimension] *)
| at_first_user       (* lines 254, 310: next(iter(self.users.values())) *)
| at_output_columns   (* line 255: columns[...] *)
| at_population_mean  (* line 293: total_orders_value / len(self.users) *)
| at_segment_ratio.   (* lines 296-299: ... / total_average_orders_value *)

Inductive exn : Type :=
| ZeroDivisionError (s : site)
| IndexError (s : site)
| KeyError (s : site)
| StopIteration (s : site).

Inductive result (A : Type) : Type :=
| Ok (a : A)
| Raise (e : exn).
Arguments Ok {A} a.
Arguments Raise {A} e.

Definition bind {A B : Type} (m : result A) (k : A -> result B) : result B :=
  match m with
  | Ok a => k a
  | Raise e => Raise e
  end.

Notation "x <- m ;; k" := (bind m (fun x => k))
  (at level 61, m at next level, right associativity).
Notation "' p <- m ;; k" := (bind m (fun x => match x with p => k end))
  (at level 61, p pattern, m at next level, right associativity).

(** ** Dictionaries *)

Class EqKey (K : Type) : Type := keyb : K -> K -> bool.

#[export] Instance EqKey_Z : EqKey Z := Z.eqb.
#[export] Instance EqKey_string : EqKey string := String.eqb.

Definition dict (K V : Type) : Type := list (K * V).

Section Dict.
Context {K V : Type} `{EqKey K}.

(** [d[k]], [None] standing for a missing key. *)
Fixpoint dget (k : K) (d : dict K V) : option V :=
  match d with
  | [] => None
  | (k', v) :: d' => if keyb k k' then Some v else dget k d'
  end.

(** [k in d] *)
Definition dmem (k : K) (d : dict K V) : bool :=
  match dget k d with Some _ => true | None => false end.

(** [d[k] = v]: an existing key keeps its place, a new key goes last. *)
Fixpoint dset (k : K) (v : V) (d : dict K V) : dict K V :=
  match d with
  | [] => [(k, v)]
  | (k', v') :: d' =>
      if keyb k k' then (k', v) :: d' else (k', v') :: dset k v d'
  end.

(** [del d[k]] *)
Fixpoint ddel (k : K) (d : dict K V) : dict K V :=
  match d with
  | [] => []
  | (k', v') :: d' => if keyb k k' then d' else (k', v') :: ddel k d'
  end.

Definition dkeys (d : dict K V) : list K := map fst d.

(** Keys are pairwise distinct, as in every Python dict. *)
Fixpoint wf_dict (d : dict K V) : bool :=
  match d with
  | [] => true
  | (k, _) :: d' => negb (dmem k d') && wf_dict d'
  end.
End Dict.

(** [keyb] decides equality of keys. *)
Class EqKeyOk (K : Type) (E : EqKey K) : Prop :=
  keyb_eq : forall a b : K, keyb a b = true <-> a = b.
Arguments EqKeyOk K {E}.

(** ** Data model *)

Definition date : Type := Z.
Definition timedelta : Type := Z.

(** [parse_date('2000-01-01')] and [parse_date('2200-01-01')]. *)
Definition date_2000_01_01 : date := 730120.
Definition date_2200_01_01 : date := 803169.

Definition user_id : Type := string.

Inductive dimension : Type := recency | frequency | monetary.

Definition dimension_name (d : dimension) : string :=
  match d with
  | recency => "recency"
  | frequency => "frequency"
  | monetary => "monetary"
  end%string.

Definition dimension_eqb (a b : dimension) : bool :=
  match a, b with
  | recency, recency | frequency, frequency | monetary, monetary => true
  | _, _ => false
  end.

#[export] Instance EqKey_dimension : EqKey dimension := dimension_eqb.

(** [RFM_DIMENSIONS] is a Python set: the loop of line 244 visits the three
    dimensions in the order the set iterates, which the hash seed of the
    run decides.  The three calls of [segmentize] touch disjoint keys, so
    the order does not matter for the state a returning [rfmize] leaves;
    it decides which call raises first.  [rfmize] below visits them in
    this order; [rfmize_in] takes the order as an argument. *)
Definition RFM_DIMENSIONS : list dimension := [recency; frequency; monetary].

(** A value of [user['metrics'][dimension]]: [None], ['stale'] or a number. *)
Inductive metric_value : Type :=
| MNone
| MStale
| MNum (q : Q).

Record Metrics : Type := mkMetrics {
  m_recency : metric_value;
  m_frequency : metric_value;
  m_monetary : metric_value
}.

Definition metric_of (d : dimension) (m : Metrics) : metric_value :=
  match d with
  | recency => m_recency m
  | frequency => m_frequency m
  | monetary => m_monetary m
  end.

(** A value of [user['dimensions']]: an attribute string of the input row
    or a segment number written by [segmentize]. *)
Inductive dim_value : Type :=
| DStr (s : string)
| DInt (n : Z).

Record User : Type := mkUser {
  u_orders : dict date (option Q);
  u_max_date : date;
  u_dimensions : dict string dim_value;
  u_metrics : option Metrics   (* [None]: no ['metrics'] key yet *)
}.

Inductive py_version : Type := Py2 | Py3.

Definition micro_segment : Type := list (string * dim_value).

Record Rfmizer : Type := mkRfmizer {
  py : py_version;
  conf_segments_count : dimension -> Z;     (* conf['segments_count'],
                                               a count for each dimension *)
  conf_output_columns : dict string string; (* conf['rfmizer']['output_columns'] *)
  max_date : date;
  look_back_delta : timedelta;
  prediction_delta : timedelta;
  borders : dict dimension (dict Z Q);
  users : dict user_id User;
  ratios : dict micro_segment Q
}.

(** [Rfmizer.__init__] *)
Definition init (v : py_version) (segments_count : dimension -> Z)
    (output_columns : dict string string)
    (look_back_period prediction_period : Z) : Rfmizer :=
  {| py := v;
     conf_segments_count := segments_count;
     conf_output_columns := output_columns;
     max_date := date_2000_01_01;
     look_back_delta := look_back_period;
     prediction_delta := prediction_period;
     borders := [];
     users := [];
     ratios := [] |}.

Definition set_users (us : dict user_id User) (r : Rfmizer) : Rfmizer :=
  {| py := py r; conf_segments_count := conf_segments_count r;
     conf_output_columns := conf_output_columns r;
     max_date := max_date r; look_back_delta := look_back_delta r;
     prediction_delta := prediction_delta r; borders := borders r;
     users := us; ratios := ratios r |}.

Definition set_borders (b : dict dimension (dict Z Q)) (r : Rfmizer) : Rfmizer :=
  {| py := py r; conf_segments_count := conf_segments_count r;
     conf_output_columns := conf_output_columns r;
     max_date := max_date r; look_back_delta := look_back_delta r;
     prediction_delta := prediction_delta r; borders := b;
     users := users r; ratios := ratios r |}.

Definition set_max_date (d : date) (r : Rfmizer) : Rfmizer :=
  {| py := py r; conf_segments_count := conf_segments_count r;
     conf_output_columns := conf_output_columns r;
     max_date := d; look_back_delta := look_back_delta r;
     prediction_delta := prediction_delta r; borders := borders r;
     users := users r; ratios := ratios r |}.

Definition set_ratios (x : dict micro_segment Q) (r : Rfmizer) : Rfmizer :=
  {| py := py r; conf_segments_count := conf_segments_count r;
     conf_output_columns := conf_output_columns r;
     max_date := max_date r; look_back_delta := look_back_delta r;
     prediction_delta := prediction_delta r; borders := borders r;
     users := users r; ratios := x |}.

(** ** Order Aggregator: [load_input] *)

(** An input row after the column split of lines 118-130: the user id, the
    results of [parse_date] and [parse_value] on the date and value columns
    ([None] when the pattern does not match) and the remaining columns.
    A row on which [parse_date] raises, or which is too short for the
    configured columns, has no [Row]: [load_input] does not return on it. *)
Record Row : Type := mkRow {
  row_user_id : user_id;
  row_order_date : option date;
  row_order_value : option Q;
  row_dimensions : dict string dim_value
}.

(** Truth value of a parsed order value: [None] and [0.0] are false. *)
Definition truthy (v : option Q) : bool :=
  match v with
  | None => false
  | Some q => negb (Qeq_bool q 0)
  end.

(** Lines 134-140 on one user's [orders] dict. *)
Definition add_order (order_date : date) (order_value : option Q)
    (orders : dict date (option Q)) : dict date (option Q) :=
  let orders1 := if dmem order_date orders then orders
                 else dset order_date None orders in
  match order_value with
  | Some v =>
      if truthy order_value then
        match dget order_date orders1 with
        | Some (Some old) => dset order_date (Some (old + v)%Q) orders1
        | _ => dset order_date (Some v) orders1
        end
      else orders1
  | None => orders1
  end.

(** Lines 126-145: one row. *)
Definition load_row (row : Row) (r : Rfmizer) : Rfmizer :=
  match row_order_date row with
  | None => r
  | Some order_date =>
      let uid := row_user_id row in
      let u0 := match dget uid (users r) with
                | Some u => u
                | None => {| u_orders := []; u_max_date := order_date;
                             u_dimensions := row_dimensions row;
                             u_metrics := None |}
                end in
      let orders' := add_order order_date (row_order_value row) (u_orders u0) in
      let newer := u_max_date u0 <? order_date in
      let u1 := {| u_orders := orders';
                   u_max_date := if newer then order_date else u_max_date u0;
                   u_dimensions := if newer then row_dimensions row
                                   else u_dimensions u0;
                   u_metrics := u_metrics u0 |} in
      let r1 := set_users (dset uid u1 (users r)) r in
      if max_date r <? order_date then set_max_date order_date r1 else r1
  end.

(** [load_input]: [self.users = dict()], then every row in turn. *)
Definition load_input (rows : list Row) (r : Rfmizer) : Rfmizer :=
  fold_left (fun acc row => load_row row acc) rows (set_users [] r).

(** ** Metric Engine: [metricize] *)

(** The three locals of the inner loop of lines 160-169. *)
Record window_scan : Type := mkScan {
  w_orders : list (option Q);
  w_max_date : date;
  w_min_date : date
}.

(** Lines 164-169: one order date [d] with its stored value [v]. *)
Definition scan_order (start today : date) (w : window_scan)
    (dv : date * option Q) : window_scan :=
  let '(d, v) := dv in
  let w1 := if (start <=? d) && (d <=? today)
            then {| w_orders := w_orders w ++ [v];
                    w_max_date := if w_max_date w <? d then d else w_max_date w;
                    w_min_date := w_min_date w |}
            else w in
  if d <? w_min_date w1
  then {| w_orders := w_orders w1; w_max_date := w_max_date w1; w_min_date := d |}
  else w1.

Definition scan_orders (start today : date) (orders : dict date (option Q))
    : window_scan :=
  fold_left (scan_order start today) orders
    {| w_orders := []; w_max_date := date_2000_01_01;
       w_min_date := date_2200_01_01 |}.

(** [[o for o in orders if o is not None]] *)
Fixpoint non_null (orders : list (option Q)) : list Q :=
  match orders with
  | [] => []
  | Some q :: l => q :: non_null l
  | None :: l => non_null l
  end.

(** Python's [sum]: from [0], left to right. *)
Definition sum (l : list Q) : Q := fold_left Qplus l 0%Q.

Definition stale_metrics : Metrics :=
  {| m_recency := MStale; m_frequency := MStale; m_monetary := MStale |}.

Definition set_metrics (m : Metrics) (u : User) : User :=
  {| u_orders := u_orders u; u_max_date := u_max_date u;
     u_dimensions := u_dimensions u; u_metrics := Some m |}.

(** Lines 170-187 for one user: [None] when the uid joins [future_uids],
    otherwise the value assigned to [user['metrics']]. *)
Definition user_metrics (start today : date) (u : User) : option Metrics :=
  let w := scan_orders start today (u_orders u) in
  let orders_count := Z.of_nat (List.length (w_orders w)) in
  if orders_count =? 0 then
    if today <? w_min_date w then None else Some stale_metrics
  else
    let non_zero_orders := non_null (w_orders w) in
    let non_zero_orders_count := Z.of_nat (List.length non_zero_orders) in
    let non_zero_orders_sum := sum non_zero_orders in
    let average_order :=
      if 0 <? non_zero_orders_count
      then MNum (non_zero_orders_sum / inject_Z non_zero_orders_count)%Q
      else MNone in
    let days_passed := w_max_date w - today in
    Some {| m_recency := MNum (inject_Z days_passed);
            m_frequency := MNum (inject_Z orders_count);
            m_monetary := average_order |}.

(** The loop of lines 158-187: the users with their new metrics and the
    list [future_uids]. *)
Fixpoint metricize_users (start today : date) (us : dict user_id User)
    : dict user_id User * list user_id :=
  match us with
  | [] => ([], [])
  | (uid, u) :: rest =>
      let '(rest', future_uids) := metricize_users start today rest in
      match user_metrics start today u with
      | None => ((uid, u) :: rest', uid :: future_uids)
      | Some m => ((uid, set_metrics m u) :: rest', future_uids)
      end
  end.

Definition metricize (today : date) (r : Rfmizer) : Rfmizer :=
  let start := today - look_back_delta r in
  let '(us, future_uids) := metricize_users start today (users r) in
  set_users (fold_left (fun acc uid => ddel uid acc) future_uids us) r.

(** ** Sorting *)

(** [sorted] and [list.sort] are stable; so is insertion from the right
    that puts an element before its equals. *)
Section Sort.
Context {A : Type} (leb : A -> A -> bool).

Fixpoint insert_sorted (x : A) (l : list A) : list A :=
  match l with
  | [] => [x]
  | y :: l' => if leb x y then x :: l else y :: insert_sorted x l'
  end.

Definition sort_by (l : list A) : list A := fold_right insert_sorted [] l.
End Sort.

(** ** Segment Binner: [segmentize] *)

(** [a / b] for two ints and a non-zero [b]. *)
Definition int_div (v : py_version) (a b : Z) : Q :=
  match v with
  | Py2 => inject_Z (a / b)
  | Py3 => (inject_Z a / inject_Z b)%Q
  end.

Definition user_metric (d : dimension) (u : User) : result metric_value :=
  match u_metrics u with
  | Some m => Ok (metric_of d m)
  | None => Raise (KeyError at_metrics_lookup)
  end.

(** [user['dimensions'][dimension] = seg] *)
Definition set_segment (d : dimension) (seg : Z) (u : User) : User :=
  {| u_orders := u_orders u; u_max_date := u_max_date u;
     u_dimensions := dset (dimension_name d) (DInt seg) (u_dimensions u);
     u_metrics := u_metrics u |}.

Definition assign (d : dimension) (uid : user_id) (seg : Z)
    (us : dict user_id User) : dict user_id User :=
  match dget uid us with
  | Some u => dset uid (set_segment d seg u) us
  | None => us
  end.

(** Lines 203-211: the unranked users get their code, the others are
    collected, each with the metric the sort and the main loop read. *)
Fixpoint classify_unranked (d : dimension) (us : dict user_id User)
    : result (dict user_id User * list (user_id * Q)) :=
  match us with
  | [] => Ok ([], [])
  | (uid, u) :: rest =>
      m <- user_metric d u ;;
      '(rest', uids) <- classify_unranked d rest ;;
      match m with
      | MNone => Ok ((uid, set_segment d 1 u) :: rest', uids)
      | MStale => Ok ((uid, set_segment d 0 u) :: rest', uids)
      | MNum q => Ok ((uid, u) :: rest', (uid, q) :: uids)
      end
  end.

Definition metric_leb (x y : user_id * Q) : bool := Qle_bool (snd x) (snd y).

(** The locals the main loop carries, with the borders of the dimension. *)
Record cursor : Type := mkCursor {
  segment : Z;
  max_i : Q;
  prev_metric : Q;
  dim_borders : dict Z Q
}.

(** Lines 221-230 at index [i] and metric [metric]. *)
Definition advance (by_borders : bool) (v : py_version)
    (segments_count uids_count i : Z) (metric : Q) (c : cursor)
    : result cursor :=
  c1 <- (if by_borders then
           if segment c <? segments_count then
             match dget (segment c) (dim_borders c) with
             | None => Raise (KeyError at_border_lookup)
             | Some b =>
                 if Qle_bool b metric
                 then Ok {| segment := segment c + 1; max_i := max_i c;
                            prev_metric := prev_metric c;
                            dim_borders := dim_borders c |}
                 else Ok c
             end
           else Ok c
         else
           if Qle_bool (max_i c) (inject_Z i)
              && negb (Qeq_bool metric (prev_metric c))
           then
             let segment' := segment c + 1 in
             if segments_count - segment' + 1 =? 0
             then Raise (ZeroDivisionError at_next_max_i)
             else Ok {| segment := segment';
                        max_i := inject_Z i
                                 + int_div v (uids_count - i)
                                     (segments_count - segment' + 1);
                        prev_metric := prev_metric c;
                        dim_borders := dset (segment c) metric (dim_borders c) |}
           else Ok c) ;;
  Ok {| segment := segment c1; max_i := max_i c1; prev_metric := metric;
        dim_borders := dim_borders c1 |}.

(** The loop of lines 218-231 from index [i] on. *)
Fixpoint segmentize_loop (d : dimension) (by_borders : bool) (v : py_version)
    (segments_count uids_count i : Z) (uids : list (user_id * Q))
    (c : cursor) (us : dict user_id User)
    : result (cursor * dict user_id User) :=
  match uids with
  | [] => Ok (c, us)
  | (uid, metric) :: rest =>
      c' <- advance by_borders v segments_count uids_count i metric c ;;
      segmentize_loop d by_borders v segments_count uids_count (i + 1) rest
        c' (assign d uid (segment c') us)
  end.

(** Lines 213-217: the cursor before the loop. *)
Definition initial_cursor (by_borders : bool) (v : py_version)
    (segments_count : Z) (b : dict Z Q) (uids : list (user_id * Q))
    : result cursor :=
  if by_borders then
    Ok {| segment := 1; max_i := 0; prev_metric := 0; dim_borders := b |}
  else
    if segments_count =? 0 then Raise (ZeroDivisionError at_max_i)
    else
      match uids with
      | [] => Raise (IndexError at_first_ranked)
      | (_, m) :: _ =>
          Ok {| segment := 1;
                max_i := int_div v (Z.of_nat (List.length uids)) segments_count;
                prev_metric := m; dim_borders := b |}
      end.

Definition segmentize (d : dimension) (r : Rfmizer) : result Rfmizer :=
  let by_borders := dmem d (borders r) in
  let '(b, segments_count) :=
    match dget d (borders r) with
    | Some b => (b, Z.of_nat (List.length b) + 1)
    | None => ([], conf_segments_count r d)
    end in
  '(us1, uids0) <- classify_unranked d (users r) ;;
  let uids := sort_by metric_leb uids0 in
  let uids_count := Z.of_nat (List.length uids) in
  c0 <- initial_cursor by_borders (py r) segments_count b uids ;;
  '(c, us2) <- segmentize_loop d by_borders (py r) segments_count uids_count
                 0 uids c0 us1 ;;
  Ok (set_users us2 (set_borders (dset d (dim_borders c) (borders r)) r)).

(** [rfmize]: a [datetime] is always true, so [not today] means [None]. *)
Definition rfmize (today : option date) (r : Rfmizer) : result Rfmizer :=
  let today := match today with Some t => t | None => max_date r end in
  fold_left (fun acc d => r' <- acc ;; segmentize d r') RFM_DIMENSIONS
    (Ok (metricize today r)).

(** ** Output tables *)

Definition string_leb (a b : string) : bool :=
  match String.compare a b with
  | Gt => false
  | _ => true
  end.

(** [sorted(d.items())]: the keys of a dict are distinct, so the order of
    the pairs is the order of their keys. *)
Definition sorted_items (d : dict string dim_value) : list (string * dim_value) :=
  sort_by (fun x y => string_leb (fst x) (fst y)) d.

Definition first_user (us : dict user_id User) : result User :=
  match us with
  | [] => Raise (StopIteration at_first_user)
  | (_, u) :: _ => Ok u
  end.

Definition column_alias (columns : dict string string) (k : string)
    : result string :=
  match dget k columns with
  | Some a => Ok a
  | None => Raise (KeyError at_output_columns)
  end.

Fixpoint map_result {A B : Type} (f : A -> result B) (l : list A)
    : result (list B) :=
  match l with
  | [] => Ok []
  | a :: l' => b <- f a ;; bs <- map_result f l' ;; Ok (b :: bs)
  end.

(** [save_mapping]: the header and one row per user. *)
Definition save_mapping (r : Rfmizer)
    : result (list string * list (user_id * list dim_value)) :=
  u <- first_user (users r) ;;
  let dimensions := sort_by string_leb (dkeys (u_dimensions u)) in
  uid_col <- column_alias (conf_output_columns r) "user_id" ;;
  cols <- map_result (column_alias (conf_output_columns r)) dimensions ;;
  Ok (uid_col :: cols,
      map (fun '(uid, user) =>
             (uid, map snd (sorted_items (u_dimensions user))))
          (users r)).

Definition dimension_leb (a b : dimension) : bool :=
  string_leb (dimension_name a) (dimension_name b).

(** [save_borders]: the rows after the header, as (dimension, segment,
    border). *)
Definition save_borders (r : Rfmizer) : list (dimension * Z * Q) :=
  flat_map
    (fun dimension =>
       match dget dimension (borders r) with
       | Some b =>
           flat_map
             (fun segment =>
                match dget segment b with
                | Some x => [(dimension, segment, x)]
                | None => []
                end)
             (sort_by Z.leb (dkeys b))
       | None => []
       end)
    (sort_by dimension_leb (dkeys (borders r))).

(** ** Ratio Calculator: [rationize] *)

Definition dim_value_eqb (a b : dim_value) : bool :=
  match a, b with
  | DStr s, DStr t => String.eqb s t
  | DInt n, DInt m => Z.eqb n m
  | _, _ => false
  end.

Fixpoint micro_segment_eqb (a b : micro_segment) : bool :=
  match a, b with
  | [], [] => true
  | (k, x) :: a', (l, y) :: b' =>
      String.eqb k l && dim_value_eqb x y && micro_segment_eqb a' b'
  | _, _ => false
  end.

#[export] Instance EqKey_micro_segment : EqKey micro_segment := micro_segment_eqb.

(** [segments[segment]] *)
Record segment_stats : Type := mkStats {
  users_count : Z;
  orders_value : Q
}.

Definition prediction_date (r : Rfmizer) : date :=
  max_date r - prediction_delta r.

(** Lines 283-284: the user's order values dated after [prediction_date]. *)
Definition future_orders (prediction_date : date) (u : User) : list Q :=
  flat_map
    (fun '(d, v) =>
       match v with
       | Some q => if truthy v && (prediction_date <? d) then [q] else []
       | None => []
       end)
    (u_orders u).

(** Lines 280-292: one user. *)
Definition account_user (prediction_date : date)
    (acc : dict micro_segment segment_stats * Q) (entry : user_id * User)
    : dict micro_segment segment_stats * Q :=
  let '(segments, total_orders_value) := acc in
  let user := snd entry in
  let seg := sorted_items (u_dimensions user) in
  let value := sum (future_orders prediction_date user) in
  let total' := (total_orders_value + value)%Q in
  match dget seg segments with
  | None =>
      (dset seg {| users_count := 1; orders_value := value |} segments, total')
  | Some s =>
      (dset seg {| users_count := users_count s + 1;
                   orders_value := (orders_value s + value)%Q |} segments,
       total')
  end.

(** A float division: [ZeroDivisionError] on a zero divisor. *)
Definition checked_div (s : site) (a b : Q) : result Q :=
  if Qeq_bool b 0 then Raise (ZeroDivisionError s) else Ok (a / b)%Q.

(** The loop of lines 295-299. *)
Fixpoint segment_ratios (total_average_orders_value : Q)
    (segments : dict micro_segment segment_stats)
    : result (dict micro_segment Q) :=
  match segments with
  | [] => Ok []
  | (seg, s) :: rest =>
      x <- checked_div at_segment_ratio
             (orders_value s / inject_Z (users_count s))%Q
             total_average_orders_value ;;
      xs <- segment_ratios total_average_orders_value rest ;;
      Ok ((seg, x) :: xs)
  end.

(** Lines 278-292 on the users left by the second [rfmize]. *)
Definition account_users (prediction_date : date) (us : dict user_id User)
    : dict micro_segment segment_stats * Q :=
  fold_left (account_user prediction_date) us ([], 0%Q).

(** Lines 278-299: what [rationize] does after its call of [rfmize]. *)
Definition compute_ratios (prediction_date : date) (r1 : Rfmizer)
    : result Rfmizer :=
  let '(segments, total_orders_value) :=
    account_users prediction_date (users r1) in
  total_average_orders_value <-
    checked_div at_population_mean total_orders_value
      (inject_Z (Z.of_nat (List.length (users r1)))) ;;
  x <- segment_ratios total_average_orders_value segments ;;
  Ok (set_ratios x r1).

Definition rationize (r : Rfmizer) : result Rfmizer :=
  let prediction_date := prediction_date r in
  r1 <- rfmize (Some prediction_date) r ;;
  compute_ratios prediction_date r1.

(** [save_ratios]: the header and one row per micro segment. *)
Definition save_ratios (r : Rfmizer)
    : result (list string * list (list dim_value * Q)) :=
  u <- first_user (users r) ;;
  let dimensions := sort_by string_leb (dkeys (u_dimensions u)) in
  Ok (dimensions ++ ["bid ratio"%string],
      map (fun '(seg, x) => (map snd seg, x)) (ratios r)).

Record Output : Type := mkOutput {
  out_mapping : list string * list (user_id * list dim_value);
  out_borders : list (dimension * Z * Q);
  out_ratios : list string * list (list dim_value * Q)
}.

(** [save_output] *)
Definition save_output (r : Rfmizer) : result (Rfmizer * Output) :=
  r1 <- rfmize None r ;;
  mapping <- save_mapping r1 ;;
  let brd := save_borders r1 in
  r2 <- rationize r1 ;;
  rat <- save_ratios r2 ;;
  Ok (r2, {| out_mapping := mapping; out_borders := brd; out_ratios := rat |}).

(** ** The iteration order of [RFM_DIMENSIONS]

    [rfmize], [rationize] and [save_output] with the order in which the
    set [RFM_DIMENSIONS] iterates as an argument: within one run every
    loop over the set visits the dimensions in the same order. *)

Definition rfmize_in (order : list dimension) (today : option date)
    (r : Rfmizer) : result Rfmizer :=
  let today := match today with Some t => t | None => max_date r end in
  fold_left (fun acc d => r' <- acc ;; segmentize d r') order
    (Ok (metricize today r)).

Definition rationize_in (order : list dimension) (r : Rfmizer)
    : result Rfmizer :=
  let prediction_date := prediction_date r in
  r1 <- rfmize_in order (Some prediction_date) r ;;
  compute_ratios prediction_date r1.

Definition save_output_in (order : list dimension) (r : Rfmizer)
    : result (Rfmizer * Output) :=
  r1 <- rfmize_in order None r ;;
  mapping <- save_mapping r1 ;;
  let brd := save_borders r1 in
  r2 <- rationize_in order r1 ;;
  rat <- save_ratios r2 ;;
  Ok (r2, {| out_mapping := mapping; out_borders := brd; out_ratios := rat |}).

(** ** Notions used by the statements *)

(** The segments the main loop hands out, in the order of the loop, each
    with the user and the metric it was decided on. *)
Fixpoint loop_assignments (by_borders : bool) (v : py_version)
    (segments_count uids_count i : Z) (uids : list (user_id * Q))
    (c : cursor) : result (cursor * list (user_id * Q * Z)) :=
  match uids with
  | [] => Ok (c, [])
  | (uid, metric) :: rest =>
      c' <- advance by_borders v segments_count uids_count i metric c ;;
      '(c'', asg) <- loop_assignments by_borders v segments_count uids_count
                       (i + 1) rest c' ;;
      Ok (c'', (uid, metric, segment c') :: asg)
  end.

Definition assign_all (d : dimension) (asg : list (user_id * Q * Z))
    (us : dict user_id User) : dict user_id User :=
  fold_left (fun acc e => assign d (fst (fst e)) (snd e) acc) asg us.

(** Frozen-border classification as section 4.4 of the specification words
    it: walk the sorted list once; a customer enters the next segment once
    its metric reaches the recorded lower bound of that segment.  It reads
    the recorded borders [b] and nothing else of the engine. *)
Fixpoint walk_frozen (b : dict Z Q) (seg : Z) (uids : list (user_id * Q))
    : result (list (user_id * Q * Z)) :=
  match uids with
  | [] => Ok []
  | (uid, q) :: rest =>
      seg' <- (if seg <? Z.of_nat (List.length b) + 1 then
                 match dget seg b with
                 | None => Raise (KeyError at_border_lookup)
                 | Some x => Ok (if Qle_bool x q then seg + 1 else seg)
                 end
               else Ok seg) ;;
      asg <- walk_frozen b seg' rest ;;
      Ok ((uid, q, seg') :: asg)
  end.

Definition apply_borders (d : dimension) (b : dict Z Q)
    (us : dict user_id User) : result (dict user_id User) :=
  '(us1, uids0) <- classify_unranked d us ;;
  asg <- walk_frozen b 1 (sort_by metric_leb uids0) ;;
  Ok (assign_all d asg us1).

Definition segmentize_by_borders (bs : dict dimension (dict Z Q))
    (d : dimension) (r : Rfmizer) : result Rfmizer :=
  match dget d bs with
  | Some b => us <- apply_borders d b (users r) ;; Ok (set_users us r)
  | None => Raise (KeyError at_border_lookup)
  end.

(** The Metric Engine at [today], then the Segment Binner in frozen-border
    mode on the borders [bs] for each dimension. *)
Definition rfmize_by_borders (bs : dict dimension (dict Z Q)) (today : date)
    (r : Rfmizer) : result Rfmizer :=
  fold_left (fun acc d => r' <- acc ;; segmentize_by_borders bs d r')
    RFM_DIMENSIONS (Ok (metricize today r)).

(** The re-run as section 4.5 of the specification words it: the binner
    starts from no recorded borders. *)
Definition rfmize_fresh_borders (today : date) (r : Rfmizer) : result Rfmizer :=
  rfmize (Some today) (set_borders [] r).

(** The calls a client can make on an engine. *)
Inductive operation : Type :=
| op_load_input (rows : list Row)
| op_metricize (today : date)
| op_segmentize (d : dimension)
| op_rfmize (today : option date)
| op_rationize.

Definition run (o : operation) (r : Rfmizer) : result Rfmizer :=
  match o with
  | op_load_input rows => Ok (load_input rows r)
  | op_metricize today => Ok (metricize today r)
  | op_segmentize d => segmentize d r
  | op_rfmize today => rfmize today r
  | op_rationize => rationize r
  end.

(** [later r r']: the engine reaches [r'] from [r] by calls that return. *)
Inductive later : Rfmizer -> Rfmizer -> Prop :=
| later_now : forall r, later r r
| later_call : forall r o r1 r2, run o r = Ok r1 -> later r1 r2 -> later r r2.

(** The user [uid] is ranked for [d] with metric [q]. *)
Definition ranked (d : dimension) (r : Rfmizer) (uid : user_id) (q : Q) : Prop :=
  exists u, dget uid (users r) = Some u /\ user_metric d u = Ok (MNum q).

(** The user [uid] holds segment [s] for [d]. *)
Definition segment_of (d : dimension) (r : Rfmizer) (uid : user_id) (s : Z) : Prop :=
  exists u, dget uid (users r) = Some u
            /\ dget (dimension_name d) (u_dimensions u) = Some (DInt s).

(** No user is rankable for [d]: every metric is [None] or ['stale']. *)
Definition all_unranked (d : dimension) (r : Rfmizer) : Prop :=
  forall uid u, In (uid, u) (users r) ->
    user_metric d u = Ok MNone \/ user_metric d u = Ok MStale.

(** [tuple(sorted(user['dimensions'].items()))] of user [uid]. *)
Definition user_micro_segment (uid : user_id) (r : Rfmizer) : option micro_segment :=
  match dget uid (users r) with
  | Some u => Some (sorted_items (u_dimensions u))
  | None => None
  end.

(** The dates [load_input] parses, in the order of the rows. *)
Definition parsed_dates (rows : list Row) : list date :=
  flat_map (fun row => match row_order_date row with
                       | Some d => [d]
                       | None => []
                       end) rows.

(** [user['orders'][d]] of user [uid]: [None] when the user or the date is
    missing, [Some None] for a date without a value. *)
Definition stored_value (uid : user_id) (d : date) (r : Rfmizer)
    : option (option Q) :=
  match dget uid (users r) with
  | Some u => dget d (u_orders u)
  | None => None
  end.

(** The parsed values of the rows of user [uid] dated [d], in row order. *)
Definition matching_values (uid : user_id) (d : date) (rows : list Row)
    : list (option Q) :=
  flat_map (fun row =>
              match row_order_date row with
              | Some d' =>
                  if String.eqb uid (row_user_id row) && Z.eqb d d'
                  then [row_order_value row] else []
              | None => []
              end) rows.

(** Section 4.1 of the specification on one date: parsed values are summed,
    a null plus a number yields that number. *)
Definition summed_as_specified (values : list (option Q)) : option Q :=
  fold_left (fun stored parsed =>
               match stored, parsed with
               | _, None => stored
               | None, Some v => Some v
               | Some s, Some v => Some (s + v)%Q
               end) values None.

(** What lines 136-140 leave in [orders[order_date]], from what is stored
    there ([None] also for a fresh entry) and the parsed value. *)
Definition accumulate (stored parsed : option Q) : option Q :=
  if truthy parsed then
    match stored, parsed with
    | Some s, Some v => Some (s + v)%Q
    | None, Some v => Some v
    | _, None => stored
    end
  else stored.

(** A missing entry reads as a null value. *)
Definition flat {A : Type} (x : option (option A)) : option A :=
  match x with
  | Some y => y
  | None => None
  end.

(** One more row for a date: the entry exists afterwards. *)
Definition store_step (acc : option (option Q)) (v : option Q)
    : option (option Q) :=
  Some (accumulate (flat acc) v).

(** [user['metrics']] of user [uid]. *)
Definition metrics_of (uid : user_id) (r : Rfmizer) : option Metrics :=
  match dget uid (users r) with
  | Some u => u_metrics u
  | None => None
  end.

(** The value a call returned, [default] if it raised. *)
Definition result_or {A : Type} (x : result A) (default : A) : A :=
  match x with
  | Ok a => a
  | Raise _ => default
  end.

(** What a list of assignments does to the record of user [uid]. *)
Definition apply_assignments (d : dimension) (uid : user_id)
    (asg : list (user_id * Q * Z)) (u : User) : User :=
  fold_left (fun (acc : User) (e : user_id * Q * Z) =>
               if String.eqb uid (fst (fst e))
               then set_segment d (snd e) acc else acc) asg u.

(** The order [uids.sort] sorts by. *)
Definition metric_le (x y : user_id * Q) : Prop := (snd x <= snd y)%Q.

(** The entries of an [orders] dict dated within [start, today]. *)
Definition in_window (start today : date) (orders : dict date (option Q))
    : dict date (option Q) :=
  filter (fun dv => Z.leb start (fst dv) && Z.leb (fst dv) today) orders.

(** [sum / count] of a list of values, [None] for the empty list. *)
Definition mean (vs : list Q) : metric_value :=
  if Z.ltb 0 (Z.of_nat (List.length vs))
  then MNum (sum vs / inject_Z (Z.of_nat (List.length vs)))%Q
  else MNone.

(** The row has a date that [parse_date] accepts. *)
Definition dated (row : Row) : bool :=
  match row_order_date row with
  | Some _ => true
  | None => false
  end.

(** The row is an order of user [uid] dated [d]. *)
Definition row_matches (uid : user_id) (d : date) (row : Row) : bool :=
  String.eqb uid (row_user_id row)
  && match row_order_date row with
     | Some d' => Z.eqb d d'
     | None => false
     end.

(** The first row of the input that is an order of [uid] dated [d]. *)
Definition first_row (uid : user_id) (d : date) (rows : list Row) : option Row :=
  find (row_matches uid d) rows.

(** The users [metricize] leaves: those that are not future, in their
    order, each with its new metrics. *)
Definition measured_users (start today : date) (us : dict user_id User)
    : dict user_id User :=
  flat_map (fun entry : user_id * User =>
              match user_metrics start today (snd entry) with
              | Some m => [(fst entry, set_metrics m (snd entry))]
              | None => []
              end) us.

(** Lines 198-202: the number of segments a call of [segmentize] works
    with. *)
Definition segments_in_force (d : dimension) (r : Rfmizer) : Z :=
  match dget d (borders r) with
  | Some b => Z.of_nat (List.length b) + 1
  | None => conf_segments_count r d
  end.

(** Lines 206-209 on one user: the code of an unranked user. *)
Definition code_unranked (d : dimension) (u : User) : User :=
  match user_metric d u with
  | Ok MNone => set_segment d 1 u
  | Ok MStale => set_segment d 0 u
  | _ => u
  end.

(** Every user has a ['metrics'] entry. *)
Definition all_measured (us : dict user_id User) : Prop :=
  forall uid u, In (uid, u) us -> u_metrics u <> None.

(** The borders are recorded for the segment numbers 1, 2, ... without a
    gap. *)
Definition contiguous (b : dict Z Q) : Prop :=
  forall s, 1 <= s <= Z.of_nat (List.length b) -> dmem s b = true.

(** What the loop of the fresh-border mode keeps true of its cursor: the
    segment is at least 1 and, for a positive count, at most the count,
    the target index being the number of ranked users once the last
    segment is open. *)
Definition fresh_cursor_ok (sc n : Z) (c : cursor) : Prop :=
  1 <= segment c
  /\ (sc < 1
      \/ (segment c <= sc
          /\ (segment c = sc -> (inject_Z n <= max_i c)%Q))).

(** An engine after a primary run: distinct user ids, metrics for every
    user, and for every dimension recorded borders without a gap. *)
Definition primed (r : Rfmizer) : Prop :=
  wf_dict (users r) = true
  /\ all_measured (users r)
  /\ forall d, exists b, dget d (borders r) = Some b /\ contiguous b.

(** The bid ratio the engine holds for a user: the ratio of the user's
    micro segment, [0] standing for a micro segment without a ratio. *)
Definition bid_ratio (r : Rfmizer) (u : User) : Q :=
  match dget (sorted_items (u_dimensions u)) (ratios r) with
  | Some x => x
  | None => 0%Q
  end.

(** An engine on which [segmentize] can be replayed: distinct user ids,
    metrics for every user, and no gap in any recorded borders. *)
Definition replayable (r : Rfmizer) : Prop :=
  wf_dict (users r) = true
  /\ all_measured (users r)
  /\ forall d b, dget d (borders r) = Some b -> contiguous b.

(** ** Concrete engines and inputs *)

Open Scope string_scope.
Open Scope list_scope.

(** [conf['rfmizer']['output_columns']] of the examples. *)
Definition example_columns : dict string string :=
  [("user_id", "uid"); ("recency", "r"); ("frequency", "f");
   ("monetary", "m")].

(** A new engine: two segments per dimension, a look-back of [look_back]
    days and a prediction period of 30 days. *)
Definition example_engine (v : py_version) (look_back : Z) : Rfmizer :=
  init v (fun _ => 2) example_columns look_back 30.

(** 1999-12-25, 1999-12-31, 2000-01-10 and 2020-03-01. *)
Definition date_1999_12_25 : date := 730113.
Definition date_1999_12_31 : date := 730119.
Definition date_2000_01_10 : date := 730129.
Definition date_2020_03_01 : date := 737485.

(** One order on 1999-12-31. *)
Definition rows_before_2000 : list Row :=
  [ mkRow "A" (Some date_1999_12_31) (Some 5%Q) [] ].

(** One order of value zero, and two orders of $10 and $5 on one day. *)
Definition rows_zero_value : list Row :=
  [ mkRow "A" (Some date_2020_03_01) (Some 0%Q) [] ].
Definition rows_ten_and_five : list Row :=
  [ mkRow "A" (Some date_2020_03_01) (Some 10%Q) [];
    mkRow "A" (Some date_2020_03_01) (Some 5%Q) [] ].

(** An order on 1999-12-25 and, for another user, one on 2000-01-10. *)
Definition rows_around_2000 : list Row :=
  [ mkRow "A" (Some date_1999_12_25) (Some 5%Q) [];
    mkRow "B" (Some date_2000_01_10) (Some 5%Q) [] ].

(** Customer A orders 100 and 90 days before 2020-03-01 and on that day,
    customer B once, 100 days before it; every order is of $10. *)
Definition rows_two_customers : list Row :=
  [ mkRow "A" (Some (date_2020_03_01 - 100)) (Some 10%Q) [];
    mkRow "B" (Some (date_2020_03_01 - 100)) (Some 10%Q) [];
    mkRow "A" (Some (date_2020_03_01 - 90)) (Some 10%Q) [];
    mkRow "A" (Some date_2020_03_01) (Some 10%Q) [] ].

(** The engine that has read that log. *)
Definition engine_two_customers (v : py_version) : Rfmizer :=
  load_input rows_two_customers (example_engine v 1000).

(** The same engine after the Metric Engine ran as of its [max_date]. *)
Definition metricized_two_customers (v : py_version) : Rfmizer :=
  metricize (max_date (engine_two_customers v)) (engine_two_customers v).

(** The engine of the two customers after the Metric Engine and
    [segmentize('frequency')]. *)
Definition frequency_segmented_two_customers : Rfmizer :=
  result_or (segmentize frequency (metricized_two_customers Py3))
    (metricized_two_customers Py3).

(** One customer whose only order has no parseable value, after the Metric
    Engine ran as of the day of that order, without and with recorded
    borders for the monetary dimension. *)
Definition rows_without_value : list Row :=
  [ mkRow "A" (Some date_2020_03_01) None [] ].

(** Without recorded borders. *)
Definition metricized_without_value : Rfmizer :=
  metricize date_2020_03_01
    (load_input rows_without_value (example_engine Py3 365)).

(** With borders recorded for the monetary dimension. *)
Definition metricized_without_value_recorded : Rfmizer :=
  set_borders [(monetary, [(1, 7%Q)])] metricized_without_value.

(** The engine of the two customers after the primary run of
    [save_output]. *)
Definition primary_two_customers : Rfmizer :=
  result_or (rfmize None (engine_two_customers Py3))
    (engine_two_customers Py3).

(** One customer with one order, on 2020-03-01; and the engine after the
    primary run on that log. *)
Definition rows_single_order : list Row :=
  [ mkRow "A" (Some date_2020_03_01) (Some 10%Q) [] ].

Definition primary_single_order : Rfmizer :=
  result_or (rfmize None (load_input rows_single_order (example_engine Py3 365)))
    (example_engine Py3 365).




(** The value of an option, [default] when there is none. *)
Definition option_or {A : Type} (x : option A) (default : A) : A :=
  match x with
  | Some a => a
  | None => default
  end.

Definition no_user : User :=
  {| u_orders := []; u_max_date := 0; u_dimensions := []; u_metrics := None |}.

(** Customer A of the two-customer log, as [load_input] leaves it. *)
Definition customer_A_loaded : User :=
  option_or (dget "A" (users (engine_two_customers Py3))) no_user.

(** The engine of the two customers after the primary run and
    [rationize]. *)
Definition rationized_two_customers : Rfmizer :=
  result_or (rationize primary_two_customers) primary_two_customers.

(** Two rows of one customer and date, both with the value zero, and a
    row without a value followed by one with the value zero. *)
Definition rows_two_zero_values : list Row :=
  [ mkRow "A" (Some date_2020_03_01) (Some 0%Q) [];
    mkRow "A" (Some date_2020_03_01) (Some 0%Q) [] ].

Definition rows_null_then_zero : list Row :=
  [ mkRow "A" (Some date_2020_03_01) None [];
    mkRow "A" (Some date_2020_03_01) (Some 0%Q) [] ].

(** The customer without a parseable value, under a configuration with a
    segments count of zero. *)
Definition metricized_without_value_zero_count : Rfmizer :=
  metricize date_2020_03_01
    (load_input rows_without_value
       (init Py3 (fun _ => 0) example_columns 365 30)).

(** An order in which the set can iterate, and a configuration whose
    recency count is zero. *)
Definition order_frequency_first : list dimension :=
  [frequency; monetary; recency].

Definition counts_recency_zero (d : dimension) : Z :=
  match d with
  | recency => 0
  | _ => 3
  end.

Close Scope string_scope.

(** * Properties *)

Unset Implicit Arguments.

(** Splits a conjunction of closed facts and evaluates each. *)
Ltac conjuncts := repeat match goal with |- _ /\ _ => split end.
Ltac evaluate := vm_compute; reflexivity.

(** ** Dictionaries *)

#[export] Instance EqKeyOk_Z : EqKeyOk Z.
Proof. intros a b. apply Z.eqb_eq. Qed.

#[export] Instance EqKeyOk_string : EqKeyOk string.
Proof. intros a b. apply String.eqb_eq. Qed.

#[export] Instance EqKeyOk_dimension : EqKeyOk dimension.
Proof.
  intros a b. unfold keyb, EqKey_dimension.
  destruct a, b; simpl; split; intro E; try reflexivity; discriminate E.
Qed.

Section DictFacts.
Context {K V : Type} {EK : EqKey K} {EOk : EqKeyOk K}.

Lemma keyb_refl (k : K) : keyb k k = true.
Proof. apply keyb_eq. reflexivity. Qed.

Lemma keyb_neq (a b : K) : keyb a b = false <-> a <> b.
Proof.
  split.
  - intros E F. apply keyb_eq in F. congruence.
  - intros N. destruct (keyb a b) eqn:E; [|reflexivity].
    apply keyb_eq in E. contradiction.
Qed.

Lemma keyb_dec (a b : K) : {a = b} + {a <> b}.
Proof.
  destruct (keyb a b) eqn:E.
  - left. apply keyb_eq. exact E.
  - right. apply keyb_neq. exact E.
Qed.

Lemma dget_dset_same (k : K) (v : V) (d : dict K V) :
  dget k (dset k v d) = Some v.
Proof.
  induction d as [|[k' v'] d IH]; simpl.
  - rewrite keyb_refl. reflexivity.
  - destruct (keyb k k') eqn:E; simpl; rewrite E; [reflexivity|exact IH].
Qed.

Lemma dget_dset_other (k k' : K) (v : V) (d : dict K V) :
  k <> k' -> dget k (dset k' v d) = dget k d.
Proof.
  intros N. induction d as [|[k'' v''] d IH]; simpl.
  - apply keyb_neq in N. rewrite N. reflexivity.
  - destruct (keyb k' k'') eqn:E; simpl.
    + apply keyb_eq in E. subst k''.
      apply keyb_neq in N. rewrite N. reflexivity.
    + rewrite IH. reflexivity.
Qed.

Lemma dget_dset (k k' : K) (v : V) (d : dict K V) :
  dget k (dset k' v d) = if keyb k k' then Some v else dget k d.
Proof.
  destruct (keyb k k') eqn:E.
  - apply keyb_eq in E. subst. apply dget_dset_same.
  - apply dget_dset_other. apply keyb_neq. exact E.
Qed.

Lemma dset_same (k : K) (v : V) (d : dict K V) :
  dget k d = Some v -> dset k v d = d.
Proof.
  induction d as [|[k' v'] d IH]; simpl; [discriminate|].
  destruct (keyb k k') eqn:E.
  - intros [= ->]. reflexivity.
  - intros G. rewrite (IH G). reflexivity.
Qed.

Lemma dmem_dget (k : K) (d : dict K V) :
  dmem k d = true <-> exists v, dget k d = Some v.
Proof.
  unfold dmem. destruct (dget k d) as [v|]; split.
  - intros _. exists v. reflexivity.
  - reflexivity.
  - discriminate.
  - intros [v E]. discriminate E.
Qed.

Lemma dget_In (k : K) (v : V) (d : dict K V) :
  dget k d = Some v -> In (k, v) d.
Proof.
  induction d as [|[k' v'] d IH]; simpl; [discriminate|].
  destruct (keyb k k') eqn:E.
  - intros [= ->]. apply keyb_eq in E. subst. left. reflexivity.
  - intros G. right. apply IH. exact G.
Qed.

Lemma dget_None_keys (k : K) (d : dict K V) :
  dget k d = None <-> ~ In k (dkeys d).
Proof.
  induction d as [|[k' v'] d IH]; simpl.
  - split; [intros _ []|reflexivity].
  - destruct (keyb k k') eqn:E.
    + apply keyb_eq in E. subst. split; [discriminate|].
      intros N. exfalso. apply N. left. reflexivity.
    + apply keyb_neq in E. rewrite IH. split.
      * intros N [F|F]; [congruence|contradiction].
      * intros N F. apply N. right. exact F.
Qed.

Lemma wf_dict_NoDup (d : dict K V) :
  wf_dict d = true <-> NoDup (dkeys d).
Proof.
  induction d as [|[k v] d IH]; simpl.
  - split; [constructor|reflexivity].
  - rewrite andb_true_iff, negb_true_iff, IH. split.
    + intros [M N]. constructor; [|exact N].
      apply dget_None_keys. unfold dmem in M.
      destruct (dget k d); [discriminate|reflexivity].
    + intros N. inversion N as [|? ? N1 N2]; subst. split; [|exact N2].
      apply dget_None_keys in N1. unfold dmem. rewrite N1. reflexivity.
Qed.

Lemma In_dget (k : K) (v : V) (d : dict K V) :
  NoDup (dkeys d) -> In (k, v) d -> dget k d = Some v.
Proof.
  induction d as [|[k' v'] d IH]; simpl; [intros _ []|].
  intros N. inversion N as [|? ? N1 N2]; subst.
  intros [E|I].
  - injection E as -> ->. rewrite keyb_refl. reflexivity.
  - destruct (keyb k k') eqn:E.
    + apply keyb_eq in E. subst. exfalso. apply N1.
      apply (in_map fst) in I. exact I.
    + apply IH; assumption.
Qed.

Lemma dkeys_dset_present (k : K) (v : V) (d : dict K V) :
  dmem k d = true -> dkeys (dset k v d) = dkeys d.
Proof.
  unfold dmem. induction d as [|[k' v'] d IH]; simpl; [discriminate|].
  destruct (keyb k k') eqn:E; simpl; [reflexivity|].
  intros M. rewrite (IH M). reflexivity.
Qed.
End DictFacts.

(** ** Order Aggregator *)

Lemma load_row_max_date (row : Row) (r : Rfmizer) :
  max_date (load_row row r)
  = match row_order_date row with
    | Some d => Z.max (max_date r) d
    | None => max_date r
    end.
Proof.
  unfold load_row. destruct (row_order_date row) as [d|]; [|reflexivity].
  destruct (max_date r <? d) eqn:E; simpl.
  - apply Z.ltb_lt in E. lia.
  - apply Z.ltb_ge in E. lia.
Qed.

Lemma fold_load_row_max_date (rows : list Row) (r : Rfmizer) :
  max_date (fold_left (fun acc row => load_row row acc) rows r)
  = fold_left Z.max (parsed_dates rows) (max_date r).
Proof.
  revert r. induction rows as [|row rows IH]; intros r; simpl.
  - reflexivity.
  - rewrite IH, load_row_max_date, fold_left_app.
    destruct (row_order_date row); reflexivity.
Qed.

(** The engine's [max_date] is the largest of its previous value and the
    parsed dates; a new engine starts from 2000-01-01. *)
Lemma load_input_max_date (rows : list Row) (r : Rfmizer) :
  max_date (load_input rows r)
  = fold_left Z.max (parsed_dates rows) (max_date r).
Proof. unfold load_input. rewrite fold_load_row_max_date. reflexivity. Qed.

(** C8, at an input whose only order is dated 1999-12-31: the largest
    parsed date is 1999-12-31, and [load_input] leaves [max_date] at
    2000-01-01, the value [__init__] gave it. *)
Theorem load_input_max_date_before_2000 :
  forall v : py_version,
    parsed_dates rows_before_2000 = [date_1999_12_31]
    /\ max_date (load_input rows_before_2000 (example_engine v 365))
       = date_2000_01_01
    /\ date_1999_12_31 < date_2000_01_01.
Proof.
  intros v. split; [reflexivity|]. split; [|reflexivity].
  rewrite load_input_max_date. vm_compute. reflexivity.
Qed.

Lemma add_order_same (d : date) (v : option Q) (orders : dict date (option Q)) :
  dget d (add_order d v orders) = Some (accumulate (flat (dget d orders)) v).
Proof.
  unfold add_order, accumulate, dmem.
  destruct (dget d orders) as [old|] eqn:G; simpl.
  - destruct v as [q|]; simpl; [|exact G].
    destruct (negb (Qeq_bool q 0)); [|exact G].
    rewrite G. destruct old; apply dget_dset_same.
  - destruct v as [q|]; simpl; [|apply dget_dset_same].
    destruct (negb (Qeq_bool q 0)); [|apply dget_dset_same].
    rewrite dget_dset_same. apply dget_dset_same.
Qed.

Lemma add_order_other (d d' : date) (v : option Q)
    (orders : dict date (option Q)) :
  d <> d' -> dget d (add_order d' v orders) = dget d orders.
Proof.
  intros N. unfold add_order.
  assert (G : dget d (if dmem d' orders then orders else dset d' None orders)
              = dget d orders).
  { destruct (dmem d' orders); [reflexivity|].
    apply dget_dset_other. exact N. }
  destruct v as [q|]; [|exact G].
  destruct (truthy (Some q)); [|exact G].
  destruct (dget d' _) as [[old|]|]; rewrite dget_dset_other; assumption.
Qed.

Lemma stored_value_set_max_date (uid : user_id) (d x : date) (r : Rfmizer) :
  stored_value uid d (set_max_date x r) = stored_value uid d r.
Proof. reflexivity. Qed.

Lemma stored_value_load_row (uid : user_id) (d : date) (row : Row)
    (r : Rfmizer) :
  stored_value uid d (load_row row r)
  = match row_order_date row with
    | Some d' =>
        if String.eqb uid (row_user_id row) && Z.eqb d d'
        then Some (accumulate (flat (stored_value uid d r))
                     (row_order_value row))
        else stored_value uid d r
    | None => stored_value uid d r
    end.
Proof.
  unfold load_row. destruct (row_order_date row) as [d'|]; [|reflexivity].
  match goal with
  | |- stored_value _ _ (if ?c then set_max_date ?x ?a else ?a) = _ =>
      replace (stored_value uid d (if c then set_max_date x a else a))
        with (stored_value uid d a) by (destruct c; reflexivity)
  end.
  unfold stored_value at 1. simpl users.
  destruct (String.eqb uid (row_user_id row)) eqn:U; simpl andb.
  - apply String.eqb_eq in U. subst uid.
    rewrite dget_dset_same. simpl u_orders.
    unfold stored_value.
    destruct (Z.eqb d d') eqn:D.
    + apply Z.eqb_eq in D. subst d'. rewrite add_order_same.
      destruct (dget (row_user_id row) (users r)); reflexivity.
    + apply Z.eqb_neq in D. rewrite add_order_other by exact D.
      destruct (dget (row_user_id row) (users r)); reflexivity.
  - apply String.eqb_neq in U. rewrite dget_dset_other by exact U.
    reflexivity.
Qed.


Lemma stored_value_fold_load_row (uid : user_id) (d : date)
    (rows : list Row) (r : Rfmizer) :
  stored_value uid d (fold_left (fun acc row => load_row row acc) rows r)
  = fold_left store_step (matching_values uid d rows) (stored_value uid d r).
Proof.
  revert r. induction rows as [|row rows IH]; intros r; simpl; [reflexivity|].
  rewrite IH, stored_value_load_row, fold_left_app.
  destruct (row_order_date row) as [d'|]; [|reflexivity].
  destruct (String.eqb uid (row_user_id row) && Z.eqb d d'); reflexivity.
Qed.

Lemma sum_from (l : list Q) (a : Q) :
  (fold_left Qplus l a == a + sum l)%Q.
Proof.
  unfold sum. revert a. induction l as [|x l IH]; intros a; simpl.
  - ring.
  - rewrite IH, (IH (0 + x)%Q). ring.
Qed.

Lemma sum_cons (x : Q) (l : list Q) : (sum (x :: l) == x + sum l)%Q.
Proof. unfold sum at 1. simpl. rewrite sum_from. ring. Qed.

Lemma truthy_false_zero (q : Q) : truthy (Some q) = false -> (q == 0)%Q.
Proof.
  simpl. intros E. apply negb_false_iff in E. apply Qeq_bool_iff. exact E.
Qed.

(** Folding [accumulate]: the result is null exactly when it started null
    and no value was non-zero; otherwise it is the start plus the sum of the
    parsed values. *)
Lemma fold_accumulate (vs : list (option Q)) (a : option Q) :
  match fold_left accumulate vs a with
  | None => a = None /\ Forall (fun v => truthy v = false) vs
  | Some q =>
      (q == match a with Some s => s | None => 0 end + sum (non_null vs))%Q
      /\ (a = None -> Exists (fun v => truthy v = true) vs)
  end.
Proof.
  revert a. induction vs as [|v vs IH]; intros a; simpl.
  - destruct a as [s|].
    + split; [unfold sum; simpl; ring|discriminate].
    + split; [reflexivity|constructor].
  - specialize (IH (accumulate a v)).
    destruct (fold_left accumulate vs (accumulate a v)) as [q|].
    + destruct IH as [IH1 IH2]. unfold accumulate in IH1, IH2.
      destruct (truthy v) eqn:T.
      * split; [|intros _; left; exact T].
        destruct v as [x|]; [|discriminate T].
        rewrite sum_cons. destruct a as [s|]; rewrite IH1; ring.
      * split.
        -- destruct v as [x|].
           ++ rewrite sum_cons, (truthy_false_zero _ T), IH1. ring.
           ++ exact IH1.
        -- intros A. right. apply IH2. exact A.
    + destruct IH as [IH1 IH2]. unfold accumulate in IH1.
      destruct (truthy v) eqn:T.
      * destruct v as [x|]; [|discriminate T].
        destruct a; discriminate IH1.
      * split; [exact IH1|]. constructor; assumption.
Qed.

Lemma fold_store_step (vs : list (option Q)) (acc : option (option Q)) :
  fold_left store_step vs acc
  = match vs with
    | [] => acc
    | _ :: _ => Some (fold_left accumulate vs (flat acc))
    end.
Proof.
  revert acc. induction vs as [|v vs IH]; intros acc; [reflexivity|].
  simpl. rewrite IH. destruct vs; reflexivity.
Qed.

(** C6, as the code has it: a customer's date holds no entry when no row
    carries it; otherwise its stored value is null when none of the rows'
    parsed values is non-zero, and the sum of the rows' parsed values when
    one is.  Two same-date orders of $10 and $5 are stored as $15. *)
Theorem load_input_sums_same_date_values :
  forall (rows : list Row) (r : Rfmizer) (uid : user_id) (d : date),
    match matching_values uid d rows with
    | [] => stored_value uid d (load_input rows r) = None
    | _ :: _ =>
        exists x, stored_value uid d (load_input rows r) = Some x
          /\ match x with
             | None => Forall (fun v => truthy v = false)
                         (matching_values uid d rows)
             | Some q =>
                 (q == sum (non_null (matching_values uid d rows)))%Q
                 /\ Exists (fun v => truthy v = true)
                      (matching_values uid d rows)
             end
    end
    /\ forall v, stored_value "A"%string date_2020_03_01
                   (load_input rows_ten_and_five (example_engine v 365))
                 = Some (Some 15%Q).
Proof.
  intros rows r uid d. split; [|intros v; vm_compute; reflexivity].
  unfold load_input. rewrite stored_value_fold_load_row, fold_store_step.
  destruct (matching_values uid d rows) as [|v vs] eqn:M; [reflexivity|].
  eexists. split; [reflexivity|].
  change (flat (stored_value uid d (set_users [] r))) with (@None Q).
  pose proof (fold_accumulate (v :: vs) None) as F.
  destruct (fold_left accumulate (v :: vs) None) as [q|].
  - destruct F as [F1 F2]. split; [|apply F2; reflexivity].
    rewrite F1. ring.
  - apply F.
Qed.

(** C6 as stated fails at rows of one customer and date whose parsed
    values are zero: after two rows with the value zero, and after a row
    without a value followed by a row with the value zero, the date is
    stored with a null value, where the sum of the parsed values, a null
    plus a number being that number, is zero. *)
Lemma load_input_zero_values_stay_null :
  (matching_values "A"%string date_2020_03_01 rows_two_zero_values
   = [Some 0%Q; Some 0%Q]
   /\ stored_value "A"%string date_2020_03_01
        (load_input rows_two_zero_values (example_engine Py3 365)) = Some None
   /\ summed_as_specified
        (matching_values "A"%string date_2020_03_01 rows_two_zero_values)
      = Some 0%Q
   /\ stored_value "A"%string date_2020_03_01
        (load_input rows_two_zero_values (example_engine Py3 365))
      <> Some (summed_as_specified
                 (matching_values "A"%string date_2020_03_01
                    rows_two_zero_values)))
  /\ (matching_values "A"%string date_2020_03_01 rows_null_then_zero
      = [None; Some 0%Q]
      /\ stored_value "A"%string date_2020_03_01
           (load_input rows_null_then_zero (example_engine Py3 365))
         = Some None
      /\ summed_as_specified
           (matching_values "A"%string date_2020_03_01 rows_null_then_zero)
         = Some 0%Q
      /\ stored_value "A"%string date_2020_03_01
           (load_input rows_null_then_zero (example_engine Py3 365))
         <> Some (summed_as_specified
                    (matching_values "A"%string date_2020_03_01
                       rows_null_then_zero))).
Proof. conjuncts; try evaluate; vm_compute; discriminate. Qed.

(** ** Metric Engine *)

(** C4, at a log with an order on 1999-12-25 and, for another customer, one
    on 2000-01-10: the primary run takes 2000-01-10 as today; with a
    look-back of 30 days the first customer's only order is in the window,
    16 days before today, and [metricize] sets the recency to -9, the
    offset of 2000-01-01. *)
Theorem metricize_recency_before_2000 :
  forall v : py_version,
    let r := load_input rows_around_2000 (example_engine v 30) in
    max_date r = date_2000_01_10
    /\ (date_2000_01_10 - look_back_delta r <=? date_1999_12_25) = true
    /\ (date_1999_12_25 <=? date_2000_01_10) = true
    /\ date_1999_12_25 - date_2000_01_10 = -16
    /\ metrics_of "A"%string (metricize (max_date r) r)
       = Some {| m_recency := MNum (-9); m_frequency := MNum 1;
                 m_monetary := MNum 5 |}.
Proof. intros v r. subst r. conjuncts; evaluate. Qed.

(** ** Metric Engine between the sentinel dates *)

Lemma in_window_cons (start today d : date) (x : option Q)
    (orders : dict date (option Q)) :
  in_window start today ((d, x) :: orders)
  = if (start <=? d) && (d <=? today)
    then (d, x) :: in_window start today orders
    else in_window start today orders.
Proof. reflexivity. Qed.

Lemma scan_orders_from (start today : date) (orders : dict date (option Q)) :
  forall w : window_scan,
    w_orders (fold_left (scan_order start today) orders w)
    = w_orders w ++ map snd (in_window start today orders)
    /\ w_max_date (fold_left (scan_order start today) orders w)
       = fold_left Z.max (map fst (in_window start today orders))
           (w_max_date w)
    /\ w_min_date (fold_left (scan_order start today) orders w)
       = fold_left Z.min (map fst orders) (w_min_date w).
Proof.
  induction orders as [|[d x] orders IH]; intros w.
  - simpl. rewrite app_nil_r. repeat split.
  - rewrite in_window_cons. cbn [fold_left map fst].
    destruct (IH (scan_order start today w (d, x))) as [I1 [I2 I3]].
    rewrite I1, I2, I3. clear IH I1 I2 I3. unfold scan_order.
    destruct ((start <=? d) && (d <=? today)) eqn:W; cbn [map fold_left fst snd].
    + split.
      { destruct (d <? _); simpl; rewrite <- app_assoc; reflexivity. }
      split.
      * f_equal. destruct (d <? _); simpl;
          (destruct (w_max_date w <? d) eqn:M;
           [apply Z.ltb_lt in M|apply Z.ltb_ge in M]; lia).
      * f_equal. simpl w_min_date at 1.
        destruct (d <? w_min_date w) eqn:M; simpl;
          [apply Z.ltb_lt in M|apply Z.ltb_ge in M]; lia.
    + split; [destruct (d <? w_min_date w); reflexivity|]. split.
      * destruct (d <? w_min_date w); reflexivity.
      * f_equal. destruct (d <? w_min_date w) eqn:M; simpl;
          [apply Z.ltb_lt in M|apply Z.ltb_ge in M]; lia.
Qed.

Lemma fold_max_spec (l : list Z) :
  forall a : Z,
    a <= fold_left Z.max l a
    /\ (forall x, In x l -> x <= fold_left Z.max l a)
    /\ (fold_left Z.max l a = a \/ In (fold_left Z.max l a) l).
Proof.
  induction l as [|y l IH]; intros a; simpl.
  - split; [lia|]. split; [intros x []|left; reflexivity].
  - destruct (IH (Z.max a y)) as [I1 [I2 I3]].
    split; [lia|]. split.
    + intros x [<-|F]; [lia|exact (I2 x F)].
    + destruct I3 as [E|F]; [|right; right; exact F].
      rewrite E. destruct (Z.max_spec a y) as [[_ ->]|[_ ->]];
        [right; left; reflexivity|left; reflexivity].
Qed.

Lemma fold_min_spec (l : list Z) :
  forall a : Z,
    fold_left Z.min l a <= a
    /\ (forall x, In x l -> fold_left Z.min l a <= x)
    /\ (fold_left Z.min l a = a \/ In (fold_left Z.min l a) l).
Proof.
  induction l as [|y l IH]; intros a; simpl.
  - split; [lia|]. split; [intros x []|left; reflexivity].
  - destruct (IH (Z.min a y)) as [I1 [I2 I3]].
    split; [lia|]. split.
    + intros x [<-|F]; [lia|exact (I2 x F)].
    + destruct I3 as [E|F]; [|right; right; exact F].
      rewrite E. destruct (Z.min_spec a y) as [[_ ->]|[_ ->]];
        [left; reflexivity|right; left; reflexivity].
Qed.

Lemma in_window_In (start today d : date) (x : option Q)
    (orders : dict date (option Q)) :
  In (d, x) (in_window start today orders)
  <-> In (d, x) orders /\ start <= d <= today.
Proof.
  unfold in_window. rewrite filter_In. simpl.
  rewrite andb_true_iff, !Z.leb_le. reflexivity.
Qed.

(** For a user whose order dates all lie from 2000-01-01 to 2200-01-01,
    [metricize] computes what section 4.3 of the specification says: the
    user is future exactly when there is no order in the window and every
    order is after today; stale when there is no order in the window and
    some order is not after today; and otherwise the recency is the
    non-positive offset of the latest order in the window, the frequency
    the number of dates in the window and the monetary value the mean of
    their non-null values. *)
Lemma user_metrics_between_sentinels (start today : date) (u : User) :
  u_orders u <> [] ->
  (forall d x, In (d, x) (u_orders u) ->
     date_2000_01_01 <= d <= date_2200_01_01) ->
  match in_window start today (u_orders u) with
  | [] =>
      (user_metrics start today u = None
       /\ forall d x, In (d, x) (u_orders u) -> today < d)
      \/ (user_metrics start today u = Some stale_metrics
          /\ exists d x, In (d, x) (u_orders u) /\ d <= today)
  | _ :: _ =>
      exists latest,
        In latest (map fst (in_window start today (u_orders u)))
        /\ (forall d x, In (d, x) (in_window start today (u_orders u)) ->
              d <= latest)
        /\ latest - today <= 0
        /\ user_metrics start today u
           = Some {| m_recency := MNum (inject_Z (latest - today));
                     m_frequency :=
                       MNum (inject_Z
                               (Z.of_nat
                                  (List.length
                                     (in_window start today (u_orders u)))));
                     m_monetary :=
                       mean (non_null
                               (map snd
                                  (in_window start today (u_orders u)))) |}
  end.
Proof.
  intros NE R. unfold user_metrics, scan_orders.
  destruct (scan_orders_from start today (u_orders u)
              {| w_orders := []; w_max_date := date_2000_01_01;
                 w_min_date := date_2200_01_01 |}) as [S1 [S2 S3]].
  simpl in S1, S2, S3. rewrite S1, S2, S3. clear S1 S2 S3.
  rewrite length_map.
  destruct (in_window start today (u_orders u)) as [|[d0 x0] inw] eqn:W.
  - simpl.
    destruct (fold_min_spec (map fst (u_orders u)) date_2200_01_01)
      as [M1 [M2 M3]].
    assert (Mn : In (fold_left Z.min (map fst (u_orders u)) date_2200_01_01)
                   (map fst (u_orders u))).
    { destruct M3 as [E|F]; [|exact F].
      destruct (u_orders u) as [|[d x] os] eqn:O; [contradiction NE; reflexivity|].
      assert (In d (map fst ((d, x) :: os))) as Fd by (left; reflexivity).
      pose proof (M2 d Fd) as Le. pose proof (R d x (or_introl eq_refl)) as Rd.
      replace (fold_left Z.min (map fst ((d, x) :: os)) date_2200_01_01)
        with d by lia.
      exact Fd. }
    destruct (today <? fold_left Z.min (map fst (u_orders u)) date_2200_01_01)
      eqn:T.
    + left. split; [reflexivity|]. intros d x F. apply Z.ltb_lt in T.
      apply (in_map fst) in F. specialize (M2 d F). simpl in M2. lia.
    + right. split; [reflexivity|]. apply Z.ltb_ge in T.
      apply in_map_iff in Mn. destruct Mn as [[d x] [E F]]. simpl in E.
      exists d, x. split; [exact F|lia].
  - set (inw' := (d0, x0) :: inw) in *.
    destruct (fold_max_spec (map fst inw') date_2000_01_01) as [M1 [M2 M3]].
    assert (In0 : In (d0, x0) inw') by (left; reflexivity).
    assert (Mx : In (fold_left Z.max (map fst inw') date_2000_01_01)
                   (map fst inw')).
    { destruct M3 as [E|F]; [|exact F].
      assert (In d0 (map fst inw')) as Fd by (left; reflexivity).
      pose proof (M2 d0 Fd) as Le.
      rewrite <- W in In0. apply in_window_In in In0.
      pose proof (R d0 x0 (proj1 In0)) as Rd.
      replace (fold_left Z.max (map fst inw') date_2000_01_01)
        with d0 by lia.
      exact Fd. }
    exists (fold_left Z.max (map fst inw') date_2000_01_01).
    split; [exact Mx|]. split.
    { intros d x F. apply M2. apply (in_map fst) in F. exact F. }
    split.
    { apply in_map_iff in Mx. destruct Mx as [[d x] [E F]]. cbn [fst] in E.
      rewrite <- E. rewrite <- W in F. apply in_window_In in F.
      destruct F as [_ [_ F]]. lia. }
    replace (Z.of_nat (List.length inw') =? 0) with false
      by (symmetry; apply Z.eqb_neq; unfold inw'; simpl List.length; lia).
    reflexivity.
Qed.

(** ** Segment Binner: the loop and its assignments *)

Lemma segmentize_loop_assignments (d : dimension) (by_borders : bool)
    (v : py_version) (sc n : Z) (l : list (user_id * Q)) :
  forall (i : Z) (c : cursor) (us : dict user_id User),
    segmentize_loop d by_borders v sc n i l c us
    = ('(c', asg) <- loop_assignments by_borders v sc n i l c ;;
       Ok (c', assign_all d asg us)).
Proof.
  induction l as [|[uid q] l IH]; intros i c us; simpl; [reflexivity|].
  destruct (advance by_borders v sc n i q c) as [c1|e]; simpl; [|reflexivity].
  rewrite IH.
  destruct (loop_assignments by_borders v sc n (i + 1) l c1) as [[c2 asg]|e];
    reflexivity.
Qed.

(** In frozen-border mode the loop is the walk of the specification, and it
    leaves the borders alone. *)
Lemma loop_assignments_frozen (v : py_version) (n : Z)
    (l : list (user_id * Q)) :
  forall (i : Z) (c : cursor),
    match loop_assignments true v
            (Z.of_nat (List.length (dim_borders c)) + 1) n i l c with
    | Ok (c', asg) =>
        walk_frozen (dim_borders c) (segment c) l = Ok asg
        /\ dim_borders c' = dim_borders c
    | Raise e => walk_frozen (dim_borders c) (segment c) l = Raise e
    end.
Proof.
  induction l as [|[uid q] l IH]; intros i c; simpl.
  - split; reflexivity.
  - unfold advance.
    destruct (segment c <? Z.of_nat (List.length (dim_borders c)) + 1).
    + destruct (dget (segment c) (dim_borders c)) as [x|]; simpl;
        [|reflexivity].
      destruct (Qle_bool x q); simpl.
      * match goal with
        | |- context [loop_assignments _ _ _ _ _ _ ?c1] =>
            specialize (IH (i + 1) c1)
        end.
        simpl in IH.
        destruct (loop_assignments _ _ _ _ _ _ _) as [[c2 asg]|e]; simpl.
        -- destruct IH as [IH1 IH2]. rewrite IH1. split; [reflexivity|exact IH2].
        -- rewrite IH. reflexivity.
      * match goal with
        | |- context [loop_assignments _ _ _ _ _ _ ?c1] =>
            specialize (IH (i + 1) c1)
        end.
        simpl in IH.
        destruct (loop_assignments _ _ _ _ _ _ _) as [[c2 asg]|e]; simpl.
        -- destruct IH as [IH1 IH2]. rewrite IH1. split; [reflexivity|exact IH2].
        -- rewrite IH. reflexivity.
    + simpl.
      match goal with
      | |- context [loop_assignments _ _ _ _ _ _ ?c1] =>
          specialize (IH (i + 1) c1)
      end.
      simpl in IH.
      destruct (loop_assignments _ _ _ _ _ _ _) as [[c2 asg]|e]; simpl.
      * destruct IH as [IH1 IH2]. rewrite IH1. split; [reflexivity|exact IH2].
      * rewrite IH. reflexivity.
Qed.

Lemma set_borders_same (r : Rfmizer) : set_borders (borders r) r = r.
Proof. destruct r; reflexivity. Qed.

(** A dimension with recorded borders is segmented by those borders. *)
Lemma segmentize_recorded (d : dimension) (b : dict Z Q) (r : Rfmizer) :
  dget d (borders r) = Some b ->
  segmentize d r = (us <- apply_borders d b (users r) ;; Ok (set_users us r)).
Proof.
  intros G. unfold segmentize, apply_borders, dmem. rewrite G.
  destruct (classify_unranked d (users r)) as [[us1 uids0]|e]; simpl;
    [|reflexivity].
  rewrite segmentize_loop_assignments.
  pose proof (loop_assignments_frozen (py r)
                (Z.of_nat (List.length (sort_by metric_leb uids0))) 
                (sort_by metric_leb uids0) 0
                {| segment := 1; max_i := 0; prev_metric := 0;
                   dim_borders := b |}) as F.
  simpl in F.
  destruct (loop_assignments _ _ _ _ _ _ _) as [[c asg]|e]; simpl.
  - destruct F as [F1 F2]. rewrite F1. simpl. rewrite F2.
    rewrite (dset_same _ _ _ G), set_borders_same. reflexivity.
  - rewrite F. reflexivity.
Qed.

(** ** Recorded borders stay *)

Lemma segmentize_borders (d : dimension) (r r' : Rfmizer) :
  segmentize d r = Ok r' ->
  exists b', borders r' = dset d b' (borders r)
             /\ forall b, dget d (borders r) = Some b -> b' = b.
Proof.
  destruct (dget d (borders r)) as [b|] eqn:G.
  - rewrite (segmentize_recorded _ _ _ G).
    destruct (apply_borders d b (users r)) as [us|e]; simpl; [|discriminate].
    intros [= <-]. exists b. simpl. rewrite (dset_same _ _ _ G).
    split; [reflexivity|]. intros b0 [= ->]. reflexivity.
  - unfold segmentize. rewrite G.
    destruct (classify_unranked d (users r)) as [[us1 uids0]|e]; simpl;
      [|discriminate].
    destruct (initial_cursor _ _ _ _ _) as [c0|e]; simpl; [|discriminate].
    destruct (segmentize_loop _ _ _ _ _ _ _ _ _) as [[c us2]|e]; simpl;
      [|discriminate].
    intros [= <-]. exists (dim_borders c). split; [reflexivity|discriminate].
Qed.

Lemma segmentize_keeps_borders (d d' : dimension) (b : dict Z Q)
    (r r' : Rfmizer) :
  dget d (borders r) = Some b -> segmentize d' r = Ok r' ->
  dget d (borders r') = Some b.
Proof.
  intros G S. destruct (segmentize_borders _ _ _ S) as [b' [B1 B2]].
  rewrite B1, dget_dset. destruct (keyb d d') eqn:E; [|exact G].
  apply keyb_eq in E. subst d'. rewrite (B2 _ G). reflexivity.
Qed.

Lemma segmentize_records (d : dimension) (r r' : Rfmizer) :
  segmentize d r = Ok r' -> exists b, dget d (borders r') = Some b.
Proof.
  intros S. destruct (segmentize_borders _ _ _ S) as [b' [B1 _]].
  exists b'. rewrite B1. apply dget_dset_same.
Qed.

Lemma load_row_borders (row : Row) (r : Rfmizer) :
  borders (load_row row r) = borders r.
Proof.
  unfold load_row. destruct (row_order_date row) as [d|]; [|reflexivity].
  destruct (max_date r <? d); reflexivity.
Qed.

Lemma load_input_borders (rows : list Row) (r : Rfmizer) :
  borders (load_input rows r) = borders r.
Proof.
  unfold load_input. change (borders r) with (borders (set_users [] r)).
  generalize (set_users [] r). induction rows as [|row rows IH]; intros r0;
    simpl; [reflexivity|].
  rewrite IH. apply load_row_borders.
Qed.

Lemma metricize_borders (today : date) (r : Rfmizer) :
  borders (metricize today r) = borders r.
Proof.
  unfold metricize. destruct (metricize_users _ _ _). reflexivity.
Qed.

Lemma rfmize_keeps_borders (d : dimension) (b : dict Z Q)
    (today : option date) (r r' : Rfmizer) :
  dget d (borders r) = Some b -> rfmize today r = Ok r' ->
  dget d (borders r') = Some b.
Proof.
  intros G. unfold rfmize. simpl.
  set (t := match today with Some t => t | None => max_date r end).
  assert (G0 : dget d (borders (metricize t r)) = Some b)
    by (rewrite metricize_borders; exact G).
  destruct (segmentize recency (metricize t r)) as [r1|e] eqn:S1; simpl;
    [|discriminate].
  pose proof (segmentize_keeps_borders _ _ _ _ _ G0 S1) as G1.
  destruct (segmentize frequency r1) as [r2|e] eqn:S2; simpl; [|discriminate].
  pose proof (segmentize_keeps_borders _ _ _ _ _ G1 S2) as G2.
  intros S3. exact (segmentize_keeps_borders _ _ _ _ _ G2 S3).
Qed.

Lemma compute_ratios_borders (pd : date) (r r' : Rfmizer) :
  compute_ratios pd r = Ok r' -> borders r' = borders r.
Proof.
  unfold compute_ratios.
  destruct (account_users pd (users r)) as [segments total].
  destruct (checked_div _ _ _) as [avg|e]; simpl; [|discriminate].
  destruct (segment_ratios avg segments) as [x|e]; simpl; [|discriminate].
  intros [= <-]. reflexivity.
Qed.

Lemma run_keeps_borders (d : dimension) (b : dict Z Q) (o : operation)
    (r r' : Rfmizer) :
  dget d (borders r) = Some b -> run o r = Ok r' ->
  dget d (borders r') = Some b.
Proof.
  intros G. destruct o as [rows|today|d'|today|]; simpl.
  - intros [= <-]. rewrite load_input_borders. exact G.
  - intros [= <-]. rewrite metricize_borders. exact G.
  - intros S. exact (segmentize_keeps_borders _ _ _ _ _ G S).
  - intros S. exact (rfmize_keeps_borders _ _ _ _ _ G S).
  - unfold rationize.
    destruct (rfmize (Some (prediction_date r)) r) as [r1|e] eqn:R; simpl;
      [|discriminate].
    intros C. rewrite (compute_ratios_borders _ _ _ C).
    exact (rfmize_keeps_borders _ _ _ _ _ G R).
Qed.

Lemma later_keeps_borders (d : dimension) (b : dict Z Q) (r r' : Rfmizer) :
  later r r' -> dget d (borders r) = Some b -> dget d (borders r') = Some b.
Proof.
  induction 1 as [r|r o r1 r2 R _ IH]; intros G; [exact G|].
  apply IH. exact (run_keeps_borders _ _ _ _ _ G R).
Qed.

(** C2: once a call of [segmentize] for [d] has returned, the engine holds
    borders for [d]; whatever calls follow and whatever population they
    leave, a later call for [d] classifies that population by walking these
    borders and leaves the recorded borders of the engine as they were. *)
Theorem segmentize_frozen_after_recorded :
  forall (d : dimension) (r0 r1 : Rfmizer),
    segmentize d r0 = Ok r1 ->
    exists b, dget d (borders r1) = Some b
      /\ forall r2, later r1 r2 ->
           dget d (borders r2) = Some b
           /\ segmentize d r2
              = (us <- apply_borders d b (users r2) ;; Ok (set_users us r2))
           /\ forall r3, segmentize d r2 = Ok r3 -> borders r3 = borders r2.
Proof.
  intros d r0 r1 S. destruct (segmentize_records _ _ _ S) as [b G].
  exists b. split; [exact G|]. intros r2 L.
  pose proof (later_keeps_borders _ _ _ _ L G) as G2.
  split; [exact G2|]. split; [apply segmentize_recorded; exact G2|].
  intros r3. rewrite (segmentize_recorded _ _ _ G2).
  destruct (apply_borders d b (users r2)); simpl; [|discriminate].
  intros [= <-]. reflexivity.
Qed.

(** ** A population without ranked users *)

Lemma classify_unranked_none (d : dimension) (us : dict user_id User) :
  (forall uid u, In (uid, u) us ->
     user_metric d u = Ok MNone \/ user_metric d u = Ok MStale) ->
  exists us1, classify_unranked d us = Ok (us1, []).
Proof.
  induction us as [|[uid u] us IH]; intros A; simpl.
  - eexists. reflexivity.
  - destruct IH as [us1 IH].
    { intros uid' u' I. apply (A uid' u'). right. exact I. }
    rewrite IH.
    destruct (A uid u (or_introl eq_refl)) as [M|M]; rewrite M; simpl;
      eexists; reflexivity.
Qed.

(** C10: on a population without a rankable user for [d], a call in
    fresh-border mode (no borders recorded for [d], a non-zero configured
    segment count) raises [IndexError] at [uids[0]]; with borders recorded
    for [d] the call returns. *)
Theorem segmentize_all_unranked :
  forall (d : dimension) (r : Rfmizer),
    all_unranked d r ->
    (dget d (borders r) = None -> conf_segments_count r d <> 0 ->
     segmentize d r = Raise (IndexError at_first_ranked))
    /\ (forall b, dget d (borders r) = Some b ->
        exists r', segmentize d r = Ok r').
Proof.
  intros d r A. destruct (classify_unranked_none d (users r) A) as [us1 C].
  split.
  - intros G N. unfold segmentize, dmem. rewrite G, C. simpl.
    apply Z.eqb_neq in N. rewrite N. reflexivity.
  - intros b G. rewrite (segmentize_recorded _ _ _ G).
    unfold apply_borders. rewrite C. simpl. eexists. reflexivity.
Qed.

Lemma segmentize_frozen_after_recorded_witness :
  segmentize frequency (metricized_two_customers Py3)
  = Ok frequency_segmented_two_customers
  /\ exists b, dget frequency (borders frequency_segmented_two_customers) = Some b
       /\ forall r2, later frequency_segmented_two_customers r2 ->
            dget frequency (borders r2) = Some b
            /\ segmentize frequency r2
               = (us <- apply_borders frequency b (users r2) ;;
                  Ok (set_users us r2))
            /\ forall r3, segmentize frequency r2 = Ok r3 ->
                 borders r3 = borders r2.
Proof.
  assert (S : segmentize frequency (metricized_two_customers Py3)
              = Ok frequency_segmented_two_customers)
    by (vm_compute; reflexivity).
  split; [exact S|].
  exact (segmentize_frozen_after_recorded frequency
           (metricized_two_customers Py3)
           frequency_segmented_two_customers S).
Defined.

Lemma all_unranked_without_value :
  all_unranked monetary metricized_without_value.
Proof.
  intros uid u [E|[]]. injection E as <- <-. left. reflexivity.
Defined.

Lemma all_unranked_without_value_recorded :
  all_unranked monetary metricized_without_value_recorded.
Proof.
  intros uid u [E|[]]. injection E as <- <-. left. reflexivity.
Defined.

Lemma segmentize_all_unranked_witness :
  segmentize monetary metricized_without_value
  = Raise (IndexError at_first_ranked)
  /\ exists r', segmentize monetary metricized_without_value_recorded = Ok r'.
Proof.
  split.
  - apply (proj1 (segmentize_all_unranked monetary metricized_without_value
                    all_unranked_without_value)).
    + vm_compute. reflexivity.
    + vm_compute. intros E. discriminate E.
  - apply (proj2 (segmentize_all_unranked monetary
                    metricized_without_value_recorded
                    all_unranked_without_value_recorded) [(1, 7%Q)]).
    vm_compute. reflexivity.
Defined.

(** C10 as stated fails at a configured segment count of zero: on a
    population without a rankable user and without recorded borders, the
    division of line 216 raises [ZeroDivisionError] before [uids[0]] is
    read. *)
Lemma segmentize_all_unranked_zero_count :
  all_unranked monetary metricized_without_value_zero_count
  /\ dget monetary (borders metricized_without_value_zero_count) = None
  /\ conf_segments_count metricized_without_value_zero_count monetary = 0
  /\ segmentize monetary metricized_without_value_zero_count
     = Raise (ZeroDivisionError at_max_i)
  /\ segmentize monetary metricized_without_value_zero_count
     <> Raise (IndexError at_first_ranked).
Proof.
  split.
  { intros uid u [E|[]]. injection E as <- <-. left. reflexivity. }
  conjuncts; try evaluate. vm_compute. discriminate.
Qed.

(** ** The second run of [rationize] *)

Lemma rfmize_records (today : option date) (r r' : Rfmizer) :
  rfmize today r = Ok r' ->
  forall d, exists b, dget d (borders r') = Some b.
Proof.
  unfold rfmize. simpl.
  set (m := metricize _ r).
  destruct (segmentize recency m) as [r1|e] eqn:S1; simpl; [|discriminate].
  destruct (segmentize frequency r1) as [r2|e] eqn:S2; simpl; [|discriminate].
  intros S3 d.
  destruct (segmentize_records _ _ _ S1) as [b1 G1].
  destruct (segmentize_records _ _ _ S2) as [b2 G2].
  destruct d.
  - exists b1.
    exact (segmentize_keeps_borders _ _ _ _ _
             (segmentize_keeps_borders _ _ _ _ _ G1 S2) S3).
  - exists b2. exact (segmentize_keeps_borders _ _ _ _ _ G2 S3).
  - exact (segmentize_records _ _ _ S3).
Qed.

Lemma segmentize_by_recorded (bs : dict dimension (dict Z Q)) (d : dimension)
    (r : Rfmizer) :
  borders r = bs -> (exists b, dget d bs = Some b) ->
  segmentize d r = segmentize_by_borders bs d r
  /\ forall r', segmentize_by_borders bs d r = Ok r' -> borders r' = bs.
Proof.
  intros B [b G]. unfold segmentize_by_borders. rewrite G. split.
  - apply segmentize_recorded. rewrite B. exact G.
  - intros r'. destruct (apply_borders d b (users r)); simpl; [|discriminate].
    intros [= <-]. exact B.
Qed.

Lemma fold_segmentize_by_recorded (bs : dict dimension (dict Z Q))
    (dims : list dimension) :
  (forall d, exists b, dget d bs = Some b) ->
  forall acc : result Rfmizer,
    (forall r, acc = Ok r -> borders r = bs) ->
    fold_left (fun acc d => r' <- acc ;; segmentize d r') dims acc
    = fold_left (fun acc d => r' <- acc ;; segmentize_by_borders bs d r')
        dims acc.
Proof.
  intros A. induction dims as [|d dims IH]; intros acc B; simpl;
    [reflexivity|].
  destruct acc as [r|e]; simpl.
  - destruct (segmentize_by_recorded bs d r (B r eq_refl) (A d)) as [E1 E2].
    rewrite E1. apply IH. exact E2.
  - apply IH. intros r. discriminate.
Qed.

Lemma rfmize_recorded (today : date) (r : Rfmizer) :
  (forall d, exists b, dget d (borders r) = Some b) ->
  rfmize (Some today) r = rfmize_by_borders (borders r) today r.
Proof.
  intros A. unfold rfmize, rfmize_by_borders.
  apply fold_segmentize_by_recorded; [exact A|].
  intros r0 [= <-]. apply metricize_borders.
Qed.

Lemma fold_segmentize_by_borders_keeps (bs : dict dimension (dict Z Q))
    (dims : list dimension) :
  (forall d, exists b, dget d bs = Some b) ->
  forall (acc : result Rfmizer) (r' : Rfmizer),
    (forall r, acc = Ok r -> borders r = bs) ->
    fold_left (fun acc d => r' <- acc ;; segmentize_by_borders bs d r')
      dims acc = Ok r' ->
    borders r' = bs.
Proof.
  intros A. induction dims as [|d dims IH]; intros acc r' B; simpl.
  - intros E. apply B. exact E.
  - apply IH. destruct acc as [r|e]; simpl; [|discriminate].
    apply (segmentize_by_recorded bs d r (B r eq_refl) (A d)).
Qed.

Lemma rfmize_recorded_borders (today : date) (r r' : Rfmizer) :
  (forall d, exists b, dget d (borders r) = Some b) ->
  rfmize (Some today) r = Ok r' -> borders r' = borders r.
Proof.
  intros A. rewrite (rfmize_recorded _ _ A). unfold rfmize_by_borders.
  apply fold_segmentize_by_borders_keeps; [exact A|].
  intros r0 [= <-]. apply metricize_borders.
Qed.

(** C1, as the code has it: when the primary run of [save_output] has
    returned, every dimension has recorded borders; the run of [rationize]
    is the Metric Engine as of the prediction date followed by the Segment
    Binner in frozen-border mode on the borders of the primary run, which
    it leaves as they are; and [save_output] is the pipeline with that
    re-run. *)
Theorem save_output_rerun_by_primary_borders :
  forall r r1 : Rfmizer,
    rfmize None r = Ok r1 ->
    (forall d, exists b, dget d (borders r1) = Some b)
    /\ rationize r1
       = (rp <- rfmize_by_borders (borders r1) (prediction_date r1) r1 ;;
          compute_ratios (prediction_date r1) rp)
    /\ (forall r2, rationize r1 = Ok r2 -> borders r2 = borders r1)
    /\ save_output r
       = (mapping <- save_mapping r1 ;;
          r2 <- (rp <- rfmize_by_borders (borders r1) (prediction_date r1) r1 ;;
                 compute_ratios (prediction_date r1) rp) ;;
          rat <- save_ratios r2 ;;
          Ok (r2, {| out_mapping := mapping; out_borders := save_borders r1;
                     out_ratios := rat |})).
Proof.
  intros r r1 R. pose proof (rfmize_records _ _ _ R) as A.
  assert (E : rationize r1
              = (rp <- rfmize_by_borders (borders r1) (prediction_date r1) r1 ;;
                 compute_ratios (prediction_date r1) rp)).
  { unfold rationize. rewrite (rfmize_recorded _ _ A). reflexivity. }
  split; [exact A|]. split; [exact E|]. split.
  - intros r2. unfold rationize.
    destruct (rfmize (Some (prediction_date r1)) r1) as [rp|e] eqn:P; simpl;
      [|discriminate].
    intros C. rewrite (compute_ratios_borders _ _ _ C).
    exact (rfmize_recorded_borders _ _ _ A P).
  - unfold save_output. rewrite R. simpl. rewrite E. reflexivity.
Qed.

Lemma save_output_rerun_by_primary_borders_witness :
  rfmize None (engine_two_customers Py3) = Ok primary_two_customers
  /\ (forall d, exists b, dget d (borders primary_two_customers) = Some b)
  /\ (forall r2, rationize primary_two_customers = Ok r2 ->
        borders r2 = borders primary_two_customers).
Proof.
  assert (R : rfmize None (engine_two_customers Py3)
              = Ok primary_two_customers)
    by (vm_compute; reflexivity).
  split; [exact R|].
  destruct (save_output_rerun_by_primary_borders
              (engine_two_customers Py3) primary_two_customers R)
    as [A [_ [B _]]].
  split; [exact A|exact B].
Defined.

(** C1 as stated fails on the log of the two customers: the pipeline
    returns with customer A in micro-segment (1, 1, 1), classified by the
    borders of the primary run, which the engine still holds; borders
    recomputed as of the prediction date differ from them and put A in
    segment 2 for frequency and for recency. *)
Lemma save_output_rerun_not_fresh :
  exists r2 out rf,
    save_output (engine_two_customers Py3) = Ok (r2, out)
    /\ rfmize_fresh_borders (prediction_date primary_two_customers)
         primary_two_customers = Ok rf
    /\ borders primary_two_customers
       = [(recency, [(1, 0%Q)]); (frequency, [(1, 3%Q)]); (monetary, [])]
    /\ borders r2 = borders primary_two_customers
    /\ borders rf
       = [(recency, [(1, (-60)%Q)]); (frequency, [(1, 2%Q)]); (monetary, [])]
    /\ user_micro_segment "A"%string r2
       = Some [("frequency", DInt 1); ("monetary", DInt 1);
               ("recency", DInt 1)]%string
    /\ user_micro_segment "A"%string rf
       = Some [("frequency", DInt 2); ("monetary", DInt 1);
               ("recency", DInt 2)]%string.
Proof.
  do 3 eexists. split; [vm_compute; reflexivity|].
  split; [evaluate|].
  conjuncts; evaluate.
Qed.

(** ** Ratio Calculator *)

Lemma rationize_unfold (r r1 : Rfmizer) :
  rfmize (Some (prediction_date r)) r = Ok r1 ->
  rationize r = compute_ratios (prediction_date r) r1.
Proof. intros R. unfold rationize. rewrite R. reflexivity. Qed.

(** C5, as the code has it: when the second run leaves no customer, the
    division by the size of the population at line 293 raises
    [ZeroDivisionError], which nothing catches. *)
Theorem rationize_empty_population :
  forall r r1 : Rfmizer,
    rfmize (Some (prediction_date r)) r = Ok r1 ->
    users r1 = [] ->
    rationize r = Raise (ZeroDivisionError at_population_mean).
Proof.
  intros r r1 R U. rewrite (rationize_unfold _ _ R).
  unfold compute_ratios. rewrite U. reflexivity.
Qed.

Lemma rationize_empty_population_witness :
  rfmize (Some (prediction_date primary_single_order)) primary_single_order
  = Ok (set_users [] primary_single_order)
  /\ rationize primary_single_order
     = Raise (ZeroDivisionError at_population_mean).
Proof.
  assert (R : rfmize (Some (prediction_date primary_single_order))
                primary_single_order
              = Ok (set_users [] primary_single_order))
    by (vm_compute; reflexivity).
  split; [exact R|].
  exact (rationize_empty_population primary_single_order
           (set_users [] primary_single_order) R eq_refl).
Defined.

(** C5 as stated fails on the log of one order: its customer is in the
    future of the prediction date, the second run removes it, and the
    pipeline ends in the [ZeroDivisionError] of line 293. *)
Lemma save_output_empty_population_raises :
  rfmize None (load_input rows_single_order (example_engine Py3 365))
  = Ok primary_single_order
  /\ users primary_single_order <> []
  /\ rationize primary_single_order
     = Raise (ZeroDivisionError at_population_mean)
  /\ save_output (load_input rows_single_order (example_engine Py3 365))
     = Raise (ZeroDivisionError at_population_mean).
Proof.
  split; [vm_compute; reflexivity|].
  split; [vm_compute; discriminate|].
  split; vm_compute; reflexivity.
Qed.

Lemma dset_nonempty {K V : Type} {EK : EqKey K} (k : K) (v : V)
    (d : dict K V) :
  dset k v d <> [].
Proof.
  destruct d as [|[k' v'] d]; simpl; [discriminate|].
  destruct (keyb k k'); discriminate.
Qed.

Lemma account_user_segments (pd : date)
    (acc : dict micro_segment segment_stats * Q) (entry : user_id * User) :
  fst (account_user pd acc entry) <> [].
Proof.
  unfold account_user. destruct acc as [segments total].
  destruct (dget (sorted_items (u_dimensions (snd entry))) segments) as [s|];
    simpl; apply dset_nonempty.
Qed.

Lemma fold_account_user_segments (pd : date) (us : dict user_id User) :
  forall acc : dict micro_segment segment_stats * Q,
    us <> [] \/ fst acc <> [] ->
    fst (fold_left (account_user pd) us acc) <> [].
Proof.
  induction us as [|entry us IH]; intros acc N; simpl.
  - destruct N as [N|N]; [contradiction N; reflexivity|exact N].
  - apply IH. right. apply account_user_segments.
Qed.



(** ** Sorting *)

Section SortFacts.
Context {A : Type} (leb : A -> A -> bool).

Lemma insert_sorted_perm (x : A) (l : list A) :
  Permutation (insert_sorted leb x l) (x :: l).
Proof.
  induction l as [|y l IH]; simpl.
  - apply Permutation_refl.
  - destruct (leb x y).
    + apply Permutation_refl.
    + apply perm_trans with (y :: x :: l).
      * apply perm_skip. exact IH.
      * apply perm_swap.
Qed.

Lemma sort_by_perm (l : list A) : Permutation (sort_by leb l) l.
Proof.
  induction l as [|x l IH]; simpl.
  - apply perm_nil.
  - apply perm_trans with (x :: sort_by leb l).
    + apply insert_sorted_perm.
    + apply perm_skip. exact IH.
Qed.

Lemma sort_by_In (x : A) (l : list A) : In x (sort_by leb l) <-> In x l.
Proof.
  split; apply Permutation_in.
  - apply sort_by_perm.
  - apply Permutation_sym. apply sort_by_perm.
Qed.

Hypothesis leb_total : forall x y, leb x y = false -> leb y x = true.
Hypothesis leb_trans :
  forall x y z, leb x y = true -> leb y z = true -> leb x z = true.

Lemma insert_sorted_sorted (x : A) (l : list A) :
  StronglySorted (fun a b => leb a b = true) l ->
  StronglySorted (fun a b => leb a b = true) (insert_sorted leb x l).
Proof.
  induction 1 as [|y l S IH F]; simpl.
  - constructor; constructor.
  - destruct (leb x y) eqn:E.
    + constructor; [constructor; assumption|].
      constructor; [exact E|].
      revert F. apply Forall_impl. intros z. apply leb_trans. exact E.
    + constructor; [exact IH|].
      apply (Permutation_Forall (Permutation_sym (insert_sorted_perm x l))).
      constructor; [apply leb_total; exact E|exact F].
Qed.

Lemma sort_by_sorted (l : list A) :
  StronglySorted (fun a b => leb a b = true) (sort_by leb l).
Proof.
  induction l as [|x l IH]; simpl.
  - constructor.
  - apply insert_sorted_sorted. exact IH.
Qed.
End SortFacts.

Lemma sort_by_metric_sorted (l : list (user_id * Q)) :
  StronglySorted metric_le (sort_by metric_leb l).
Proof.
  assert (S : StronglySorted (fun a b => metric_leb a b = true)
                (sort_by metric_leb l)).
  { apply sort_by_sorted.
    - intros x y E. unfold metric_leb in *. apply Qle_bool_iff.
      destruct (Qlt_le_dec (snd x) (snd y)) as [L|L]; [|exact L].
      exfalso. apply Qlt_le_weak, Qle_bool_iff in L. congruence.
    - intros x y z E F. unfold metric_leb in *.
      apply Qle_bool_iff in E, F. apply Qle_bool_iff.
      apply Qle_trans with (snd y); assumption. }
  induction S as [|x l' S IH F]; constructor; [exact IH|].
  revert F. apply Forall_impl. intros y E. apply Qle_bool_iff. exact E.
Qed.

(** ** Users under classification and assignment *)

Lemma user_metric_set_segment (d d' : dimension) (s : Z) (u : User) :
  user_metric d (set_segment d' s u) = user_metric d u.
Proof. reflexivity. Qed.

Lemma classify_unranked_keys (d : dimension) (us : dict user_id User) :
  forall us1 uids0,
    classify_unranked d us = Ok (us1, uids0) ->
    dkeys us1 = dkeys us
    /\ forall uid q, In (uid, q) uids0 -> In uid (dkeys us).
Proof.
  induction us as [|[uid0 u0] us IH]; intros us1 uids0; simpl.
  - intros [= <- <-]. split; [reflexivity|intros ? ? []].
  - destruct (user_metric d u0) as [m|e]; simpl; [|discriminate].
    destruct (classify_unranked d us) as [[rest uids]|e]; simpl;
      [|discriminate].
    destruct (IH rest uids eq_refl) as [K I].
    destruct m as [| |q0]; intros [= <- <-]; simpl; rewrite K;
      (split; [reflexivity|]); intros uid q.
    + intros F. right. exact (I uid q F).
    + intros F. right. exact (I uid q F).
    + intros [[= <- <-]|F]; [left; reflexivity|right; exact (I uid q F)].
Qed.

Lemma classify_unranked_NoDup (d : dimension) (us : dict user_id User) :
  forall us1 uids0,
    classify_unranked d us = Ok (us1, uids0) ->
    NoDup (dkeys us) -> NoDup (map fst uids0).
Proof.
  induction us as [|[uid0 u0] us IH]; intros us1 uids0; simpl.
  - intros [= <- <-] _. constructor.
  - destruct (user_metric d u0) as [m|e]; simpl; [|discriminate].
    destruct (classify_unranked d us) as [[rest uids]|e] eqn:C; simpl;
      [|discriminate].
    intros E N. inversion N as [|? ? N1 N2]; subst.
    pose proof (IH rest uids eq_refl N2) as N3.
    destruct m as [| |q0]; injection E as <- <-; try exact N3.
    simpl. constructor; [|exact N3].
    intros F. apply in_map_iff in F. destruct F as [[uid q'] [E F]].
    simpl in E. subst uid. apply N1.
    exact (proj2 (classify_unranked_keys d us rest uids C) uid0 q' F).
Qed.

(** A user left with a number for [d] is among the ranked ones. *)
Lemma classify_unranked_ranked (d : dimension) (us : dict user_id User) :
  forall us1 uids0,
    classify_unranked d us = Ok (us1, uids0) ->
    forall uid u1 q,
      dget uid us1 = Some u1 -> user_metric d u1 = Ok (MNum q) ->
      In (uid, q) uids0.
Proof.
  induction us as [|[uid0 u0] us IH]; intros us1 uids0; simpl.
  - intros [= <- <-] uid u1 q G. discriminate G.
  - destruct (user_metric d u0) as [m|e] eqn:M; simpl; [|discriminate].
    destruct (classify_unranked d us) as [[rest uids]|e]; simpl;
      [|discriminate].
    specialize (IH rest uids eq_refl).
    destruct m as [| |q0]; intros [= <- <-] uid u1 q; simpl;
      destruct (keyb uid uid0) eqn:E.
    + intros [= <-]. rewrite user_metric_set_segment, M. discriminate.
    + apply IH.
    + intros [= <-]. rewrite user_metric_set_segment, M. discriminate.
    + apply IH.
    + intros [= <-]. rewrite M. intros [= <-]. left.
      apply keyb_eq in E. subst. reflexivity.
    + intros G U. right. exact (IH uid u1 q G U).
Qed.

(** A ranked user keeps its record and its number. *)
Lemma classify_unranked_kept (d : dimension) (us : dict user_id User) :
  forall us1 uids0,
    classify_unranked d us = Ok (us1, uids0) ->
    NoDup (dkeys us) ->
    forall uid q, In (uid, q) uids0 ->
      exists u1, dget uid us1 = Some u1 /\ user_metric d u1 = Ok (MNum q).
Proof.
  induction us as [|[uid0 u0] us IH]; intros us1 uids0; simpl.
  - intros [= <- <-] _ uid q [].
  - destruct (user_metric d u0) as [m|e] eqn:M; simpl; [|discriminate].
    destruct (classify_unranked d us) as [[rest uids]|e] eqn:C; simpl;
      [|discriminate].
    intros E N. inversion N as [|? ? N1 N2]; subst.
    specialize (IH rest uids eq_refl N2).
    assert (T : forall uid q, In (uid, q) uids ->
                  forall u', exists u1,
                    dget uid ((uid0, u') :: rest) = Some u1
                    /\ user_metric d u1 = Ok (MNum q)).
    { intros uid q F u'. simpl. destruct (keyb uid uid0) eqn:K.
      - apply keyb_eq in K. subst uid. exfalso. apply N1.
        exact (proj2 (classify_unranked_keys d us rest uids C) uid0 q F).
      - exact (IH uid q F). }
    destruct m as [| |q0]; injection E as <- <-; intros uid q F.
    + exact (T uid q F _).
    + exact (T uid q F _).
    + destruct F as [[= <- <-]|F]; [|exact (T uid q F _)].
      exists u0. simpl. rewrite keyb_refl. split; [reflexivity|exact M].
Qed.

Lemma dget_assign (d : dimension) (uid uid' : user_id) (s : Z)
    (us : dict user_id User) :
  dget uid (assign d uid' s us)
  = if String.eqb uid uid'
    then option_map (set_segment d s) (dget uid us)
    else dget uid us.
Proof.
  unfold assign. destruct (String.eqb uid uid') eqn:E.
  - apply String.eqb_eq in E. subst uid'.
    destruct (dget uid us) as [u|] eqn:G; simpl.
    + apply dget_dset_same.
    + exact G.
  - apply String.eqb_neq in E.
    destruct (dget uid' us) as [u|]; [|reflexivity].
    apply dget_dset_other. exact E.
Qed.

Lemma dget_assign_all (d : dimension) (uid : user_id)
    (asg : list (user_id * Q * Z)) :
  forall us : dict user_id User,
    dget uid (assign_all d asg us)
    = option_map (apply_assignments d uid asg) (dget uid us).
Proof.
  unfold assign_all, apply_assignments.
  induction asg as [|e asg IH]; intros us; simpl.
  - destruct (dget uid us); reflexivity.
  - rewrite IH, dget_assign.
    destruct (String.eqb uid (fst (fst e))); destruct (dget uid us);
      reflexivity.
Qed.

Lemma apply_assignments_metrics (d : dimension) (uid : user_id)
    (asg : list (user_id * Q * Z)) :
  forall u : User, u_metrics (apply_assignments d uid asg u) = u_metrics u.
Proof.
  unfold apply_assignments.
  induction asg as [|e asg IH]; intros u; simpl; [reflexivity|].
  rewrite IH. destruct (String.eqb uid (fst (fst e))); reflexivity.
Qed.

Lemma apply_assignments_absent (d : dimension) (uid : user_id)
    (asg : list (user_id * Q * Z)) :
  ~ In uid (map (fun e => fst (fst e)) asg) ->
  forall u : User, apply_assignments d uid asg u = u.
Proof.
  unfold apply_assignments.
  induction asg as [|e asg IH]; intros N u; simpl; [reflexivity|].
  destruct (String.eqb uid (fst (fst e))) eqn:E.
  - apply String.eqb_eq in E. exfalso. apply N. left. symmetry. exact E.
  - apply IH. intros F. apply N. right. exact F.
Qed.

Lemma apply_assignments_cons (d : dimension) (uid : user_id)
    (e : user_id * Q * Z) (asg : list (user_id * Q * Z)) (u : User) :
  apply_assignments d uid (e :: asg) u
  = apply_assignments d uid asg
      (if String.eqb uid (fst (fst e)) then set_segment d (snd e) u else u).
Proof. reflexivity. Qed.

(** With one assignment per user, a user holds the segment assigned. *)
Lemma apply_assignments_segment (d : dimension)
    (asg : list (user_id * Q * Z)) :
  NoDup (map (fun e => fst (fst e)) asg) ->
  forall (e : user_id * Q * Z) (u : User),
    In e asg ->
    dget (dimension_name d)
      (u_dimensions (apply_assignments d (fst (fst e)) asg u))
    = Some (DInt (snd e)).
Proof.
  induction asg as [|e0 asg IH]; intros N e u I; [destruct I|].
  inversion N as [|? ? N1 N2]; subst.
  rewrite apply_assignments_cons.
  destruct I as [<-|I].
  - rewrite String.eqb_refl, (apply_assignments_absent _ _ _ N1).
    simpl. apply dget_dset_same.
  - apply IH; assumption.
Qed.

(** ** Segment Binner: fresh-border mode *)

Lemma advance_fresh (v : py_version) (sc n i : Z) (q : Q) (c c1 : cursor) :
  advance false v sc n i q c = Ok c1 ->
  prev_metric c1 = q
  /\ ((segment c1 = segment c /\ dim_borders c1 = dim_borders c
       /\ max_i c1 = max_i c)
      \/ (segment c1 = segment c + 1
          /\ dim_borders c1 = dset (segment c) q (dim_borders c)
          /\ max_i c1
             = (inject_Z i + int_div v (n - i) (sc - (segment c + 1) + 1))%Q
          /\ (max_i c <= inject_Z i)%Q
          /\ ~ (q == prev_metric c)%Q)).
Proof.
  unfold advance.
  destruct (Qle_bool (max_i c) (inject_Z i)) eqn:L; simpl.
  - destruct (Qeq_bool q (prev_metric c)) eqn:E; simpl.
    + intros [= <-]. simpl. split; [reflexivity|]. left. repeat split.
    + destruct (sc - (segment c + 1) + 1 =? 0); simpl; [discriminate|].
      intros [= <-]. simpl. split; [reflexivity|]. right.
      repeat split.
      * apply Qle_bool_iff. exact L.
      * intros F. apply Qeq_bool_iff in F. congruence.
  - intros [= <-]. simpl. split; [reflexivity|]. left. repeat split.
Qed.

Lemma dmem_dset_Z (s k : Z) (x : Q) (b : dict Z Q) :
  dmem s (dset k x b) = true -> s = k \/ dmem s b = true.
Proof.
  unfold dmem. rewrite dget_dset. destruct (keyb s k) eqn:E.
  - intros _. left. apply keyb_eq. exact E.
  - intros M. right. exact M.
Qed.

(** What one pass of the loop in fresh-border mode over a sorted list
    yields: the segments handed out lie between the first and the last
    segment; the borders below the first segment stay; every segment [s]
    from the first up to the last but one gets a border, which is the
    metric of a user assigned [s + 1] and separates the users assigned
    [s + 1] or more from the others. *)
Lemma fresh_loop_spec (v : py_version) (sc n : Z) (l : list (user_id * Q)) :
  forall (i : Z) (c c' : cursor) (asg : list (user_id * Q * Z)),
    StronglySorted metric_le l ->
    Forall (fun x => (prev_metric c <= snd x)%Q) l ->
    (forall s, dmem s (dim_borders c) = true -> s < segment c) ->
    loop_assignments false v sc n i l c = Ok (c', asg) ->
    segment c <= segment c'
    /\ map fst asg = l
    /\ Forall (fun e => segment c <= snd e <= segment c') asg
    /\ (forall s, dmem s (dim_borders c') = true -> s < segment c')
    /\ (forall s, s < segment c ->
          dget s (dim_borders c') = dget s (dim_borders c))
    /\ (forall s, segment c <= s < segment c' ->
          exists x, dget s (dim_borders c') = Some x
            /\ (prev_metric c < x)%Q
            /\ (exists e, In e asg /\ (snd (fst e) == x)%Q /\ snd e = s + 1)
            /\ (forall e, In e asg ->
                  (s + 1 <= snd e <-> (x <= snd (fst e))%Q))).
Proof.
  induction l as [|[uid q] l IH]; intros i c c' asg S P K; simpl.
  - intros [= <- <-]. split; [lia|]. split; [reflexivity|].
    split; [constructor|]. split; [exact K|]. split; [reflexivity|].
    intros s R. lia.
  - destruct (advance false v sc n i q c) as [c1|e] eqn:A; simpl;
      [|discriminate].
    destruct (loop_assignments false v sc n (i + 1) l c1) as [[c2 asg']|e]
      eqn:L; simpl; [|discriminate].
    intros [= <- <-].
    apply advance_fresh in A. destruct A as [A0 A].
    apply StronglySorted_inv in S. destruct S as [S1 S2].
    pose proof (Forall_inv P) as P1. simpl in P1.
    assert (P' : Forall (fun x => (prev_metric c1 <= snd x)%Q) l).
    { rewrite A0. exact S2. }
    assert (K' : forall s, dmem s (dim_borders c1) = true -> s < segment c1).
    { destruct A as [[A1 [A2 _]]|[A1 [A2 _]]]; rewrite A1, A2.
      - exact K.
      - intros s M. apply dmem_dset_Z in M. destruct M as [->|M]; [lia|].
        apply K in M. lia. }
    destruct (IH (i + 1) c1 c2 asg' S1 P' K' L)
      as [I1 [I2 [I3 [I4 [I5 I6]]]]].
    assert (G1 : segment c <= segment c1 <= segment c + 1)
      by (destruct A as [[A1 _]|[A1 _]]; lia).
    assert (T : forall e, In e asg' -> (q <= snd (fst e))%Q).
    { intros e F. apply (in_map fst) in F. rewrite I2 in F.
      rewrite Forall_forall in S2. exact (S2 _ F). }
    assert (R3 : forall e, In e asg' -> segment c1 <= snd e).
    { intros e F. rewrite Forall_forall in I3. apply (I3 e F). }
    split; [lia|]. split; [simpl; rewrite I2; reflexivity|].
    split.
    { constructor; [simpl; lia|].
      revert I3. apply Forall_impl. intros e. lia. }
    split; [exact I4|].
    split.
    { intros s Ls. rewrite I5 by lia.
      destruct A as [[_ [A2 _]]|[_ [A2 _]]]; rewrite A2; [reflexivity|].
      apply dget_dset_other. lia. }
    intros s Rs.
    assert (Old : segment c1 <= s ->
              exists x, dget s (dim_borders c2) = Some x
                /\ (prev_metric c < x)%Q
                /\ (exists e, In e ((uid, q, segment c1) :: asg')
                      /\ (snd (fst e) == x)%Q /\ snd e = s + 1)
                /\ (forall e, In e ((uid, q, segment c1) :: asg') ->
                      (s + 1 <= snd e <-> (x <= snd (fst e))%Q))).
    { intros Ls. destruct (I6 s (conj Ls (proj2 Rs)))
        as [x [X1 [X2 [[e [E1 E2]] X4]]]].
      rewrite A0 in X2. exists x. split; [exact X1|].
      split; [apply Qle_lt_trans with q; assumption|].
      split; [exists e; split; [right; exact E1|exact E2]|].
      intros e' [<-|F]; [|exact (X4 e' F)].
      simpl. split.
      - intros Ge. lia.
      - intros Le. exfalso. apply (Qlt_not_le _ _ X2). exact Le. }
    destruct A as [[A1 _]|[A1 [A2 [_ [_ A5]]]]].
    + apply Old. lia.
    + destruct (Z.eq_dec s (segment c)) as [->|Ns]; [|apply Old; lia].
      exists q. split.
      { rewrite I5 by lia. rewrite A2. apply dget_dset_same. }
      split.
      { destruct (Qlt_le_dec (prev_metric c) q) as [Lt|Le]; [exact Lt|].
        exfalso. apply A5. apply Qle_antisym; assumption. }
      split.
      { exists (uid, q, segment c1). split; [left; reflexivity|].
        simpl. split; [reflexivity|exact A1]. }
      intros e' [<-|F]; simpl.
      * split; [intros _; apply Qle_refl|intros _; lia].
      * split; [intros _; exact (T e' F)|].
        intros _. specialize (R3 e' F). lia.
Qed.

Lemma int_div_one (v : py_version) (a : Z) : (int_div v a 1 == inject_Z a)%Q.
Proof.
  destruct v; simpl.
  - rewrite Z.div_1_r. reflexivity.
  - unfold Qdiv. change (/ inject_Z 1)%Q with 1%Q. ring.
Qed.

(** With a configured count of at least one, the loop never opens a
    segment beyond the count: once the last segment is open, the target
    index is the number of ranked users. *)
Lemma fresh_loop_bound (v : py_version) (sc n : Z) (l : list (user_id * Q)) :
  forall (i : Z) (c c' : cursor) (asg : list (user_id * Q * Z)),
    i + Z.of_nat (List.length l) = n ->
    segment c <= sc ->
    (segment c = sc -> (inject_Z n <= max_i c)%Q) ->
    loop_assignments false v sc n i l c = Ok (c', asg) ->
    segment c' <= sc.
Proof.
  induction l as [|[uid q] l IH]; intros i c c' asg N B M; simpl.
  - intros [= <- <-]. exact B.
  - destruct (advance false v sc n i q c) as [c1|e] eqn:A; simpl;
      [|discriminate].
    destruct (loop_assignments false v sc n (i + 1) l c1) as [[c2 asg']|e]
      eqn:L; simpl; [|discriminate].
    intros [= <- <-].
    apply advance_fresh in A. destruct A as [_ A].
    simpl List.length in N. rewrite Nat2Z.inj_succ in N.
    apply (IH (i + 1) c1 c2 asg'); [lia| | |exact L].
    + destruct A as [[A1 _]|[A1 [_ [_ [A4 _]]]]]; [lia|].
      assert (segment c <> sc); [|lia].
      intros E. specialize (M E).
      assert (F : (inject_Z n <= inject_Z i)%Q)
        by (apply Qle_trans with (max_i c); assumption).
      rewrite <- Zle_Qle in F. lia.
    + destruct A as [[A1 [_ A3]]|[A1 [_ [A3 _]]]]; intros E.
      * rewrite A3. apply M. lia.
      * rewrite A3. replace (sc - (segment c + 1) + 1) with 1 by lia.
        rewrite int_div_one, <- inject_Z_plus.
        rewrite <- Zle_Qle. lia.
Qed.

Lemma user_metric_apply_assignments (d d' : dimension) (uid : user_id)
    (asg : list (user_id * Q * Z)) (u : User) :
  user_metric d (apply_assignments d' uid asg u) = user_metric d u.
Proof.
  unfold user_metric. rewrite apply_assignments_metrics. reflexivity.
Qed.

(** A call of [segmentize] in fresh-border mode that returns: the borders
    [b] it records, the assignments [asg] of its loop and the last segment
    [k] it opened. *)
Lemma segmentize_fresh_spec (d : dimension) (r r' : Rfmizer) :
  wf_dict (users r) = true ->
  dget d (borders r) = None ->
  segmentize d r = Ok r' ->
  exists (b : dict Z Q) (asg : list (user_id * Q * Z)) (k : Z),
    dget d (borders r') = Some b
    /\ 1 <= k
    /\ (1 <= conf_segments_count r d -> k <= conf_segments_count r d)
    /\ (forall s, dmem s b = true -> 1 <= s < k)
    /\ (forall e, In e asg -> 1 <= snd e <= k)
    /\ (forall s, 1 <= s < k ->
          exists x, dget s b = Some x
            /\ (exists e, In e asg /\ (snd (fst e) == x)%Q /\ snd e = s + 1)
            /\ (forall e, In e asg ->
                  (s + 1 <= snd e <-> (x <= snd (fst e))%Q)))
    /\ (forall uid q t, ranked d r' uid q -> segment_of d r' uid t ->
          In (uid, q, t) asg)
    /\ (forall e, In e asg ->
          ranked d r' (fst (fst e)) (snd (fst e))
          /\ segment_of d r' (fst (fst e)) (snd e)).
Proof.
  intros W G. apply wf_dict_NoDup in W.
  unfold segmentize, dmem. rewrite G.
  destruct (classify_unranked d (users r)) as [[us1 uids0]|e] eqn:C;
    cbn [bind]; [|discriminate].
  unfold initial_cursor.
  destruct (conf_segments_count r d =? 0) eqn:Z0; cbn [bind];
    [discriminate|].
  destruct (sort_by metric_leb uids0) as [|[uid0 m0] l'] eqn:El; cbn [bind];
    [discriminate|].
  rewrite <- El. set (l := sort_by metric_leb uids0) in *.
  pose proof (sort_by_metric_sorted uids0) as S. fold l in S.
  assert (Lin : forall x, In x l <-> In x uids0) by (intros x; apply sort_by_In).
  assert (ND : NoDup (map fst l)).
  { apply Permutation_NoDup with (map fst uids0).
    - apply Permutation_map, Permutation_sym, sort_by_perm.
    - exact (classify_unranked_NoDup d (users r) us1 uids0 C W). }
  rewrite segmentize_loop_assignments.
  set (c0 := {| segment := 1;
                max_i := int_div (py r) (Z.of_nat (List.length l))
                           (conf_segments_count r d);
                prev_metric := m0; dim_borders := [] |}).
  destruct (loop_assignments false (py r) (conf_segments_count r d)
              (Z.of_nat (List.length l)) 0 l c0) as [[c' asg]|e] eqn:L;
    cbn [bind]; [|discriminate].
  intros [= <-].
  assert (P : Forall (fun x => (prev_metric c0 <= snd x)%Q) l).
  { simpl. rewrite El in S |- *. apply StronglySorted_inv in S.
    constructor; [apply Qle_refl|exact (proj2 S)]. }
  destruct (fresh_loop_spec (py r) (conf_segments_count r d)
              (Z.of_nat (List.length l)) l 0 c0 c' asg S P)
    as [I1 [I2 [I3 [I4 [I5 I6]]]]]; [intros s M; discriminate M|exact L|].
  simpl in I1, I3, I5, I6.
  assert (NA : NoDup (map (fun e : user_id * Q * Z => fst (fst e)) asg)).
  { rewrite <- (map_map fst fst), I2. exact ND. }
  exists (dim_borders c'), asg, (segment c').
  split; [simpl; apply dget_dset_same|].
  split; [exact I1|].
  split.
  { intros B. apply (fresh_loop_bound (py r) (conf_segments_count r d)
                       (Z.of_nat (List.length l)) l 0 c0 c' asg);
      [lia|exact B| |exact L].
    simpl. intros E. rewrite <- E, int_div_one. apply Qle_refl. }
  split.
  { intros s M. split; [|exact (I4 s M)].
    destruct (Z_lt_le_dec s 1) as [Lt|Le]; [|exact Le].
    unfold dmem in M. rewrite (I5 s Lt) in M. discriminate M. }
  split; [intros e F; rewrite Forall_forall in I3; exact (I3 e F)|].
  split.
  { intros s Rs. destruct (I6 s Rs) as [x [X1 [_ [X3 X4]]]].
    exists x. repeat split; try assumption; apply X4; assumption. }
  split.
  - intros uid q t [u2 [G2 M2]] [u2' [G2' D2]]. simpl in G2, G2'.
    rewrite G2 in G2'. injection G2' as <-.
    rewrite dget_assign_all in G2.
    destruct (dget uid us1) as [u1|] eqn:G1; [|discriminate G2].
    injection G2 as <-.
    rewrite user_metric_apply_assignments in M2.
    pose proof (classify_unranked_ranked d (users r) us1 uids0 C uid u1 q
                  G1 M2) as F.
    apply Lin in F. rewrite <- I2 in F. apply in_map_iff in F.
    destruct F as [[[uid' q'] t'] [E F]]. simpl in E. injection E as -> ->.
    pose proof (apply_assignments_segment d asg NA (uid, q, t') u1 F) as D.
    simpl in D. rewrite D in D2. injection D2 as ->. exact F.
  - intros e F.
    assert (Fl : In (fst e) uids0).
    { apply Lin. rewrite <- I2. apply in_map. exact F. }
    destruct e as [[uid q] t]. simpl in Fl |- *.
    destruct (classify_unranked_kept d (users r) us1 uids0 C W uid q Fl)
      as [u1 [G1 M1]].
    split; exists (apply_assignments d uid asg u1); simpl;
      rewrite dget_assign_all, G1; (split; [reflexivity|]).
    + rewrite user_metric_apply_assignments. exact M1.
    + exact (apply_assignments_segment d asg NA (uid, q, t) u1 F).
Qed.

(** C7: after a call of [segmentize] in fresh-border mode (no borders
    recorded for [d] before), the recorded borders of consecutive segment
    numbers are non-decreasing, and of two ranked users the one with the
    smaller or equal metric holds the smaller or equal segment. *)
Theorem segmentize_fresh_monotonic :
  forall (d : dimension) (r r' : Rfmizer),
    wf_dict (users r) = true ->
    dget d (borders r) = None ->
    segmentize d r = Ok r' ->
    (exists b, dget d (borders r') = Some b
       /\ forall s x y, dget s b = Some x -> dget (s + 1) b = Some y ->
            (x <= y)%Q)
    /\ (forall uid1 uid2 q1 q2 s1 s2,
          ranked d r' uid1 q1 -> ranked d r' uid2 q2 ->
          segment_of d r' uid1 s1 -> segment_of d r' uid2 s2 ->
          (q1 <= q2)%Q -> s1 <= s2).
Proof.
  intros d r r' W G S.
  destruct (segmentize_fresh_spec d r r' W G S)
    as [b [asg [k [B [K1 [_ [Keys [Rng [Brd [F1 _]]]]]]]]]].
  split.
  - exists b. split; [exact B|]. intros s x y X Y.
    assert (Rs : 1 <= s < k).
    { apply Keys. unfold dmem. rewrite X. reflexivity. }
    assert (Rs' : 1 <= s + 1 < k).
    { apply Keys. unfold dmem. rewrite Y. reflexivity. }
    destruct (Brd s Rs) as [x' [X' [[e [E1 [E2 E3]]] _]]].
    rewrite X in X'. injection X' as <-.
    destruct (Brd (s + 1) Rs') as [y' [Y' [_ Sep]]].
    rewrite Y in Y'. injection Y' as <-.
    destruct (Qlt_le_dec x y) as [Lt|Le]; [apply Qlt_le_weak; exact Lt|].
    exfalso. rewrite <- E2 in Le. apply (Sep e E1) in Le. lia.
  - intros uid1 uid2 q1 q2 s1 s2 R1 R2 T1 T2 Q.
    pose proof (F1 uid1 q1 s1 R1 T1) as E1.
    pose proof (F1 uid2 q2 s2 R2 T2) as E2.
    pose proof (Rng _ E1) as B1. pose proof (Rng _ E2) as B2. simpl in B1, B2.
    destruct (Z.eq_dec s1 1) as [->|N]; [lia|].
    destruct (Brd (s1 - 1)) as [x [_ [_ Sep]]]; [lia|].
    pose proof (proj1 (Sep _ E1)) as L1. simpl in L1.
    pose proof (proj2 (Sep _ E2)) as L2. simpl in L2.
    assert (x <= q2)%Q by (apply Qle_trans with q1; [apply L1; lia|exact Q]).
    specialize (L2 H). lia.
Qed.

Lemma segmentize_fresh_monotonic_witness :
  wf_dict (users (metricized_two_customers Py3)) = true
  /\ dget frequency (borders (metricized_two_customers Py3)) = None
  /\ segmentize frequency (metricized_two_customers Py3)
     = Ok frequency_segmented_two_customers
  /\ (exists b,
        dget frequency (borders frequency_segmented_two_customers) = Some b
        /\ forall s x y, dget s b = Some x -> dget (s + 1) b = Some y ->
             (x <= y)%Q)
  /\ (forall uid1 uid2 q1 q2 s1 s2,
        ranked frequency frequency_segmented_two_customers uid1 q1 ->
        ranked frequency frequency_segmented_two_customers uid2 q2 ->
        segment_of frequency frequency_segmented_two_customers uid1 s1 ->
        segment_of frequency frequency_segmented_two_customers uid2 s2 ->
        (q1 <= q2)%Q -> s1 <= s2).
Proof.
  assert (W : wf_dict (users (metricized_two_customers Py3)) = true)
    by (vm_compute; reflexivity).
  assert (G : dget frequency (borders (metricized_two_customers Py3)) = None)
    by (vm_compute; reflexivity).
  assert (S : segmentize frequency (metricized_two_customers Py3)
              = Ok frequency_segmented_two_customers)
    by (vm_compute; reflexivity).
  split; [exact W|]. split; [exact G|]. split; [exact S|].
  exact (segmentize_fresh_monotonic frequency (metricized_two_customers Py3)
           frequency_segmented_two_customers W G S).
Defined.

(** ** The borders table *)

Lemma save_borders_In (r : Rfmizer) (d : dimension) (s : Z) (x : Q) :
  In (d, s, x) (save_borders r)
  <-> exists b, dget d (borders r) = Some b /\ dget s b = Some x.
Proof.
  unfold save_borders. rewrite in_flat_map. split.
  - intros [d' [_ I]].
    destruct (dget d' (borders r)) as [b|] eqn:B; [|destruct I].
    apply in_flat_map in I. destruct I as [s' [_ I]].
    destruct (dget s' b) as [x'|] eqn:X; [|destruct I].
    destruct I as [[= <- <- <-]|[]]. exists b. split; assumption.
  - intros [b [B X]]. exists d. split.
    + apply sort_by_In. apply dget_In in B.
      apply (in_map fst) in B. exact B.
    + rewrite B. apply in_flat_map. exists s. split.
      * apply sort_by_In. apply dget_In in X.
        apply (in_map fst) in X. exact X.
      * rewrite X. left. reflexivity.
Qed.

(** C3, as the code has it: a call of [segmentize] in fresh-border mode
    with a configured count [N] of at least one records borders for the
    segment numbers 1 to [k], for some [k] of at most [N - 1]; the border
    recorded for [s] is the metric of a ranked user assigned [s + 1], and
    the ranked users assigned [s + 1] or more are those whose metric
    reaches it; [save_borders] writes these entries for the dimension. *)
Theorem segmentize_fresh_borders_table :
  forall (d : dimension) (r r' : Rfmizer),
    wf_dict (users r) = true ->
    dget d (borders r) = None ->
    1 <= conf_segments_count r d ->
    segmentize d r = Ok r' ->
    exists (b : dict Z Q) (k : Z),
      dget d (borders r') = Some b
      /\ 0 <= k <= conf_segments_count r d - 1
      /\ (forall s, (exists x, dget s b = Some x) <-> 1 <= s <= k)
      /\ (forall s x, dget s b = Some x ->
            (exists uid q, ranked d r' uid q /\ segment_of d r' uid (s + 1)
                           /\ (q == x)%Q)
            /\ (forall uid q t, ranked d r' uid q -> segment_of d r' uid t ->
                  (s + 1 <= t <-> (x <= q)%Q)))
      /\ (forall s x, In (d, s, x) (save_borders r') <-> dget s b = Some x).
Proof.
  intros d r r' W G N S.
  destruct (segmentize_fresh_spec d r r' W G S)
    as [b [asg [k [B [K1 [K2 [Keys [Rng [Brd [F1 F2]]]]]]]]]].
  exists b, (k - 1). split; [exact B|]. split; [specialize (K2 N); lia|].
  split.
  { intros s. split.
    - intros [x X]. assert (1 <= s < k); [|lia].
      apply Keys. unfold dmem. rewrite X. reflexivity.
    - intros Rs. destruct (Brd s) as [x [X _]]; [lia|]. exists x. exact X. }
  split.
  { intros s x X.
    assert (Rs : 1 <= s < k).
    { apply Keys. unfold dmem. rewrite X. reflexivity. }
    destruct (Brd s Rs) as [x' [X' [[e [E1 [E2 E3]]] Sep]]].
    rewrite X in X'. injection X' as <-. split.
    - destruct (F2 e E1) as [R T]. rewrite E3 in T.
      exists (fst (fst e)), (snd (fst e)). repeat split; assumption.
    - intros uid q t R T. exact (Sep _ (F1 uid q t R T)). }
  intros s x. rewrite save_borders_In. split.
  - intros [b' [B' X]]. rewrite B in B'. injection B' as <-. exact X.
  - intros X. exists b. split; assumption.
Qed.

Lemma segmentize_fresh_borders_table_witness :
  wf_dict (users (metricized_two_customers Py3)) = true
  /\ dget frequency (borders (metricized_two_customers Py3)) = None
  /\ 1 <= conf_segments_count (metricized_two_customers Py3) frequency
  /\ segmentize frequency (metricized_two_customers Py3)
     = Ok frequency_segmented_two_customers
  /\ exists (b : dict Z Q) (k : Z),
       dget frequency (borders frequency_segmented_two_customers) = Some b
       /\ 0 <= k
          <= conf_segments_count (metricized_two_customers Py3) frequency - 1
       /\ (forall s, (exists x, dget s b = Some x) <-> 1 <= s <= k).
Proof.
  assert (W : wf_dict (users (metricized_two_customers Py3)) = true)
    by (vm_compute; reflexivity).
  assert (G : dget frequency (borders (metricized_two_customers Py3)) = None)
    by (vm_compute; reflexivity).
  assert (N : 1 <= conf_segments_count (metricized_two_customers Py3)
                     frequency)
    by (vm_compute; discriminate).
  assert (S : segmentize frequency (metricized_two_customers Py3)
              = Ok frequency_segmented_two_customers)
    by (vm_compute; reflexivity).
  split; [exact W|]. split; [exact G|]. split; [exact N|]. split; [exact S|].
  destruct (segmentize_fresh_borders_table frequency
              (metricized_two_customers Py3)
              frequency_segmented_two_customers W G N S)
    as [b [k [B [K [E _]]]]].
  exists b, k. split; [exact B|]. split; [exact K|exact E].
Defined.

(** C3 as stated fails on the two customers, whose frequencies are 1 and
    3, with two segments configured: the table holds the opening value 3 of
    segment 2 under segment number 1, nothing under 2, and that entry is
    the row written. *)
Lemma segmentize_fresh_borders_keyed_from_one :
  conf_segments_count (metricized_two_customers Py3) frequency = 2
  /\ dget frequency (borders (metricized_two_customers Py3)) = None
  /\ segmentize frequency (metricized_two_customers Py3)
     = Ok frequency_segmented_two_customers
  /\ dget frequency (borders frequency_segmented_two_customers)
     = Some [(1, 3%Q)]
  /\ dget 2 [(1, 3%Q)] = None
  /\ save_borders frequency_segmented_two_customers = [(frequency, 1, 3%Q)]
  /\ segment_of frequency frequency_segmented_two_customers "A"%string 2
  /\ ranked frequency frequency_segmented_two_customers "A"%string 3%Q.
Proof.
  conjuncts; try evaluate; eexists; split; evaluate.
Qed.

(** * Further properties *)

(** ** Order Aggregator: the customers [load_input] builds *)

Lemma load_input_snoc (rows : list Row) (row : Row) (r : Rfmizer) :
  load_input (rows ++ [row]) r = load_row row (load_input rows r).
Proof. unfold load_input. rewrite fold_left_app. reflexivity. Qed.

Lemma load_row_undated (row : Row) (r : Rfmizer) :
  dated row = false -> load_row row r = r.
Proof.
  unfold dated, load_row. destruct (row_order_date row); [discriminate|].
  reflexivity.
Qed.

Lemma users_load_row (row : Row) (r : Rfmizer) :
  users (load_row row r)
  = match row_order_date row with
    | None => users r
    | Some order_date =>
        let u0 := match dget (row_user_id row) (users r) with
                  | Some u => u
                  | None => {| u_orders := []; u_max_date := order_date;
                               u_dimensions := row_dimensions row;
                               u_metrics := None |}
                  end in
        dset (row_user_id row)
          {| u_orders := add_order order_date (row_order_value row)
                           (u_orders u0);
             u_max_date := if u_max_date u0 <? order_date then order_date
                           else u_max_date u0;
             u_dimensions := if u_max_date u0 <? order_date
                             then row_dimensions row else u_dimensions u0;
             u_metrics := u_metrics u0 |} (users r)
    end.
Proof.
  unfold load_row. destruct (row_order_date row) as [d|]; [|reflexivity].
  destruct (max_date r <? d); reflexivity.
Qed.

Section DictShape.
Context {K V : Type} {EK : EqKey K} {EOk : EqKeyOk K}.

Lemma dmem_dset (k k' : K) (v : V) (d : dict K V) :
  dmem k (dset k' v d) = keyb k k' || dmem k d.
Proof.
  unfold dmem. rewrite dget_dset. destruct (keyb k k'); reflexivity.
Qed.

Lemma wf_dict_dset (k : K) (v : V) (d : dict K V) :
  wf_dict d = true -> wf_dict (dset k v d) = true.
Proof.
  induction d as [|[k' v'] d IH]; simpl; [reflexivity|].
  rewrite andb_true_iff, negb_true_iff. intros [M W].
  destruct (keyb k k') eqn:E; simpl.
  - rewrite M, W. reflexivity.
  - rewrite (IH W), dmem_dset, M.
    assert (F : keyb k' k = false).
    { apply keyb_neq. apply keyb_neq in E. congruence. }
    rewrite F. reflexivity.
Qed.
End DictShape.

Lemma matching_values_snoc (uid : user_id) (d : date) (rows : list Row)
    (row : Row) :
  matching_values uid d (rows ++ [row])
  = matching_values uid d rows
    ++ (if row_matches uid d row then [row_order_value row] else []).
Proof.
  unfold matching_values, row_matches. rewrite flat_map_app. simpl.
  rewrite app_nil_r. destruct (row_order_date row) as [d'|].
  - reflexivity.
  - rewrite andb_false_r. reflexivity.
Qed.

Lemma first_row_snoc (uid : user_id) (d : date) (rows : list Row)
    (row : Row) :
  first_row uid d (rows ++ [row])
  = match first_row uid d rows with
    | Some row0 => Some row0
    | None => if row_matches uid d row then Some row else None
    end.
Proof.
  unfold first_row. induction rows as [|row0 rows IH]; simpl.
  - reflexivity.
  - destruct (row_matches uid d row0); [reflexivity|exact IH].
Qed.

Lemma first_row_matching (uid : user_id) (d : date) (rows : list Row) :
  first_row uid d rows = None <-> matching_values uid d rows = [].
Proof.
  unfold first_row, matching_values, row_matches.
  induction rows as [|row rows IH]; simpl; [split; reflexivity|].
  destruct (row_order_date row) as [d'|].
  - destruct (String.eqb uid (row_user_id row) && Z.eqb d d'); simpl.
    + split; discriminate.
    + exact IH.
  - rewrite andb_false_r. exact IH.
Qed.

(** What [load_input] has built after the rows [rows]. *)
Lemma load_input_invariant (rows : list Row) (r : Rfmizer) :
  wf_dict (users (load_input rows r)) = true
  /\ (forall uid,
        dget uid (users (load_input rows r)) = None ->
        forall d, matching_values uid d rows = [])
  /\ (forall uid u,
        dget uid (users (load_input rows r)) = Some u ->
        matching_values uid (u_max_date u) rows <> []
        /\ (forall d, matching_values uid d rows <> [] -> d <= u_max_date u)
        /\ u_max_date u <= max_date (load_input rows r)
        /\ u_metrics u = None
        /\ exists row, first_row uid (u_max_date u) rows = Some row
                       /\ u_dimensions u = row_dimensions row).
Proof.
  induction rows as [|row rows IH] using rev_ind.
  - split; [reflexivity|]. split; [reflexivity|]. intros uid u G. discriminate G.
  - destruct IH as [W [Abs Inv]]. rewrite load_input_snoc.
    set (s := load_input rows r) in *.
    assert (MD : max_date s <= max_date (load_row row s)).
    { rewrite load_row_max_date. destruct (row_order_date row); lia. }
    rewrite users_load_row.
    destruct (row_order_date row) as [d0|] eqn:D.
    + (* a dated row *)
      cbv zeta. set (uid0 := row_user_id row) in *.
      assert (RM : forall uid d,
                row_matches uid d row = String.eqb uid uid0 && Z.eqb d d0).
      { intros uid d. unfold row_matches. rewrite D. reflexivity. }
      assert (MD0 : d0 <= max_date (load_row row s)).
      { rewrite load_row_max_date, D. lia. }
      split; [apply wf_dict_dset; exact W|]. split.
      * intros uid. rewrite dget_dset. change (keyb uid uid0) with (String.eqb uid uid0).
        destruct (String.eqb uid uid0) eqn:E; [discriminate|].
        intros G d. rewrite matching_values_snoc, RM, E. simpl.
        rewrite app_nil_r. exact (Abs uid G d).
      * intros uid u. rewrite dget_dset.
        change (keyb uid uid0) with (String.eqb uid uid0).
        destruct (String.eqb uid uid0) eqn:E.
        -- apply String.eqb_eq in E. subst uid. intros [= <-]. simpl.
           destruct (dget uid0 (users s)) as [u0|] eqn:G0.
           ++ destruct (Inv uid0 u0 G0) as [I1 [I2 [I3 [I4 [row0 [I5 I6]]]]]].
              destruct (u_max_date u0 <? d0) eqn:L;
                [apply Z.ltb_lt in L|apply Z.ltb_ge in L].
              ** split.
                 { rewrite matching_values_snoc, RM, String.eqb_refl,
                     Z.eqb_refl. simpl.
                   intros F. apply app_eq_nil in F. destruct F as [_ F].
                   discriminate F. }
                 split.
                 { intros d. rewrite matching_values_snoc, RM, String.eqb_refl.
                   simpl. destruct (Z.eqb d d0) eqn:Ed.
                   - apply Z.eqb_eq in Ed. lia.
                   - rewrite app_nil_r. intros F. specialize (I2 d F). lia. }
                 split; [exact MD0|]. split; [exact I4|].
                 exists row. split; [|reflexivity].
                 rewrite first_row_snoc.
                 destruct (first_row uid0 d0 rows) as [row1|] eqn:F1.
                 { exfalso.
                   assert (N : matching_values uid0 d0 rows <> []).
                   { intros F. apply first_row_matching in F. congruence. }
                   specialize (I2 d0 N). lia. }
                 rewrite RM, String.eqb_refl, Z.eqb_refl. reflexivity.
              ** split.
                 { rewrite matching_values_snoc. intros F.
                   apply app_eq_nil in F. apply I1. exact (proj1 F). }
                 split.
                 { intros d. rewrite matching_values_snoc, RM, String.eqb_refl.
                   simpl. destruct (Z.eqb d d0) eqn:Ed.
                   - apply Z.eqb_eq in Ed. lia.
                   - rewrite app_nil_r. exact (I2 d). }
                 split; [lia|]. split; [exact I4|].
                 exists row0. split; [|exact I6].
                 rewrite first_row_snoc, I5. reflexivity.
           ++ simpl. rewrite Z.ltb_irrefl.
              pose proof (Abs uid0 G0) as A.
              split.
              { rewrite matching_values_snoc, RM, String.eqb_refl, Z.eqb_refl.
                simpl. intros F. apply app_eq_nil in F. destruct F as [_ F].
                discriminate F. }
              split.
              { intros d. rewrite matching_values_snoc, RM, String.eqb_refl,
                  (A d). simpl. destruct (Z.eqb d d0) eqn:Ed.
                - apply Z.eqb_eq in Ed. lia.
                - intros F. contradiction F. reflexivity. }
              split; [exact MD0|]. split; [reflexivity|].
              exists row. split; [|reflexivity].
              rewrite first_row_snoc.
              assert (F1 : first_row uid0 d0 rows = None)
                by (apply first_row_matching; exact (A d0)).
              rewrite F1, RM, String.eqb_refl, Z.eqb_refl. reflexivity.
        -- intros G. destruct (Inv uid u G) as [I1 [I2 [I3 [I4 [row0 [I5 I6]]]]]].
           split.
           { rewrite matching_values_snoc, RM, E. simpl.
             rewrite app_nil_r. exact I1. }
           split.
           { intros d. rewrite matching_values_snoc, RM, E. simpl.
             rewrite app_nil_r. exact (I2 d). }
           split; [lia|]. split; [exact I4|].
           exists row0. split; [|exact I6].
           rewrite first_row_snoc, I5. reflexivity.
    + (* a row without a date *)
      assert (RM : forall uid d, row_matches uid d row = false).
      { intros uid d. unfold row_matches. rewrite D. apply andb_false_r. }
      split; [exact W|]. split.
      * intros uid G d. rewrite matching_values_snoc, RM, app_nil_r.
        exact (Abs uid G d).
      * intros uid u G.
        destruct (Inv uid u G) as [I1 [I2 [I3 [I4 [row0 [I5 I6]]]]]].
        split; [rewrite matching_values_snoc, RM, app_nil_r; exact I1|].
        split.
        { intros d. rewrite matching_values_snoc, RM, app_nil_r. exact (I2 d). }
        split; [lia|]. split; [exact I4|].
        exists row0. split; [|exact I6].
        rewrite first_row_snoc, I5. reflexivity.
Qed.

Lemma matching_values_rows (uid : user_id) (d : date) (rows : list Row) :
  matching_values uid d rows <> []
  <-> exists row, In row rows /\ row_user_id row = uid
                  /\ row_order_date row = Some d.
Proof.
  unfold matching_values. induction rows as [|row rows IH]; simpl.
  - split; [intros F; contradiction F; reflexivity|intros [row [[] _]]].
  - split.
    + intros N.
      destruct (row_order_date row) as [d'|] eqn:D.
      * destruct (String.eqb uid (row_user_id row) && Z.eqb d d') eqn:E.
        -- apply andb_true_iff in E. destruct E as [E1 E2].
           apply String.eqb_eq in E1. apply Z.eqb_eq in E2. subst.
           exists row. split; [left; reflexivity|]. split; [reflexivity|exact D].
        -- simpl in N. destruct (proj1 IH N) as [row0 [I R]].
           exists row0. split; [right; exact I|exact R].
      * simpl in N. destruct (proj1 IH N) as [row0 [I R]].
        exists row0. split; [right; exact I|exact R].
    + intros [row0 [[<-|I] [U D]]].
      * rewrite D, <- U, String.eqb_refl, Z.eqb_refl. simpl. discriminate.
      * intros F. apply app_eq_nil in F. destruct F as [_ F].
        revert F. apply IH. exists row0. split; [exact I|]. split; assumption.
Qed.

(** The customers of [load_input] are the user ids of the dated rows, each
    once. *)
Theorem load_input_users_distinct :
  forall (rows : list Row) (r : Rfmizer),
    wf_dict (users (load_input rows r)) = true
    /\ forall uid,
         dmem uid (users (load_input rows r)) = true
         <-> exists row, In row rows /\ row_user_id row = uid
                         /\ dated row = true.
Proof.
  intros rows r. destruct (load_input_invariant rows r) as [W [Abs Inv]].
  split; [exact W|]. intros uid. unfold dmem. split.
  - destruct (dget uid (users (load_input rows r))) as [u|] eqn:G;
      [|discriminate].
    intros _. destruct (Inv uid u G) as [I1 _].
    apply matching_values_rows in I1. destruct I1 as [row [I [U D]]].
    exists row. split; [exact I|]. split; [exact U|].
    unfold dated. rewrite D. reflexivity.
  - intros [row [I [U D]]].
    destruct (dget uid (users (load_input rows r))) as [u|] eqn:G;
      [reflexivity|].
    exfalso. unfold dated in D.
    destruct (row_order_date row) as [d|] eqn:Dr; [|discriminate].
    assert (N : matching_values uid d rows <> []).
    { apply matching_values_rows. exists row. repeat split; assumption. }
    apply N. exact (Abs uid G d).
Qed.

(** A customer's [max_date] is the latest date of its rows, and no later
    than the engine's [max_date]. *)
Theorem load_input_user_max_date :
  forall (rows : list Row) (r : Rfmizer) (uid : user_id) (u : User),
    dget uid (users (load_input rows r)) = Some u ->
    (exists row, In row rows /\ row_user_id row = uid
                 /\ row_order_date row = Some (u_max_date u))
    /\ (forall row d, In row rows -> row_user_id row = uid ->
          row_order_date row = Some d -> d <= u_max_date u)
    /\ u_max_date u <= max_date (load_input rows r).
Proof.
  intros rows r uid u G.
  destruct (load_input_invariant rows r) as [_ [_ Inv]].
  destruct (Inv uid u G) as [I1 [I2 [I3 _]]].
  split; [apply matching_values_rows; exact I1|]. split; [|exact I3].
  intros row d I U D. apply I2. apply matching_values_rows.
  exists row. repeat split; assumption.
Qed.

Lemma load_input_user_max_date_witness :
  dget "A"%string (users (load_input rows_two_customers (example_engine Py3 1000))) = Some customer_A_loaded
  /\ u_max_date customer_A_loaded <= max_date (load_input rows_two_customers (example_engine Py3 1000))
  /\ exists row, In row rows_two_customers /\ row_user_id row = "A"%string
                 /\ row_order_date row = Some (u_max_date customer_A_loaded).
Proof.
  assert (G : dget "A"%string (users (load_input rows_two_customers (example_engine Py3 1000)))
              = Some customer_A_loaded) by evaluate.
  split; [exact G|].
  destruct (load_input_user_max_date rows_two_customers
              (example_engine Py3 1000) "A"%string customer_A_loaded G)
    as [E [_ L]].
  split; [exact L|exact E].
Defined.

(** A customer carries the attributes of the first row dated its latest
    date, and has no metrics yet. *)
Theorem load_input_user_dimensions :
  forall (rows : list Row) (r : Rfmizer) (uid : user_id) (u : User),
    dget uid (users (load_input rows r)) = Some u ->
    u_metrics u = None
    /\ exists row, first_row uid (u_max_date u) rows = Some row
                   /\ u_dimensions u = row_dimensions row.
Proof.
  intros rows r uid u G.
  destruct (load_input_invariant rows r) as [_ [_ Inv]].
  destruct (Inv uid u G) as [_ [_ [_ [I4 I5]]]].
  split; assumption.
Qed.

Lemma load_input_user_dimensions_witness :
  dget "A"%string (users (load_input rows_two_customers (example_engine Py3 1000))) = Some customer_A_loaded
  /\ u_metrics customer_A_loaded = None
  /\ exists row,
       first_row "A"%string (u_max_date customer_A_loaded) rows_two_customers
       = Some row
       /\ u_dimensions customer_A_loaded = row_dimensions row.
Proof.
  assert (G : dget "A"%string (users (load_input rows_two_customers (example_engine Py3 1000)))
              = Some customer_A_loaded) by evaluate.
  split; [exact G|].
  exact (load_input_user_dimensions rows_two_customers
           (example_engine Py3 1000) "A"%string customer_A_loaded G).
Defined.

Lemma add_order_wf (d : date) (v : option Q) (orders : dict date (option Q)) :
  wf_dict orders = true -> wf_dict (add_order d v orders) = true.
Proof.
  intros W. unfold add_order.
  assert (W1 : wf_dict (if dmem d orders then orders else dset d None orders)
               = true).
  { destruct (dmem d orders); [exact W|apply wf_dict_dset; exact W]. }
  destruct v as [q|]; [|exact W1].
  destruct (truthy (Some q)); [|exact W1].
  destruct (dget d _) as [[old|]|]; apply wf_dict_dset; exact W1.
Qed.

Lemma load_input_orders_wf (rows : list Row) (r : Rfmizer) :
  forall uid u,
    dget uid (users (load_input rows r)) = Some u ->
    wf_dict (u_orders u) = true.
Proof.
  induction rows as [|row rows IH] using rev_ind.
  - intros uid u G. discriminate G.
  - rewrite load_input_snoc, users_load_row.
    destruct (row_order_date row) as [d0|]; [|exact IH].
    cbv zeta. intros uid u. rewrite dget_dset.
    destruct (keyb uid (row_user_id row)) eqn:E; [|apply IH].
    intros [= <-]. simpl. apply add_order_wf.
    destruct (dget (row_user_id row) (users (load_input rows r))) as [u0|]
      eqn:G; [exact (IH _ _ G)|reflexivity].
Qed.

(** A customer's [orders] dict has one entry for each date of its rows and
    no other, and at least one. *)
Theorem load_input_user_orders :
  forall (rows : list Row) (r : Rfmizer) (uid : user_id) (u : User),
    dget uid (users (load_input rows r)) = Some u ->
    wf_dict (u_orders u) = true
    /\ u_orders u <> []
    /\ forall d, dmem d (u_orders u) = true
                 <-> exists row, In row rows /\ row_user_id row = uid
                                 /\ row_order_date row = Some d.
Proof.
  intros rows r uid u G.
  assert (K : forall d, dmem d (u_orders u) = true
                        <-> matching_values uid d rows <> []).
  { intros d. unfold dmem.
    assert (S : stored_value uid d (load_input rows r) = dget d (u_orders u))
      by (unfold stored_value; rewrite G; reflexivity).
    rewrite <- S. unfold load_input.
    rewrite stored_value_fold_load_row, fold_store_step.
    destruct (matching_values uid d rows).
    - simpl. split; [discriminate|intros F; contradiction F; reflexivity].
    - split; [discriminate|reflexivity]. }
  split; [exact (load_input_orders_wf rows r uid u G)|]. split.
  - destruct (load_input_invariant rows r) as [_ [_ Inv]].
    destruct (Inv uid u G) as [I1 _]. apply K in I1.
    intros E. rewrite E in I1. discriminate I1.
  - intros d. rewrite K. apply matching_values_rows.
Qed.

Lemma load_input_user_orders_witness :
  dget "A"%string (users (load_input rows_two_customers (example_engine Py3 1000))) = Some customer_A_loaded
  /\ wf_dict (u_orders customer_A_loaded) = true
  /\ u_orders customer_A_loaded <> [].
Proof.
  assert (G : dget "A"%string (users (load_input rows_two_customers (example_engine Py3 1000)))
              = Some customer_A_loaded) by evaluate.
  split; [exact G|].
  destruct (load_input_user_orders rows_two_customers
              (example_engine Py3 1000) "A"%string customer_A_loaded G)
    as [W [N _]].
  split; [exact W|exact N].
Defined.

(** ** Metric Engine: what [metricize] keeps *)

Lemma fold_ddel_absent (l : list user_id) :
  forall (k : user_id) (v : User) (d : dict user_id User),
    ~ In k l ->
    fold_left (fun acc uid => ddel uid acc) l ((k, v) :: d)
    = (k, v) :: fold_left (fun acc uid => ddel uid acc) l d.
Proof.
  induction l as [|uid l IH]; intros k v d N; simpl; [reflexivity|].
  assert (E : keyb uid k = false).
  { apply keyb_neq. intros F. apply N. left. exact F. }
  rewrite E. apply IH. intros F. apply N. right. exact F.
Qed.

Lemma metricize_users_future (start today : date) (us : dict user_id User) :
  forall uid, In uid (snd (metricize_users start today us)) ->
              In uid (dkeys us).
Proof.
  induction us as [|[k u] us IH]; intros uid; simpl; [intros []|].
  destruct (metricize_users start today us) as [rest fut].
  destruct (user_metrics start today u); simpl.
  - intros F. right. exact (IH uid F).
  - intros [<-|F]; [left; reflexivity|right; exact (IH uid F)].
Qed.

(** Collecting the future users and deleting them afterwards leaves the
    others, when no user id occurs twice. *)
Lemma metricize_users_measured (start today : date) (us : dict user_id User) :
  NoDup (dkeys us) ->
  fold_left (fun acc uid => ddel uid acc)
    (snd (metricize_users start today us))
    (fst (metricize_users start today us))
  = measured_users start today us.
Proof.
  induction us as [|[k u] us IH]; intros N; simpl; [reflexivity|].
  inversion N as [|? ? N1 N2]; subst. specialize (IH N2).
  pose proof (metricize_users_future start today us) as F.
  destruct (metricize_users start today us) as [rest fut]. simpl in IH, F.
  destruct (user_metrics start today u) as [m|]; simpl.
  - rewrite fold_ddel_absent; [rewrite IH; reflexivity|].
    intros I. apply N1. exact (F k I).
  - change (keyb k k) with (String.eqb k k). rewrite String.eqb_refl.
    exact IH.
Qed.

Lemma users_metricize (today : date) (r : Rfmizer) :
  wf_dict (users r) = true ->
  users (metricize today r)
  = measured_users (today - look_back_delta r) today (users r).
Proof.
  intros W. apply wf_dict_NoDup in W. unfold metricize.
  pose proof (metricize_users_measured (today - look_back_delta r) today
                (users r) W) as M.
  destruct (metricize_users (today - look_back_delta r) today (users r))
    as [us fut]. exact M.
Qed.

Lemma measured_users_keys (start today : date) (us : dict user_id User) :
  forall uid, In uid (dkeys (measured_users start today us)) ->
              In uid (dkeys us).
Proof.
  induction us as [|[k u] us IH]; intros uid; simpl; [intros []|].
  destruct (user_metrics start today u); simpl.
  - intros [<-|F]; [left; reflexivity|right; exact (IH uid F)].
  - intros F. right. exact (IH uid F).
Qed.

Lemma measured_users_NoDup (start today : date) (us : dict user_id User) :
  NoDup (dkeys us) -> NoDup (dkeys (measured_users start today us)).
Proof.
  induction us as [|[k u] us IH]; intros N; simpl; [constructor|].
  inversion N as [|? ? N1 N2]; subst.
  destruct (user_metrics start today u); simpl; [|exact (IH N2)].
  constructor; [|exact (IH N2)].
  intros F. apply N1. exact (measured_users_keys start today us k F).
Qed.

Lemma dget_measured_users (start today : date) (us : dict user_id User) :
  NoDup (dkeys us) ->
  forall uid,
    dget uid (measured_users start today us)
    = match dget uid us with
      | Some u => match user_metrics start today u with
                  | Some m => Some (set_metrics m u)
                  | None => None
                  end
      | None => None
      end.
Proof.
  induction us as [|[k u] us IH]; intros N uid; simpl; [reflexivity|].
  inversion N as [|? ? N1 N2]; subst. specialize (IH N2 uid).
  destruct (keyb uid k) eqn:E.
  - apply keyb_eq in E. subst k.
    destruct (user_metrics start today u) as [m|]; simpl.
    + change (keyb uid uid) with (String.eqb uid uid).
      rewrite String.eqb_refl. reflexivity.
    + apply dget_None_keys. intros F. apply N1.
      exact (measured_users_keys start today us uid F).
  - destruct (user_metrics start today u) as [m|]; simpl.
    + rewrite E. exact IH.
    + exact IH.
Qed.

Lemma user_metrics_set_metrics (start today : date) (m : Metrics) (u : User) :
  user_metrics start today (set_metrics m u) = user_metrics start today u.
Proof. reflexivity. Qed.

Lemma measured_users_idempotent (start today : date)
    (us : dict user_id User) :
  measured_users start today (measured_users start today us)
  = measured_users start today us.
Proof.
  induction us as [|[k u] us IH]; simpl; [reflexivity|].
  destruct (user_metrics start today u) as [m|] eqn:M; simpl; [|exact IH].
  rewrite user_metrics_set_metrics, M, IH. reflexivity.
Qed.

Lemma metricize_measured (today : date) (r : Rfmizer) :
  wf_dict (users r) = true ->
  metricize today r
  = set_users (measured_users (today - look_back_delta r) today (users r)) r
  /\ wf_dict (users (metricize today r)) = true
  /\ forall uid u,
       dget uid (users (metricize today r)) = Some u ->
       exists u0 m,
         dget uid (users r) = Some u0
         /\ user_metrics (today - look_back_delta r) today u0 = Some m
         /\ u = set_metrics m u0.
Proof.
  intros W.
  assert (E : metricize today r
              = set_users (measured_users (today - look_back_delta r) today
                             (users r)) r).
  { pose proof (users_metricize today r W) as U. unfold metricize in *.
    destruct (metricize_users _ _ _) as [us fut]. simpl in U.
    rewrite U. reflexivity. }
  apply wf_dict_NoDup in W.
  split; [exact E|]. rewrite E. simpl. split.
  - apply wf_dict_NoDup. apply measured_users_NoDup. exact W.
  - intros uid u. rewrite (dget_measured_users _ _ _ W).
    destruct (dget uid (users r)) as [u0|]; [|discriminate].
    destruct (user_metrics (today - look_back_delta r) today u0) as [m|] eqn:M;
      [|discriminate].
    intros [= <-]. exists u0, m.
    split; [reflexivity|]. split; [exact M|reflexivity].
Qed.

(** [metricize] removes the future users, keeps the others in their order
    and replaces nothing but their metrics; the engine's other fields
    stay. *)
Theorem metricize_keeps_measured :
  forall (today : date) (r : Rfmizer),
    wf_dict (users r) = true ->
    metricize today r
    = set_users (measured_users (today - look_back_delta r) today (users r)) r
    /\ wf_dict (users (metricize today r)) = true
    /\ forall uid u,
         dget uid (users (metricize today r)) = Some u ->
         exists u0 m,
           dget uid (users r) = Some u0
           /\ user_metrics (today - look_back_delta r) today u0 = Some m
           /\ u = set_metrics m u0.
Proof. intros today r. apply metricize_measured. Qed.

Lemma metricize_keeps_measured_witness :
  wf_dict (users (engine_two_customers Py3)) = true
  /\ wf_dict (users (metricize date_2020_03_01 (engine_two_customers Py3)))
     = true.
Proof.
  assert (W : wf_dict (users (engine_two_customers Py3)) = true) by evaluate.
  split; [exact W|].
  exact (proj1 (proj2 (metricize_keeps_measured date_2020_03_01
                         (engine_two_customers Py3) W))).
Defined.

(** Running [metricize] again with the same date changes nothing. *)
Theorem metricize_idempotent :
  forall (today : date) (r : Rfmizer),
    wf_dict (users r) = true ->
    metricize today (metricize today r) = metricize today r.
Proof.
  intros today r W.
  destruct (metricize_measured today r W) as [E [W' _]].
  destruct (metricize_measured today (metricize today r) W')
    as [E' _].
  rewrite E'. rewrite E. simpl.
  rewrite measured_users_idempotent. reflexivity.
Qed.

Lemma metricize_idempotent_witness :
  wf_dict (users (engine_two_customers Py3)) = true
  /\ metricize date_2020_03_01
       (metricize date_2020_03_01 (engine_two_customers Py3))
     = metricize date_2020_03_01 (engine_two_customers Py3).
Proof.
  assert (W : wf_dict (users (engine_two_customers Py3)) = true) by evaluate.
  split; [exact W|].
  exact (metricize_idempotent date_2020_03_01 (engine_two_customers Py3) W).
Defined.

Lemma user_metrics_scan (start today : date) (u : User) :
  user_metrics start today u
  = let inw := in_window start today (u_orders u) in
    if Z.of_nat (List.length inw) =? 0 then
      if today <? fold_left Z.min (map fst (u_orders u)) date_2200_01_01
      then None else Some stale_metrics
    else
      Some {| m_recency :=
                MNum (inject_Z
                        (fold_left Z.max (map fst inw) date_2000_01_01
                         - today));
              m_frequency := MNum (inject_Z (Z.of_nat (List.length inw)));
              m_monetary := mean (non_null (map snd inw)) |}.
Proof.
  unfold user_metrics, scan_orders.
  destruct (scan_orders_from start today (u_orders u)
              {| w_orders := []; w_max_date := date_2000_01_01;
                 w_min_date := date_2200_01_01 |}) as [S1 [S2 S3]].
  simpl in S1, S2, S3. rewrite S1, S2, S3, length_map. reflexivity.
Qed.

Lemma user_metrics_not_future (start today : date) (u : User) :
  u_orders u <> [] ->
  (forall d x, In (d, x) (u_orders u) -> d <= today) ->
  user_metrics start today u <> None.
Proof.
  intros NE B. rewrite user_metrics_scan. cbv zeta.
  destruct (Z.of_nat (List.length (in_window start today (u_orders u))) =? 0);
    [|discriminate].
  destruct (fold_min_spec (map fst (u_orders u)) date_2200_01_01)
    as [_ [M _]].
  destruct (u_orders u) as [|[d x] os] eqn:O; [contradiction NE; reflexivity|].
  assert (L : fold_left Z.min (map fst ((d, x) :: os)) date_2200_01_01 <= d)
    by (apply M; left; reflexivity).
  specialize (B d x (or_introl eq_refl)).
  destruct (today <? _) eqn:T; [|discriminate].
  apply Z.ltb_lt in T. lia.
Qed.

Lemma measured_users_all (start today : date) (us : dict user_id User) :
  (forall k u, In (k, u) us -> user_metrics start today u <> None) ->
  dkeys (measured_users start today us) = dkeys us.
Proof.
  induction us as [|[k u] us IH]; intros A; simpl; [reflexivity|].
  destruct (user_metrics start today u) as [m|] eqn:M.
  - simpl. rewrite IH; [reflexivity|].
    intros k' u' I. apply (A k' u'). right. exact I.
  - exfalso. apply (A k u (or_introl eq_refl)). exact M.
Qed.

Lemma In_dmem {K V : Type} {EK : EqKey K} {EOk : EqKeyOk K}
    (k : K) (v : V) (d : dict K V) :
  In (k, v) d -> dmem k d = true.
Proof.
  unfold dmem. induction d as [|[k' v'] d IH]; simpl; [intros []|].
  intros [E|I].
  - injection E as -> ->. rewrite keyb_refl. reflexivity.
  - destruct (keyb k k'); [reflexivity|exact (IH I)].
Qed.

(** The primary run removes nobody: as of the engine's [max_date] no
    customer built by [load_input] is future. *)
Theorem load_input_then_metricize_keeps_everyone :
  forall (rows : list Row) (r : Rfmizer),
    dkeys (users (metricize (max_date (load_input rows r))
                    (load_input rows r)))
    = dkeys (users (load_input rows r)).
Proof.
  intros rows r. destruct (load_input_invariant rows r) as [W [_ Inv]].
  destruct (metricize_measured (max_date (load_input rows r))
              (load_input rows r) W) as [E _].
  rewrite E. simpl. apply measured_users_all. intros k u I.
  assert (G : dget k (users (load_input rows r)) = Some u).
  { apply In_dget; [apply wf_dict_NoDup; exact W|exact I]. }
  destruct (Inv k u G) as [I1 [I2 [I3 _]]].
  apply user_metrics_not_future.
  - intros O.
    assert (M : dmem (u_max_date u) (u_orders u) = true).
    { unfold dmem.
      assert (S : stored_value k (u_max_date u) (load_input rows r)
                  = dget (u_max_date u) (u_orders u))
        by (unfold stored_value; rewrite G; reflexivity).
      rewrite <- S. unfold load_input.
      rewrite stored_value_fold_load_row, fold_store_step.
      destruct (matching_values k (u_max_date u) rows);
        [contradiction I1; reflexivity|reflexivity]. }
    rewrite O in M. discriminate M.
  - intros d x Io. apply Z.le_trans with (u_max_date u); [|exact I3].
    apply I2. apply In_dmem in Io. unfold dmem in Io.
    assert (S : stored_value k d (load_input rows r) = dget d (u_orders u))
      by (unfold stored_value; rewrite G; reflexivity).
    rewrite <- S in Io. unfold load_input in Io.
    rewrite stored_value_fold_load_row, fold_store_step in Io.
    destruct (matching_values k d rows); [discriminate Io|discriminate].
Qed.

(** As of a date from 2000-01-01 on, every user [metricize] keeps has
    metrics that are all stale, or else: a recency between minus the
    look-back period and zero, a frequency of at least one, which counts
    the order dates in the window, and as monetary value the mean of the
    non-null values of these dates. *)
Theorem metricize_metrics_range :
  forall (today : date) (r : Rfmizer),
    wf_dict (users r) = true ->
    date_2000_01_01 <= today ->
    forall uid u,
      dget uid (users (metricize today r)) = Some u ->
      exists m, u_metrics u = Some m
        /\ (m = stale_metrics
            \/ exists days,
                 m = {| m_recency := MNum (inject_Z days);
                        m_frequency :=
                          MNum (inject_Z
                                  (Z.of_nat
                                     (List.length
                                        (in_window (today - look_back_delta r)
                                           today (u_orders u)))));
                        m_monetary :=
                          mean (non_null
                                  (map snd
                                     (in_window (today - look_back_delta r)
                                        today (u_orders u)))) |}
                 /\ - look_back_delta r <= days <= 0
                 /\ 1 <= Z.of_nat
                           (List.length
                              (in_window (today - look_back_delta r) today
                                 (u_orders u)))).
Proof.
  intros today r W T uid u G.
  destruct (metricize_measured today r W) as [_ [_ M]].
  destruct (M uid u G) as [u0 [m [G0 [Um ->]]]].
  exists m. split; [reflexivity|]. simpl u_orders.
  rewrite user_metrics_scan in Um. cbv zeta in Um.
  set (inw := in_window (today - look_back_delta r) today (u_orders u0)) in *.
  destruct (Z.of_nat (List.length inw) =? 0) eqn:Z0.
  - destruct (today <? _); [discriminate|]. injection Um as <-. left.
    reflexivity.
  - injection Um as <-. right.
    exists (fold_left Z.max (map fst inw) date_2000_01_01 - today).
    split; [reflexivity|]. apply Z.eqb_neq in Z0.
    split; [|lia].
    destruct (fold_max_spec (map fst inw) date_2000_01_01) as [M1 [M2 M3]].
    assert (Bd : forall d, In d (map fst inw) ->
                   today - look_back_delta r <= d <= today).
    { intros d I. apply in_map_iff in I. destruct I as [[d' x] [E I]].
      simpl in E. subst d'. apply in_window_In in I. exact (proj2 I). }
    split.
    + destruct inw as [|[d x] inw'] eqn:Ei; [contradiction Z0; reflexivity|].
      assert (Id : In d (map fst ((d, x) :: inw'))) by (left; reflexivity).
      specialize (M2 d Id). specialize (Bd d Id). lia.
    + destruct M3 as [E|I]; [rewrite E; lia|].
      specialize (Bd _ I). lia.
Qed.

Lemma metricize_metrics_range_witness :
  wf_dict (users (engine_two_customers Py3)) = true
  /\ date_2000_01_01 <= date_2020_03_01
  /\ forall uid u,
       dget uid (users (metricize date_2020_03_01 (engine_two_customers Py3)))
       = Some u ->
       exists m, u_metrics u = Some m.
Proof.
  assert (W : wf_dict (users (engine_two_customers Py3)) = true) by evaluate.
  assert (T : date_2000_01_01 <= date_2020_03_01)
    by (vm_compute; discriminate).
  split; [exact W|]. split; [exact T|]. intros uid u G.
  destruct (metricize_metrics_range date_2020_03_01
              (engine_two_customers Py3) W T uid u G) as [m [M _]].
  exists m. exact M.
Defined.

(** ** Segment Binner: what a call does to the engine *)

Lemma segmentize_unfold (d : dimension) (r r' : Rfmizer) :
  segmentize d r = Ok r' ->
  exists us1 uids0 c0 c' asg,
    classify_unranked d (users r) = Ok (us1, uids0)
    /\ initial_cursor (dmem d (borders r)) (py r) (segments_in_force d r)
         (match dget d (borders r) with Some b => b | None => [] end)
         (sort_by metric_leb uids0) = Ok c0
    /\ loop_assignments (dmem d (borders r)) (py r) (segments_in_force d r)
         (Z.of_nat (List.length (sort_by metric_leb uids0))) 0
         (sort_by metric_leb uids0) c0 = Ok (c', asg)
    /\ r' = set_users (assign_all d asg us1)
              (set_borders (dset d (dim_borders c') (borders r)) r).
Proof.
  unfold segmentize, segments_in_force.
  destruct (classify_unranked d (users r)) as [[us1 uids0]|e] eqn:C.
  - destruct (dget d (borders r)) as [b|] eqn:G; cbn [bind];
      (destruct (initial_cursor _ _ _ _ _) as [c0|e] eqn:I; cbn [bind];
       [|discriminate]);
      rewrite segmentize_loop_assignments;
      (destruct (loop_assignments _ _ _ _ _ _ _) as [[c' asg]|e] eqn:L;
       cbn [bind]; [|discriminate]);
      intros [= <-]; exists us1, uids0, c0, c', asg;
      (split; [reflexivity|]); (split; [exact I|]);
      (split; [exact L|reflexivity]).
  - destruct (dget d (borders r)); cbn [bind]; discriminate.
Qed.

Lemma advance_step (by_borders : bool) (v : py_version) (sc n i : Z) (q : Q)
    (c c1 : cursor) :
  advance by_borders v sc n i q c = Ok c1 ->
  segment c <= segment c1 <= segment c + 1
  /\ (by_borders = true -> segment c <= sc -> segment c1 <= sc).
Proof.
  unfold advance. destruct by_borders.
  - destruct (segment c <? sc) eqn:L.
    + apply Z.ltb_lt in L.
      destruct (dget (segment c) (dim_borders c)) as [x|]; cbn [bind];
        [|discriminate].
      destruct (Qle_bool x q); cbn [bind]; intros [= <-]; simpl; lia.
    + cbn [bind]. intros [= <-]. simpl. lia.
  - destruct (Qle_bool (max_i c) (inject_Z i)
              && negb (Qeq_bool q (prev_metric c))).
    + destruct (sc - (segment c + 1) + 1 =? 0); cbn [bind]; [discriminate|].
      intros [= <-]. simpl. split; [lia|discriminate].
    + cbn [bind]. intros [= <-]. simpl. split; [lia|discriminate].
Qed.

(** In either mode the loop hands one segment to each ranked user, never
    below the segment it starts from, and moves by at most one segment per
    user. *)
Lemma loop_assignments_basic (by_borders : bool) (v : py_version) (sc n : Z)
    (l : list (user_id * Q)) :
  forall (i : Z) (c c' : cursor) (asg : list (user_id * Q * Z)),
    loop_assignments by_borders v sc n i l c = Ok (c', asg) ->
    map fst asg = l
    /\ segment c <= segment c'
    /\ Forall (fun e => segment c <= snd e <= segment c') asg
    /\ segment c' <= segment c + Z.of_nat (List.length l)
    /\ (by_borders = true -> segment c <= sc -> segment c' <= sc).
Proof.
  induction l as [|[uid q] l IH]; intros i c c' asg; simpl.
  - intros [= <- <-]. split; [reflexivity|]. split; [lia|].
    split; [constructor|]. split; [lia|]. intros _ B. exact B.
  - destruct (advance by_borders v sc n i q c) as [c1|e] eqn:A; cbn [bind];
      [|discriminate].
    destruct (loop_assignments by_borders v sc n (i + 1) l c1)
      as [[c2 asg']|e] eqn:L; cbn [bind]; [|discriminate].
    intros [= <- <-]. apply advance_step in A. destruct A as [A1 A2].
    destruct (IH (i + 1) c1 c2 asg' L) as [I1 [I2 [I3 [I4 I5]]]].
    split; [simpl; rewrite I1; reflexivity|]. split; [lia|]. split.
    + constructor; [simpl; lia|]. revert I3. apply Forall_impl.
      intros e. lia.
    + split; [lia|]. intros B S. apply (I5 B). exact (A2 B S).
Qed.

Lemma initial_cursor_segment (by_borders : bool) (v : py_version) (sc : Z)
    (b : dict Z Q) (l : list (user_id * Q)) (c0 : cursor) :
  initial_cursor by_borders v sc b l = Ok c0 ->
  segment c0 = 1 /\ dim_borders c0 = b.
Proof.
  unfold initial_cursor. destruct by_borders.
  - intros [= <-]. split; reflexivity.
  - destruct (sc =? 0); [discriminate|].
    destruct l as [|[uid m] l]; [discriminate|].
    intros [= <-]. split; reflexivity.
Qed.

Lemma dget_classify_unranked (d : dimension) (us : dict user_id User) :
  forall us1 uids0,
    classify_unranked d us = Ok (us1, uids0) ->
    forall uid, dget uid us1 = option_map (code_unranked d) (dget uid us).
Proof.
  induction us as [|[k u] us IH]; intros us1 uids0.
  - simpl. intros [= <- <-] uid. reflexivity.
  - cbn [classify_unranked].
    destruct (user_metric d u) as [m|e] eqn:M; cbn [bind]; [|discriminate].
    destruct (classify_unranked d us) as [[rest uids]|e]; cbn [bind];
      [|discriminate].
    specialize (IH rest uids eq_refl).
    destruct m as [| |q]; intros [= <- <-] uid; cbn [dget];
      (destruct (keyb uid k) eqn:E;
       [cbn [option_map]; unfold code_unranked; rewrite M; reflexivity
       |apply IH]).
Qed.

Lemma dkeys_assign (d : dimension) (uid : user_id) (s : Z)
    (us : dict user_id User) :
  dkeys (assign d uid s us) = dkeys us.
Proof.
  unfold assign. destruct (dget uid us) as [u|] eqn:G; [|reflexivity].
  apply dkeys_dset_present. unfold dmem. rewrite G. reflexivity.
Qed.

Lemma dkeys_assign_all (d : dimension) (asg : list (user_id * Q * Z)) :
  forall us : dict user_id User, dkeys (assign_all d asg us) = dkeys us.
Proof.
  unfold assign_all. induction asg as [|e asg IH]; intros us; simpl;
    [reflexivity|].
  rewrite IH. apply dkeys_assign.
Qed.

Lemma apply_assignments_frame (d : dimension) (uid : user_id)
    (asg : list (user_id * Q * Z)) :
  forall u : User,
    u_orders (apply_assignments d uid asg u) = u_orders u
    /\ u_max_date (apply_assignments d uid asg u) = u_max_date u
    /\ forall k, k <> dimension_name d ->
         dget k (u_dimensions (apply_assignments d uid asg u))
         = dget k (u_dimensions u).
Proof.
  induction asg as [|e asg IH]; intros u.
  - repeat split.
  - rewrite apply_assignments_cons.
    destruct (IH (if String.eqb uid (fst (fst e))
                  then set_segment d (snd e) u else u)) as [I1 [I2 I3]].
    rewrite I1, I2.
    destruct (String.eqb uid (fst (fst e))); simpl;
      (split; [reflexivity|]); (split; [reflexivity|]);
      intros k N; rewrite (I3 k N); [|reflexivity].
    simpl. apply dget_dset_other. exact N.
Qed.

Lemma code_unranked_frame (d : dimension) (u : User) :
  u_orders (code_unranked d u) = u_orders u
  /\ u_max_date (code_unranked d u) = u_max_date u
  /\ u_metrics (code_unranked d u) = u_metrics u
  /\ forall k, k <> dimension_name d ->
       dget k (u_dimensions (code_unranked d u)) = dget k (u_dimensions u).
Proof.
  unfold code_unranked. destruct (user_metric d u) as [[| |q]|e]; simpl;
    repeat split; try reflexivity;
    intros k N; apply dget_dset_other; exact N.
Qed.

Lemma classify_unranked_metrics (d : dimension) (us : dict user_id User) :
  forall us1 uids0,
    classify_unranked d us = Ok (us1, uids0) ->
    forall uid u, In (uid, u) us -> exists m, user_metric d u = Ok m.
Proof.
  induction us as [|[k u0] us IH]; intros us1 uids0.
  - intros _ uid u [].
  - cbn [classify_unranked].
    destruct (user_metric d u0) as [m|e] eqn:M; cbn [bind]; [|discriminate].
    destruct (classify_unranked d us) as [[rest uids]|e]; cbn [bind];
      [|discriminate].
    intros _ uid u [[= <- <-]|I].
    + exists m. exact M.
    + exact (IH rest uids eq_refl uid u I).
Qed.

Lemma initial_cursor_fresh (v : py_version) (sc : Z) (b : dict Z Q)
    (l : list (user_id * Q)) (c0 : cursor) :
  initial_cursor false v sc b l = Ok c0 ->
  sc <> 0
  /\ max_i c0 = int_div v (Z.of_nat (List.length l)) sc
  /\ exists uid m l', l = (uid, m) :: l' /\ prev_metric c0 = m.
Proof.
  unfold initial_cursor. destruct (sc =? 0) eqn:Z0; [discriminate|].
  apply Z.eqb_neq in Z0.
  destruct l as [|[uid m] l']; [discriminate|].
  intros [= <-]. split; [exact Z0|]. split; [reflexivity|].
  exists uid, m, l'. split; reflexivity.
Qed.

(** What a returning call has handed out: the assignments of its loop,
    one per ranked user, each within the segments in force. *)
Lemma segmentize_assignments (d : dimension) (r r' : Rfmizer) :
  wf_dict (users r) = true ->
  segmentize d r = Ok r' ->
  exists us1 uids0 asg,
    classify_unranked d (users r) = Ok (us1, uids0)
    /\ users r' = assign_all d asg us1
    /\ map fst asg = sort_by metric_leb uids0
    /\ NoDup (map (fun e : user_id * Q * Z => fst (fst e)) asg)
    /\ (forall e, In e asg ->
          1 <= snd e
          /\ (1 <= segments_in_force d r -> snd e <= segments_in_force d r)).
Proof.
  intros W S. apply wf_dict_NoDup in W.
  destruct (segmentize_unfold d r r' S)
    as [us1 [uids0 [c0 [c' [asg [C [I [L ->]]]]]]]].
  exists us1, uids0, asg. split; [exact C|]. split; [reflexivity|].
  destruct (loop_assignments_basic _ _ _ _ _ _ _ _ _ L)
    as [B1 [B2 [B3 [_ B5]]]].
  destruct (initial_cursor_segment _ _ _ _ _ _ I) as [S0 Bd].
  rewrite S0 in *.
  split; [exact B1|]. split.
  { rewrite <- (map_map fst fst), B1.
    apply Permutation_NoDup with (map fst uids0).
    - apply Permutation_map, Permutation_sym, sort_by_perm.
    - exact (classify_unranked_NoDup d (users r) us1 uids0 C W). }
  intros e F. rewrite Forall_forall in B3. specialize (B3 e F).
  split; [lia|]. intros N.
  assert (segment c' <= segments_in_force d r); [|lia].
  destruct (dmem d (borders r)) eqn:M.
  - apply B5; [reflexivity|exact N].
  - destruct (initial_cursor_fresh _ _ _ _ _ I) as [_ [Mi _]].
    apply (fresh_loop_bound (py r) (segments_in_force d r)
             (Z.of_nat (List.length (sort_by metric_leb uids0)))
             (sort_by metric_leb uids0) 0 c0 c' asg); [lia|lia| |exact L].
    rewrite S0, Mi. intros E. rewrite <- E, int_div_one. apply Qle_refl.
Qed.

Lemma segmentize_user_codes (d : dimension) (r r' : Rfmizer) :
  wf_dict (users r) = true ->
  segmentize d r = Ok r' ->
  dkeys (users r') = dkeys (users r)
  /\ forall uid u,
       dget uid (users r) = Some u ->
       exists u' s,
         dget uid (users r') = Some u'
         /\ u_orders u' = u_orders u
         /\ u_max_date u' = u_max_date u
         /\ u_metrics u' = u_metrics u
         /\ (forall k, k <> dimension_name d ->
               dget k (u_dimensions u') = dget k (u_dimensions u))
         /\ dget (dimension_name d) (u_dimensions u') = Some (DInt s)
         /\ match user_metric d u with
            | Ok MNone => s = 1
            | Ok MStale => s = 0
            | Ok (MNum _) =>
                1 <= s
                /\ (1 <= segments_in_force d r ->
                    s <= segments_in_force d r)
            | Raise _ => False
            end.
Proof.
  intros W S.
  destruct (segmentize_assignments d r r' W S)
    as [us1 [uids0 [asg [C [U [A1 [A2 A3]]]]]]].
  apply wf_dict_NoDup in W.
  split.
  { rewrite U, dkeys_assign_all.
    exact (proj1 (classify_unranked_keys d (users r) us1 uids0 C)). }
  intros uid u G.
  pose proof (dget_classify_unranked d (users r) us1 uids0 C uid) as G1.
  rewrite G in G1. simpl in G1.
  assert (G' : dget uid (users r')
               = Some (apply_assignments d uid asg (code_unranked d u))).
  { rewrite U, dget_assign_all, G1. reflexivity. }
  destruct (classify_unranked_metrics d (users r) us1 uids0 C uid u
              (dget_In _ _ _ G)) as [m M].
  destruct (apply_assignments_frame d uid asg (code_unranked d u))
    as [F1 [F2 F3]].
  destruct (code_unranked_frame d u) as [K1 [K2 [K3 K4]]].
  assert (Unr : m <> MNone /\ m <> MStale \/
                ~ In uid (map (fun e : user_id * Q * Z => fst (fst e)) asg)).
  { destruct m as [| |q]; [right|right|left; split; discriminate];
      intros I; rewrite <- (map_map fst fst), A1 in I;
      apply in_map_iff in I; destruct I as [[uid' q] [E I]];
      simpl in E; subst uid'; apply sort_by_In in I;
      destruct (classify_unranked_kept d (users r) us1 uids0 C W uid q I)
        as [u1 [Gu Mu]];
      rewrite G1 in Gu; injection Gu as <-;
      unfold code_unranked in Mu; rewrite M in Mu;
      rewrite user_metric_set_segment, M in Mu; discriminate Mu. }
  destruct m as [| |q].
  - destruct Unr as [[N _]|Abs]; [contradiction N; reflexivity|].
    exists (apply_assignments d uid asg (code_unranked d u)), 1.
    rewrite M. split; [exact G'|]. rewrite F1, F2, K1, K2.
    rewrite apply_assignments_metrics, K3.
    split; [reflexivity|]. split; [reflexivity|]. split; [reflexivity|].
    split; [intros k N; rewrite (F3 k N); exact (K4 k N)|].
    split; [|reflexivity].
    rewrite (apply_assignments_absent _ _ _ Abs).
    unfold code_unranked. rewrite M. simpl. apply dget_dset_same.
  - destruct Unr as [[_ N]|Abs]; [contradiction N; reflexivity|].
    exists (apply_assignments d uid asg (code_unranked d u)), 0.
    rewrite M. split; [exact G'|]. rewrite F1, F2, K1, K2.
    rewrite apply_assignments_metrics, K3.
    split; [reflexivity|]. split; [reflexivity|]. split; [reflexivity|].
    split; [intros k N; rewrite (F3 k N); exact (K4 k N)|].
    split; [|reflexivity].
    rewrite (apply_assignments_absent _ _ _ Abs).
    unfold code_unranked. rewrite M. simpl. apply dget_dset_same.
  - assert (Cu : code_unranked d u = u)
      by (unfold code_unranked; rewrite M; reflexivity).
    rewrite Cu in *.
    pose proof (classify_unranked_ranked d (users r) us1 uids0 C uid u q
                  G1 M) as I.
    apply (sort_by_In metric_leb) in I. rewrite <- A1 in I.
    apply in_map_iff in I. destruct I as [[[uid' q'] t] [E I]].
    simpl in E. injection E as -> ->.
    exists (apply_assignments d uid asg u), t.
    rewrite M. split; [exact G'|]. rewrite F1, F2.
    rewrite apply_assignments_metrics.
    split; [reflexivity|]. split; [reflexivity|]. split; [reflexivity|].
    split; [exact F3|]. split.
    + exact (apply_assignments_segment d asg A2 (uid, q, t) u I).
    + exact (A3 _ I).
Qed.

(** A returning call of [segmentize] keeps the users and their order; of
    each user it writes the segment of the dimension and nothing else:
    1 for a null metric, 0 for a stale one, and for a number a segment
    from 1 up to the number of segments in force. *)
Theorem segmentize_codes_every_user :
  forall (d : dimension) (r r' : Rfmizer),
    wf_dict (users r) = true ->
    segmentize d r = Ok r' ->
    dkeys (users r') = dkeys (users r)
    /\ forall uid u,
         dget uid (users r) = Some u ->
         exists u' s,
           dget uid (users r') = Some u'
           /\ u_orders u' = u_orders u
           /\ u_max_date u' = u_max_date u
           /\ u_metrics u' = u_metrics u
           /\ (forall k, k <> dimension_name d ->
                 dget k (u_dimensions u') = dget k (u_dimensions u))
           /\ dget (dimension_name d) (u_dimensions u') = Some (DInt s)
           /\ match user_metric d u with
              | Ok MNone => s = 1
              | Ok MStale => s = 0
              | Ok (MNum _) =>
                  1 <= s
                  /\ (1 <= segments_in_force d r ->
                      s <= segments_in_force d r)
              | Raise _ => False
              end.
Proof.
  intros d r r' W S. exact (segmentize_user_codes d r r' W S).
Qed.

Lemma segmentize_codes_every_user_witness :
  wf_dict (users (metricized_two_customers Py3)) = true
  /\ segmentize frequency (metricized_two_customers Py3)
     = Ok frequency_segmented_two_customers
  /\ dkeys (users frequency_segmented_two_customers)
     = dkeys (users (metricized_two_customers Py3)).
Proof.
  assert (W : wf_dict (users (metricized_two_customers Py3)) = true)
    by evaluate.
  assert (S : segmentize frequency (metricized_two_customers Py3)
              = Ok frequency_segmented_two_customers) by evaluate.
  split; [exact W|]. split; [exact S|].
  exact (proj1 (segmentize_codes_every_user frequency
                  (metricized_two_customers Py3)
                  frequency_segmented_two_customers W S)).
Defined.

(** ** Segment Binner: when a call returns *)

Lemma advance_fresh_returns (v : py_version) (sc n i : Z) (q : Q)
    (c : cursor) :
  i < n -> fresh_cursor_ok sc n c ->
  exists c1, advance false v sc n i q c = Ok c1 /\ fresh_cursor_ok sc n c1.
Proof.
  intros Li [S1 Inv]. unfold advance.
  destruct (Qle_bool (max_i c) (inject_Z i)
            && negb (Qeq_bool q (prev_metric c))) eqn:Cd.
  - apply andb_true_iff in Cd. destruct Cd as [Cd _].
    apply Qle_bool_iff in Cd.
    assert (Lt : sc < 1 \/ segment c < sc).
    { destruct Inv as [Neg|[B M]]; [left; exact Neg|right].
      destruct (Z.eq_dec (segment c) sc) as [E|N]; [|lia].
      exfalso. specialize (M E).
      assert (F : (inject_Z n <= inject_Z i)%Q)
        by (apply Qle_trans with (max_i c); assumption).
      rewrite <- Zle_Qle in F. lia. }
    assert (Dv : (sc - (segment c + 1) + 1 =? 0) = false)
      by (apply Z.eqb_neq; lia).
    rewrite Dv. cbn [bind]. eexists. split; [reflexivity|].
    split; simpl; [lia|].
    destruct Lt as [Neg|Lt]; [left; exact Neg|right].
    split; [lia|]. intros E.
    replace (sc - (segment c + 1) + 1) with 1 by lia.
    rewrite int_div_one, <- inject_Z_plus, <- Zle_Qle. lia.
  - cbn [bind]. eexists. split; [reflexivity|].
    split; simpl; [exact S1|exact Inv].
Qed.

(** Line 229 never divides by zero. *)
Lemma fresh_loop_returns (v : py_version) (sc n : Z)
    (l : list (user_id * Q)) :
  forall (i : Z) (c : cursor),
    i + Z.of_nat (List.length l) = n ->
    fresh_cursor_ok sc n c ->
    exists c' asg, loop_assignments false v sc n i l c = Ok (c', asg).
Proof.
  induction l as [|[uid q] l IH]; intros i c N Inv; simpl.
  - eexists. eexists. reflexivity.
  - simpl List.length in N. rewrite Nat2Z.inj_succ in N.
    destruct (advance_fresh_returns v sc n i q c ltac:(lia) Inv)
      as [c1 [A Inv1]].
    rewrite A. cbn [bind].
    destruct (IH (i + 1) c1 ltac:(lia) Inv1) as [c' [asg L]].
    rewrite L. cbn [bind]. eexists. eexists. reflexivity.
Qed.

Lemma classify_unranked_total (d : dimension) (us : dict user_id User) :
  all_measured us ->
  exists us1 uids0, classify_unranked d us = Ok (us1, uids0).
Proof.
  induction us as [|[k u] us IH]; intros A.
  - eexists. eexists. reflexivity.
  - cbn [classify_unranked]. unfold user_metric.
    destruct (u_metrics u) as [m|] eqn:M;
      [|contradiction (A k u (or_introl eq_refl))].
    cbn [bind]. destruct IH as [us1 [uids0 C]].
    { intros k' u' I. apply (A k' u'). right. exact I. }
    rewrite C. cbn [bind].
    destruct (metric_of d m); eexists; eexists; reflexivity.
Qed.

Lemma classify_unranked_collects (d : dimension) (us : dict user_id User) :
  forall us1 uids0,
    classify_unranked d us = Ok (us1, uids0) ->
    forall uid u q, In (uid, u) us -> user_metric d u = Ok (MNum q) ->
                    In (uid, q) uids0.
Proof.
  induction us as [|[k u0] us IH]; intros us1 uids0.
  - intros _ uid u q [].
  - cbn [classify_unranked].
    destruct (user_metric d u0) as [m|e] eqn:M; cbn [bind]; [|discriminate].
    destruct (classify_unranked d us) as [[rest uids]|e]; cbn [bind];
      [|discriminate].
    specialize (IH rest uids eq_refl).
    destruct m as [| |q0]; intros [= <- <-] uid u q [[= <- <-]|I] Mu;
      try (rewrite M in Mu; discriminate Mu);
      try exact (IH uid u q I Mu).
    + rewrite M in Mu. injection Mu as <-. left. reflexivity.
    + right. exact (IH uid u q I Mu).
Qed.

(** Without recorded borders a call returns as soon as the configured
    count is not zero, every user has metrics and some user has a number
    for the dimension. *)
Theorem segmentize_fresh_returns :
  forall (d : dimension) (r : Rfmizer),
    dget d (borders r) = None ->
    conf_segments_count r d <> 0 ->
    all_measured (users r) ->
    (exists uid u q, In (uid, u) (users r)
                     /\ user_metric d u = Ok (MNum q)) ->
    exists r', segmentize d r = Ok r'.
Proof.
  intros d r G N A [uid [u [q [I M]]]].
  destruct (classify_unranked_total d (users r) A) as [us1 [uids0 C]].
  pose proof (classify_unranked_collects d (users r) us1 uids0 C uid u q I M)
    as Iq.
  apply (sort_by_In metric_leb) in Iq.
  unfold segmentize, dmem. rewrite G, C. cbn [bind].
  unfold initial_cursor. apply Z.eqb_neq in N. rewrite N.
  destruct (sort_by metric_leb uids0) as [|[uid0 m0] l'] eqn:El;
    [destruct Iq|].
  cbn [bind]. rewrite <- El. rewrite segmentize_loop_assignments.
  match goal with
  | |- context [loop_assignments false ?v ?sc ?n 0 ?l ?c0] =>
      destruct (fresh_loop_returns v sc n l 0 c0) as [c' [asg L]]
  end.
  - lia.
  - split; [simpl; lia|]. simpl.
    destruct (Z_lt_le_dec (conf_segments_count r d) 1) as [Neg|Pos];
      [left; exact Neg|right].
    split; [exact Pos|]. intros E. rewrite <- E, int_div_one.
    apply Qle_refl.
  - rewrite L. cbn [bind]. eexists. reflexivity.
Qed.

Lemma length_dset_absent {K V : Type} {EK : EqKey K} (k : K) (v : V)
    (d : dict K V) :
  dmem k d = false -> List.length (dset k v d) = S (List.length d).
Proof.
  unfold dmem. induction d as [|[k' v'] d IH]; simpl; [reflexivity|].
  destruct (keyb k k'); [discriminate|].
  intros M. simpl. rewrite (IH M). reflexivity.
Qed.

(** Each border the fresh-border loop records lengthens the table by
    one. *)
Lemma fresh_loop_length (v : py_version) (sc n : Z) (l : list (user_id * Q)) :
  forall (i : Z) (c c' : cursor) (asg : list (user_id * Q * Z)),
    (forall s, dmem s (dim_borders c) = true -> s < segment c) ->
    loop_assignments false v sc n i l c = Ok (c', asg) ->
    Z.of_nat (List.length (dim_borders c')) - segment c'
    = Z.of_nat (List.length (dim_borders c)) - segment c.
Proof.
  induction l as [|[uid q] l IH]; intros i c c' asg K; simpl.
  - intros [= <- <-]. reflexivity.
  - destruct (advance false v sc n i q c) as [c1|e] eqn:A; cbn [bind];
      [|discriminate].
    destruct (loop_assignments false v sc n (i + 1) l c1) as [[c2 asg']|e]
      eqn:L; cbn [bind]; [|discriminate].
    intros [= <- <-]. apply advance_fresh in A. destruct A as [_ A].
    assert (K' : forall s, dmem s (dim_borders c1) = true -> s < segment c1).
    { destruct A as [[A1 [A2 _]]|[A1 [A2 _]]]; rewrite A1, A2.
      - exact K.
      - intros s M. apply dmem_dset_Z in M. destruct M as [->|M]; [lia|].
        apply K in M. lia. }
    rewrite (IH (i + 1) c1 c2 asg' K' L).
    destruct A as [[A1 [A2 _]]|[A1 [A2 _]]]; rewrite A1, A2; [reflexivity|].
    rewrite length_dset_absent; [lia|].
    destruct (dmem (segment c) (dim_borders c)) eqn:M; [|reflexivity].
    apply K in M. lia.
Qed.

(** The borders a fresh-border call records have no gap. *)
Lemma segmentize_fresh_contiguous (d : dimension) (r r' : Rfmizer) :
  dget d (borders r) = None ->
  segmentize d r = Ok r' ->
  exists b, dget d (borders r') = Some b /\ contiguous b.
Proof.
  intros G S.
  destruct (segmentize_unfold d r r' S)
    as [us1 [uids0 [c0 [c' [asg [C [I [L ->]]]]]]]].
  unfold dmem in I, L. rewrite G in I, L.
  exists (dim_borders c'). split; [simpl; apply dget_dset_same|].
  destruct (initial_cursor_segment _ _ _ _ _ _ I) as [S0 B0].
  destruct (initial_cursor_fresh _ _ _ _ _ I) as [_ [_ [uid [m [l' [El Pm]]]]]].
  pose proof (sort_by_metric_sorted uids0) as Srt.
  assert (K : forall s, dmem s (dim_borders c0) = true -> s < segment c0).
  { rewrite B0. intros s M. discriminate M. }
  assert (P : Forall (fun x => (prev_metric c0 <= snd x)%Q)
                (sort_by metric_leb uids0)).
  { rewrite Pm, El. rewrite El in Srt. apply StronglySorted_inv in Srt.
    constructor; [apply Qle_refl|exact (proj2 Srt)]. }
  destruct (fresh_loop_spec _ _ _ _ _ _ _ _ Srt P K L)
    as [_ [_ [_ [_ [_ I6]]]]].
  pose proof (fresh_loop_length _ _ _ _ _ _ _ _ K L) as Len.
  rewrite B0, S0 in Len. simpl in Len.
  intros s Rs. destruct (I6 s) as [x [X _]]; [rewrite S0; lia|].
  unfold dmem. rewrite X. reflexivity.
Qed.

Lemma walk_frozen_returns (b : dict Z Q) (l : list (user_id * Q)) :
  contiguous b ->
  forall seg, 1 <= seg -> exists asg, walk_frozen b seg l = Ok asg.
Proof.
  intros Cb. induction l as [|[uid q] l IH]; intros seg S; simpl.
  - eexists. reflexivity.
  - destruct (seg <? Z.of_nat (List.length b) + 1) eqn:Lt.
    + apply Z.ltb_lt in Lt.
      assert (M : dmem seg b = true) by (apply Cb; lia).
      unfold dmem in M. destruct (dget seg b) as [x|]; [|discriminate M].
      cbn [bind].
      destruct (IH (if Qle_bool x q then seg + 1 else seg)) as [asg W].
      { destruct (Qle_bool x q); lia. }
      rewrite W. cbn [bind]. eexists. reflexivity.
    + cbn [bind]. destruct (IH seg S) as [asg W]. rewrite W. cbn [bind].
      eexists. reflexivity.
Qed.

Lemma segmentize_recorded_total (d : dimension) (b : dict Z Q) (r : Rfmizer) :
  dget d (borders r) = Some b -> contiguous b -> all_measured (users r) ->
  exists r', segmentize d r = Ok r'.
Proof.
  intros G Cb A. rewrite (segmentize_recorded d b r G). unfold apply_borders.
  destruct (classify_unranked_total d (users r) A) as [us1 [uids0 C]].
  rewrite C. cbn [bind].
  destruct (walk_frozen_returns b (sort_by metric_leb uids0) Cb 1 ltac:(lia))
    as [asg W].
  rewrite W. cbn [bind]. eexists. reflexivity.
Qed.

(** Borders recorded by a fresh-border call can always be replayed: any
    later call for the dimension returns, whatever the population, as long
    as every user has metrics. *)
Theorem segmentize_replay_returns :
  forall (d : dimension) (r0 r1 r2 : Rfmizer),
    dget d (borders r0) = None ->
    segmentize d r0 = Ok r1 ->
    later r1 r2 ->
    all_measured (users r2) ->
    exists r3, segmentize d r2 = Ok r3.
Proof.
  intros d r0 r1 r2 G S L A.
  destruct (segmentize_fresh_contiguous d r0 r1 G S) as [b [B Cb]].
  apply (segmentize_recorded_total d b r2); [|exact Cb|exact A].
  exact (later_keeps_borders d b r1 r2 L B).
Qed.

(** ** Users with metrics *)

Lemma all_measured_measured_users (start today : date)
    (us : dict user_id User) :
  all_measured (measured_users start today us).
Proof.
  induction us as [|[k u] us IH]; intros uid u'; simpl; [intros []|].
  destruct (user_metrics start today u) as [m|]; simpl.
  - intros [[= <- <-]|I]; [discriminate|exact (IH uid u' I)].
  - exact (IH uid u').
Qed.

Lemma all_measured_metricize (today : date) (r : Rfmizer) :
  wf_dict (users r) = true -> all_measured (users (metricize today r)).
Proof.
  intros W. destruct (metricize_measured today r W) as [E _].
  rewrite E. simpl. apply all_measured_measured_users.
Qed.

Lemma all_measured_dset (uid : user_id) (u : User) (us : dict user_id User) :
  u_metrics u <> None -> all_measured us -> all_measured (dset uid u us).
Proof.
  intros M A. induction us as [|[k u0] us IH]; simpl.
  - intros uid' u' [[= <- <-]|[]]. exact M.
  - destruct (keyb uid k).
    + intros uid' u' [[= <- <-]|I]; [exact M|].
      apply (A uid' u'). right. exact I.
    + intros uid' u' [[= <- <-]|I].
      * apply (A k u0). left. reflexivity.
      * apply (IH (fun k' u'' I' => A k' u'' (or_intror I')) uid' u').
        exact I.
Qed.

Lemma all_measured_assign_all (d : dimension)
    (asg : list (user_id * Q * Z)) :
  forall us : dict user_id User,
    all_measured us -> all_measured (assign_all d asg us).
Proof.
  unfold assign_all. induction asg as [|e asg IH]; intros us A; simpl;
    [exact A|].
  apply IH. unfold assign.
  destruct (dget (fst (fst e)) us) as [u|] eqn:G; [|exact A].
  apply all_measured_dset; [|exact A].
  simpl. apply (A (fst (fst e)) u). exact (dget_In _ _ _ G).
Qed.

Lemma all_measured_classify (d : dimension) (us : dict user_id User) :
  forall us1 uids0,
    classify_unranked d us = Ok (us1, uids0) ->
    all_measured us -> all_measured us1.
Proof.
  induction us as [|[k u] us IH]; intros us1 uids0.
  - simpl. intros [= <- <-] A. exact A.
  - cbn [classify_unranked].
    destruct (user_metric d u) as [m|e]; cbn [bind]; [|discriminate].
    destruct (classify_unranked d us) as [[rest uids]|e]; cbn [bind];
      [|discriminate].
    specialize (IH rest uids eq_refl). intros E A.
    assert (A' : all_measured rest).
    { apply IH. intros k' u' I. apply (A k' u'). right. exact I. }
    pose proof (A k u (or_introl eq_refl)) as Mu.
    destruct m; injection E as <- <-; intros k' u' [[= <- <-]|I];
      try exact Mu; exact (A' k' u' I).
Qed.

(** A returning call of [segmentize] keeps the user ids distinct and the
    metrics in place. *)
Lemma segmentize_keeps_users_ok (d : dimension) (r r' : Rfmizer) :
  segmentize d r = Ok r' ->
  (wf_dict (users r) = true -> wf_dict (users r') = true)
  /\ (all_measured (users r) -> all_measured (users r'))
  /\ (users r <> [] -> users r' <> []).
Proof.
  intros S.
  destruct (segmentize_unfold d r r' S)
    as [us1 [uids0 [c0 [c' [asg [C [_ [_ ->]]]]]]]].
  simpl.
  assert (K : dkeys (assign_all d asg us1) = dkeys (users r)).
  { rewrite dkeys_assign_all.
    exact (proj1 (classify_unranked_keys d (users r) us1 uids0 C)). }
  split; [|split].
  - intros W. apply wf_dict_NoDup. rewrite K. apply wf_dict_NoDup. exact W.
  - intros A. apply all_measured_assign_all.
    exact (all_measured_classify d (users r) us1 uids0 C A).
  - intros N E. rewrite E in K. destruct (users r); [apply N; reflexivity|].
    discriminate K.
Qed.

Lemma all_measured_two_customers :
  all_measured (users (metricized_two_customers Py3)).
Proof.
  unfold metricized_two_customers. apply all_measured_metricize. evaluate.
Defined.

Lemma segmentize_fresh_returns_witness :
  dget frequency (borders (metricized_two_customers Py3)) = None
  /\ conf_segments_count (metricized_two_customers Py3) frequency <> 0
  /\ all_measured (users (metricized_two_customers Py3))
  /\ exists r', segmentize frequency (metricized_two_customers Py3) = Ok r'.
Proof.
  assert (G : dget frequency (borders (metricized_two_customers Py3)) = None)
    by evaluate.
  assert (N : conf_segments_count (metricized_two_customers Py3) frequency
              <> 0) by (vm_compute; discriminate).
  split; [exact G|]. split; [exact N|].
  split; [exact all_measured_two_customers|].
  apply (segmentize_fresh_returns frequency (metricized_two_customers Py3)
           G N all_measured_two_customers).
  exists "B"%string. eexists. exists 1%Q.
  split; [right; left; reflexivity|vm_compute; reflexivity].
Defined.

Lemma all_measured_frequency_segmented :
  all_measured (users frequency_segmented_two_customers).
Proof.
  assert (S : segmentize frequency (metricized_two_customers Py3)
              = Ok frequency_segmented_two_customers) by evaluate.
  exact (proj1 (proj2 (segmentize_keeps_users_ok frequency
                         (metricized_two_customers Py3)
                         frequency_segmented_two_customers S))
           all_measured_two_customers).
Defined.

Lemma segmentize_replay_returns_witness :
  dget frequency (borders (metricized_two_customers Py3)) = None
  /\ segmentize frequency (metricized_two_customers Py3)
     = Ok frequency_segmented_two_customers
  /\ later frequency_segmented_two_customers frequency_segmented_two_customers
  /\ all_measured (users frequency_segmented_two_customers)
  /\ exists r3, segmentize frequency frequency_segmented_two_customers = Ok r3.
Proof.
  assert (G : dget frequency (borders (metricized_two_customers Py3)) = None)
    by evaluate.
  assert (S : segmentize frequency (metricized_two_customers Py3)
              = Ok frequency_segmented_two_customers) by evaluate.
  split; [exact G|]. split; [exact S|]. split; [apply later_now|].
  split; [exact all_measured_frequency_segmented|].
  exact (segmentize_replay_returns frequency (metricized_two_customers Py3)
           frequency_segmented_two_customers
           frequency_segmented_two_customers G S
           (later_now frequency_segmented_two_customers)
           all_measured_frequency_segmented).
Defined.

(** ** The pipeline: what can fail *)

Lemma rfmize_unfold (today : option date) (r : Rfmizer) :
  rfmize today r
  = (r1 <- segmentize recency
             (metricize (match today with Some t => t | None => max_date r end)
                r) ;;
     r2 <- segmentize frequency r1 ;;
     segmentize monetary r2).
Proof.
  unfold rfmize. simpl.
  destruct (segmentize recency _) as [r1|e]; [|reflexivity]. simpl.
  destruct (segmentize frequency r1) as [r2|e]; reflexivity.
Qed.

(** Without recorded borders and with metrics for every user, a call
    fails only at line 216, on a zero count, or at line 217, on an empty
    ranking. *)
Lemma segmentize_fresh_raises (d : dimension) (r : Rfmizer) (e : exn) :
  dget d (borders r) = None ->
  all_measured (users r) ->
  segmentize d r = Raise e ->
  e = ZeroDivisionError at_max_i \/ e = IndexError at_first_ranked.
Proof.
  intros G A.
  destruct (classify_unranked_total d (users r) A) as [us1 [uids0 C]].
  unfold segmentize, dmem. rewrite G, C. cbn [bind].
  unfold initial_cursor.
  destruct (conf_segments_count r d =? 0) eqn:Z0; cbn [bind].
  - intros [= <-]. left. reflexivity.
  - destruct (sort_by metric_leb uids0) as [|[uid0 m0] l'] eqn:El;
      cbn [bind].
    + intros [= <-]. right. reflexivity.
    + rewrite <- El. rewrite segmentize_loop_assignments.
      match goal with
      | |- context [loop_assignments false ?v ?sc ?n 0 ?l ?c0] =>
          destruct (fresh_loop_returns v sc n l 0 c0) as [c' [asg L]]
      end.
      * lia.
      * split; [simpl; lia|]. simpl.
        destruct (Z_lt_le_dec (conf_segments_count r d) 1) as [Neg|Pos];
          [left; exact Neg|right].
        split; [exact Pos|]. intros E. rewrite <- E, int_div_one.
        apply Qle_refl.
      * rewrite L. cbn [bind]. discriminate.
Qed.

Lemma segmentize_fresh_nonempty (d : dimension) (r r' : Rfmizer) :
  dget d (borders r) = None -> segmentize d r = Ok r' -> users r <> [].
Proof.
  intros G S E.
  destruct (segmentize_unfold d r r' S)
    as [us1 [uids0 [c0 [c' [asg [C [I _]]]]]]].
  rewrite E in C. simpl in C. injection C as <- <-.
  unfold dmem in I. rewrite G in I.
  destruct (initial_cursor_fresh _ _ _ _ _ I) as [_ [_ [uid [m [l' [El _]]]]]].
  discriminate El.
Qed.

(** The primary run on an engine without borders and with distinct user
    ids: it fails only at lines 216 or 217; when it returns, the engine is
    primed and has users. *)
Lemma rfmize_primary (today : option date) (r : Rfmizer) :
  borders r = [] ->
  wf_dict (users r) = true ->
  match rfmize today r with
  | Ok r1 => primed r1 /\ users r1 <> []
  | Raise e => e = ZeroDivisionError at_max_i \/ e = IndexError at_first_ranked
  end.
Proof.
  intros B W. rewrite rfmize_unfold.
  set (m := metricize _ r).
  assert (Wm : wf_dict (users m) = true)
    by (exact (proj1 (proj2 (metricize_measured _ r W)))).
  assert (Am : all_measured (users m)) by (apply all_measured_metricize; exact W).
  assert (Bm : borders m = []) by (unfold m; rewrite metricize_borders; exact B).
  assert (G1 : dget recency (borders m) = None) by (rewrite Bm; reflexivity).
  destruct (segmentize recency m) as [r1|e] eqn:S1; cbn [bind];
    [|exact (segmentize_fresh_raises recency m e G1 Am S1)].
  destruct (segmentize_keeps_users_ok recency m r1 S1) as [K1 [K2 K3]].
  destruct (segmentize_fresh_contiguous recency m r1 G1 S1) as [b1 [R1 C1]].
  pose proof (segmentize_fresh_nonempty recency m r1 G1 S1) as Ne.
  assert (G2 : dget frequency (borders r1) = None).
  { destruct (segmentize_borders recency m r1 S1) as [b' [E _]].
    rewrite E, Bm. reflexivity. }
  destruct (segmentize frequency r1) as [r2|e] eqn:S2; cbn [bind];
    [|exact (segmentize_fresh_raises frequency r1 e G2 (K2 Am) S2)].
  destruct (segmentize_keeps_users_ok frequency r1 r2 S2) as [L1 [L2 L3]].
  destruct (segmentize_fresh_contiguous frequency r1 r2 G2 S2)
    as [b2 [R2 C2]].
  assert (G3 : dget monetary (borders r2) = None).
  { destruct (segmentize_borders frequency r1 r2 S2) as [b' [E _]].
    destruct (segmentize_borders recency m r1 S1) as [b'' [E' _]].
    rewrite E, E', Bm. reflexivity. }
  destruct (segmentize monetary r2) as [r3|e] eqn:S3;
    [|exact (segmentize_fresh_raises monetary r2 e G3 (L2 (K2 Am)) S3)].
  destruct (segmentize_keeps_users_ok monetary r2 r3 S3) as [M1 [M2 M3]].
  destruct (segmentize_fresh_contiguous monetary r2 r3 G3 S3)
    as [b3 [R3 C3]].
  split; [|exact (M3 (L3 (K3 Ne)))].
  split; [exact (M1 (L1 (K1 Wm)))|]. split; [exact (M2 (L2 (K2 Am)))|].
  intros d. destruct d.
  - exists b1. split; [|exact C1].
    exact (segmentize_keeps_borders _ _ _ _ _
             (segmentize_keeps_borders _ _ _ _ _ R1 S2) S3).
  - exists b2. split; [|exact C2].
    exact (segmentize_keeps_borders _ _ _ _ _ R2 S3).
  - exists b3. split; assumption.
Qed.

(** On a primed engine [rfmize] returns, and the engine stays primed. *)
Lemma rfmize_primed (today : option date) (r : Rfmizer) :
  primed r -> exists r', rfmize today r = Ok r' /\ primed r'.
Proof.
  intros [W [_ Bs]]. rewrite rfmize_unfold.
  set (m := metricize _ r).
  assert (Wm : wf_dict (users m) = true)
    by (exact (proj1 (proj2 (metricize_measured _ r W)))).
  assert (Am : all_measured (users m)) by (apply all_measured_metricize; exact W).
  assert (Bm : borders m = borders r) by (apply metricize_borders).
  assert (St : forall d x, wf_dict (users x) = true -> all_measured (users x) ->
                 (forall d', exists b, dget d' (borders x) = Some b
                                       /\ contiguous b) ->
                 exists x', segmentize d x = Ok x'
                   /\ wf_dict (users x') = true /\ all_measured (users x')
                   /\ forall d', exists b, dget d' (borders x') = Some b
                                           /\ contiguous b).
  { intros d x Wx Ax Bx. destruct (Bx d) as [b [G Cb]].
    destruct (segmentize_recorded_total d b x G Cb Ax) as [x' S].
    exists x'. split; [exact S|].
    destruct (segmentize_keeps_users_ok d x x' S) as [K1 [K2 _]].
    split; [exact (K1 Wx)|]. split; [exact (K2 Ax)|].
    intros d'. destruct (Bx d') as [b' [G' Cb']]. exists b'.
    split; [exact (segmentize_keeps_borders _ _ _ _ _ G' S)|exact Cb']. }
  destruct (St recency m Wm Am) as [r1 [S1 [W1 [A1 B1]]]].
  { intros d'. rewrite Bm. exact (Bs d'). }
  rewrite S1. cbn [bind].
  destruct (St frequency r1 W1 A1 B1) as [r2 [S2 [W2 [A2 B2]]]].
  rewrite S2. cbn [bind].
  destruct (St monetary r2 W2 A2 B2) as [r3 [S3 [W3 [A3 B3]]]].
  exists r3. split; [exact S3|]. split; [exact W3|]. split; assumption.
Qed.

Lemma segment_ratios_raises (avg : Q)
    (segments : dict micro_segment segment_stats) (e : exn) :
  segment_ratios avg segments = Raise e ->
  e = ZeroDivisionError at_segment_ratio.
Proof.
  induction segments as [|[seg s] segments IH]; simpl; [discriminate|].
  unfold checked_div. destruct (Qeq_bool avg 0); cbn [bind].
  - intros [= <-]. reflexivity.
  - destruct (segment_ratios avg segments) as [xs|e']; cbn [bind];
      [discriminate|].
    intros [= <-]. apply IH. reflexivity.
Qed.

Lemma compute_ratios_result (pd : date) (r : Rfmizer) :
  match compute_ratios pd r with
  | Ok r' => users r' = users r /\ users r <> []
  | Raise e => e = ZeroDivisionError at_population_mean
               \/ e = ZeroDivisionError at_segment_ratio
  end.
Proof.
  unfold compute_ratios.
  destruct (account_users pd (users r)) as [segments total].
  unfold checked_div at 1.
  destruct (Qeq_bool (inject_Z (Z.of_nat (List.length (users r)))) 0) eqn:L;
    cbn [bind]; [left; reflexivity|].
  destruct (segment_ratios _ segments) as [x|e] eqn:S; cbn [bind].
  - split; [reflexivity|]. intros E. rewrite E in L. discriminate L.
  - right. exact (segment_ratios_raises _ _ _ S).
Qed.

(** After a primary run on an engine without borders, the second run of
    [rationize] always returns: [rationize] returns or raises one of its
    two [ZeroDivisionError]s, nothing else. *)
Theorem rationize_after_primary :
  forall (r r1 : Rfmizer),
    borders r = [] ->
    wf_dict (users r) = true ->
    rfmize None r = Ok r1 ->
    (exists rp, rfmize (Some (prediction_date r1)) r1 = Ok rp)
    /\ ((exists r2, rationize r1 = Ok r2)
        \/ rationize r1 = Raise (ZeroDivisionError at_population_mean)
        \/ rationize r1 = Raise (ZeroDivisionError at_segment_ratio)).
Proof.
  intros r r1 B W R.
  pose proof (rfmize_primary None r B W) as P. rewrite R in P.
  destruct P as [P _].
  destruct (rfmize_primed (Some (prediction_date r1)) r1 P) as [rp [Rp _]].
  split; [exists rp; exact Rp|].
  rewrite (rationize_unfold r1 rp Rp).
  pose proof (compute_ratios_result (prediction_date r1) rp) as C.
  destruct (compute_ratios (prediction_date r1) rp) as [r2|e].
  - left. exists r2. reflexivity.
  - right. destruct C as [->| ->]; [left|right]; reflexivity.
Qed.

Lemma rationize_after_primary_witness :
  borders (load_input rows_two_customers (example_engine Py3 1000)) = []
  /\ wf_dict (users (load_input rows_two_customers (example_engine Py3 1000)))
     = true
  /\ rfmize None (load_input rows_two_customers (example_engine Py3 1000))
     = Ok primary_two_customers
  /\ exists rp,
       rfmize (Some (prediction_date primary_two_customers))
         primary_two_customers = Ok rp.
Proof.
  assert (B : borders (load_input rows_two_customers
                         (example_engine Py3 1000)) = []) by evaluate.
  assert (W : wf_dict (users (load_input rows_two_customers
                                (example_engine Py3 1000))) = true)
    by evaluate.
  assert (R : rfmize None (load_input rows_two_customers
                             (example_engine Py3 1000))
              = Ok primary_two_customers) by evaluate.
  split; [exact B|]. split; [exact W|]. split; [exact R|].
  exact (proj1 (rationize_after_primary
                  (load_input rows_two_customers (example_engine Py3 1000))
                  primary_two_customers B W R)).
Defined.

Lemma map_column_alias_raises (columns : dict string string)
    (l : list string) (e : exn) :
  map_result (column_alias columns) l = Raise e ->
  e = KeyError at_output_columns.
Proof.
  induction l as [|k l IH]; simpl; [discriminate|].
  unfold column_alias at 1. destruct (dget k columns); cbn [bind].
  - destruct (map_result (column_alias columns) l) as [bs|e'] eqn:M;
      cbn [bind]; [discriminate|].
    intros [= <-]. apply IH. reflexivity.
  - intros [= <-]. reflexivity.
Qed.

(** [save_mapping] fails on an empty population, at [next(iter(...))], or
    on a column without an alias in the configuration. *)
Lemma save_mapping_raises (r : Rfmizer) (e : exn) :
  save_mapping r = Raise e ->
  (users r = [] /\ e = StopIteration at_first_user)
  \/ e = KeyError at_output_columns.
Proof.
  unfold save_mapping. destruct (users r) as [|[uid u] us]; simpl.
  - intros [= <-]. left. split; reflexivity.
  - unfold column_alias at 1.
    destruct (dget _ (conf_output_columns r)); cbn [bind].
    + destruct (map_result _ _) as [cols|e'] eqn:M; cbn [bind];
        [discriminate|].
      intros [= <-]. right. exact (map_column_alias_raises _ _ _ M).
    + intros [= <-]. right. reflexivity.
Qed.

Lemma save_ratios_returns (r : Rfmizer) :
  users r <> [] -> exists out, save_ratios r = Ok out.
Proof.
  intros Ne. unfold save_ratios. destruct (users r) as [|[uid u] us];
    [contradiction|].
  simpl. eexists. reflexivity.
Qed.

Lemma load_input_undated (rows : list Row) (r : Rfmizer) :
  (forall row, In row rows -> dated row = false) ->
  load_input rows r = set_users [] r.
Proof.
  unfold load_input. generalize (set_users [] r).
  induction rows as [|row rows IH]; intros r0 U; simpl; [reflexivity|].
  rewrite (load_row_undated row r0 (U row (or_introl eq_refl))).
  apply IH. intros row' I. apply U. right. exact I.
Qed.

(** ** Fresh and frozen mode agree *)

Section DictExt.
Context {K V : Type} {EK : EqKey K} {EOk : EqKeyOk K}.

Lemma dset_dset (k : K) (v w : V) (d : dict K V) :
  dset k v (dset k w d) = dset k v d.
Proof.
  induction d as [|[k' v'] d IH]; simpl.
  - rewrite keyb_refl. reflexivity.
  - destruct (keyb k k') eqn:E; simpl; rewrite E; [reflexivity|].
    rewrite IH. reflexivity.
Qed.

(** Two dicts with the same keys in the same order and the same values are
    the same dict. *)
Lemma dict_ext (a b : dict K V) :
  dkeys a = dkeys b -> wf_dict a = true ->
  (forall k, dget k a = dget k b) -> a = b.
Proof.
  revert b. induction a as [|[k v] a IH]; intros [|[k' v'] b] Ks W Gs;
    try discriminate Ks; [reflexivity|].
  simpl in Ks. injection Ks as <- Ks.
  simpl in W. apply andb_true_iff in W. destruct W as [Nk W].
  pose proof (Gs k) as Gk. simpl in Gk. rewrite keyb_refl in Gk.
  injection Gk as <-.
  f_equal. apply (IH b Ks W). intros k0.
  destruct (keyb k0 k) eqn:E.
  - apply keyb_eq in E. subst k0.
    assert (Na : dget k a = None).
    { unfold dmem in Nk. destruct (dget k a); [discriminate|reflexivity]. }
    rewrite Na. symmetry. apply dget_None_keys. rewrite <- Ks.
    apply dget_None_keys. exact Na.
  - pose proof (Gs k0) as G0. simpl in G0. rewrite E in G0. exact G0.
Qed.
End DictExt.

Lemma set_users_same (r : Rfmizer) : set_users (users r) r = r.
Proof. destruct r; reflexivity. Qed.

Lemma set_segment_twice (d : dimension) (s t : Z) (u : User) :
  set_segment d s (set_segment d t u) = set_segment d s u.
Proof. unfold set_segment. simpl. rewrite dset_dset. reflexivity. Qed.

Lemma apply_assignments_shape (d : dimension) (uid : user_id)
    (asg : list (user_id * Q * Z)) :
  (forall u, apply_assignments d uid asg u = u)
  \/ exists s, forall u, apply_assignments d uid asg u = set_segment d s u.
Proof.
  induction asg as [|e asg IH].
  - left. reflexivity.
  - destruct (String.eqb uid (fst (fst e))) eqn:E.
    + right. destruct IH as [I|[s I]].
      * exists (snd e). intros u. rewrite apply_assignments_cons, E. apply I.
      * exists s. intros u. rewrite apply_assignments_cons, E, I.
        apply set_segment_twice.
    + destruct IH as [I|[s I]].
      * left. intros u. rewrite apply_assignments_cons, E. apply I.
      * right. exists s. intros u. rewrite apply_assignments_cons, E.
        apply I.
Qed.

Lemma user_metric_code_unranked (d d' : dimension) (u : User) :
  user_metric d (code_unranked d' u) = user_metric d u.
Proof.
  unfold user_metric.
  rewrite (proj1 (proj2 (proj2 (code_unranked_frame d' u)))). reflexivity.
Qed.

(** What one call of [segmentize] does to a user, done twice, is what it
    does once. *)
Lemma recode_idempotent (d : dimension) (uid : user_id)
    (asg : list (user_id * Q * Z)) (u : User) :
  apply_assignments d uid asg
    (code_unranked d (apply_assignments d uid asg (code_unranked d u)))
  = apply_assignments d uid asg (code_unranked d u).
Proof.
  assert (M : user_metric d (apply_assignments d uid asg (code_unranked d u))
              = user_metric d u)
    by (rewrite user_metric_apply_assignments;
        apply user_metric_code_unranked).
  unfold code_unranked at 1. rewrite M.
  destruct (apply_assignments_shape d uid asg) as [I|[s I]].
  - rewrite !I. unfold code_unranked.
    destruct (user_metric d u) as [[| |q]|e]; try reflexivity;
      apply set_segment_twice.
  - rewrite !I. unfold code_unranked.
    destruct (user_metric d u) as [[| |q]|e];
      rewrite ?set_segment_twice; reflexivity.
Qed.

Lemma classify_unranked_map (d : dimension) (F : user_id -> User -> User) :
  (forall uid u, user_metric d (F uid u) = user_metric d u) ->
  forall us us1 uids0,
    classify_unranked d us = Ok (us1, uids0) ->
    exists us1',
      classify_unranked d
        (map (fun e : user_id * User => (fst e, F (fst e) (snd e))) us)
      = Ok (us1', uids0).
Proof.
  intros M. induction us as [|[uid u] us IH]; intros us1 uids0 C.
  - simpl in C. injection C as <- <-. exists []. reflexivity.
  - cbn [classify_unranked] in C. cbn [classify_unranked map fst snd].
    rewrite M.
    destruct (user_metric d u) as [m|e]; [|discriminate].
    cbn [bind] in *.
    destruct (classify_unranked d us) as [[rest' uids]|e]; [|discriminate].
    destruct (IH rest' uids eq_refl) as [us1' ->]. cbn [bind] in *.
    destruct m; injection C as <- <-; eexists; reflexivity.
Qed.

Lemma dget_map_users (F : user_id -> User -> User) (uid : user_id)
    (us : dict user_id User) :
  dget uid (map (fun e : user_id * User => (fst e, F (fst e) (snd e))) us)
  = option_map (F uid) (dget uid us).
Proof.
  induction us as [|[k u] us IH]; simpl; [reflexivity|].
  destruct (keyb uid k) eqn:E; [|exact IH].
  apply keyb_eq in E. subst k. reflexivity.
Qed.

Lemma users_as_map (F : user_id -> User -> User)
    (us us' : dict user_id User) :
  wf_dict us = true ->
  dkeys us' = dkeys us ->
  (forall uid, dget uid us' = option_map (F uid) (dget uid us)) ->
  us' = map (fun e : user_id * User => (fst e, F (fst e) (snd e))) us.
Proof.
  intros W Ks Gs. apply dict_ext.
  - rewrite Ks. unfold dkeys. rewrite map_map. reflexivity.
  - apply wf_dict_NoDup. rewrite Ks. apply wf_dict_NoDup. exact W.
  - intros uid. rewrite Gs, dget_map_users. reflexivity.
Qed.

(** The walk over recorded borders, run on the ranking and the borders a
    fresh loop ends with, hands out the segments the fresh loop did. *)
Lemma fresh_loop_replay (v : py_version) (sc n : Z)
    (l : list (user_id * Q)) :
  forall (i : Z) (c c' : cursor) (asg : list (user_id * Q * Z)),
    StronglySorted metric_le l ->
    Forall (fun x => (prev_metric c <= snd x)%Q) l ->
    (forall s, dmem s (dim_borders c) = true -> s < segment c) ->
    loop_assignments false v sc n i l c = Ok (c', asg) ->
    Z.of_nat (List.length (dim_borders c')) + 1 = segment c' ->
    walk_frozen (dim_borders c') (segment c) l = Ok asg.
Proof.
  induction l as [|[uid q] l IH]; intros i c c' asg Sl Pl Bc L Len.
  - simpl in L. injection L as <- <-. reflexivity.
  - cbn [loop_assignments] in L.
    destruct (advance false v sc n i q c) as [c1|e] eqn:A; [|discriminate].
    cbn [bind] in L.
    destruct (loop_assignments false v sc n (i + 1) l c1)
      as [[c2 asg']|e] eqn:L'; [|discriminate].
    cbn [bind] in L. injection L as <- <-.
    destruct (StronglySorted_inv Sl) as [Sl' Hq].
    destruct (advance_fresh _ _ _ _ _ _ _ A) as [Pq Cases].
    assert (Pl' : Forall (fun x => (prev_metric c1 <= snd x)%Q) l).
    { rewrite Pq. exact Hq. }
    assert (Bc1 : forall s, dmem s (dim_borders c1) = true -> s < segment c1).
    { destruct Cases as [[E1 [E2 _]]|[E1 [E2 _]]]; intros s Hs;
        rewrite E1; rewrite E2 in Hs.
      - apply Bc. exact Hs.
      - destruct (dmem_dset_Z _ _ _ _ Hs) as [->|Hs']; [lia|].
        apply Bc in Hs'. lia. }
    destruct (fresh_loop_spec v sc n l (i + 1) c1 c2 asg' Sl' Pl' Bc1 L')
      as [Sg [_ [_ [_ [Fr Bd]]]]].
    pose proof (IH (i + 1) c1 c2 asg' Sl' Pl' Bc1 L' Len) as W.
    cbn [walk_frozen]. rewrite Len.
    destruct Cases as [[E1 [E2 _]]|[E1 [E2 _]]].
    + destruct (segment c <? segment c2) eqn:T.
      * apply Z.ltb_lt in T.
        destruct (Bd (segment c)) as [x [Gx [Px _]]]; [lia|].
        rewrite Gx. rewrite Pq in Px.
        destruct (Qle_bool x q) eqn:Q.
        { apply Qle_bool_iff in Q. exfalso.
          exact (Qlt_not_le _ _ Px Q). }
        cbn [bind]. rewrite <- E1, W. reflexivity.
      * cbn [bind]. rewrite <- E1, W. reflexivity.
    + assert (T : (segment c <? segment c2) = true)
        by (apply Z.ltb_lt; lia).
      rewrite T, (Fr (segment c)) by lia.
      rewrite E2, dget_dset_same.
      assert (Q : Qle_bool q q = true)
        by (apply Qle_bool_iff; apply Qle_refl).
      rewrite Q. cbn [bind]. rewrite <- E1, W. reflexivity.
Qed.

(** Replaying at once the borders a fresh call has recorded, on the same
    population, changes nothing: frozen mode hands every customer the
    segment fresh mode gave it. *)
Theorem segmentize_fresh_then_replay :
  forall (d : dimension) (r r1 : Rfmizer),
    wf_dict (users r) = true ->
    dget d (borders r) = None ->
    segmentize d r = Ok r1 ->
    segmentize d r1 = Ok r1.
Proof.
  intros d r r1 W G S.
  destruct (segmentize_unfold d r r1 S)
    as [us1 [uids0 [c0 [c' [asg [C [I [L E]]]]]]]].
  assert (Dm : dmem d (borders r) = false)
    by (unfold dmem; rewrite G; reflexivity).
  rewrite Dm in I, L. rewrite G in I.
  destruct (initial_cursor_segment _ _ _ _ _ _ I) as [S0 B0].
  destruct (initial_cursor_fresh _ _ _ _ _ I)
    as [_ [_ [uid0 [m0 [l' [El P0]]]]]].
  pose proof (sort_by_metric_sorted uids0) as Sl.
  assert (Pl : Forall (fun x => (prev_metric c0 <= snd x)%Q)
                 (sort_by metric_leb uids0)).
  { rewrite P0. rewrite El in Sl |- *.
    constructor; [apply Qle_refl|].
    exact (proj2 (StronglySorted_inv Sl)). }
  assert (Bc : forall s, dmem s (dim_borders c0) = true -> s < segment c0).
  { rewrite B0. intros s Hs. discriminate Hs. }
  assert (Len : Z.of_nat (List.length (dim_borders c')) + 1 = segment c').
  { pose proof (fresh_loop_length _ _ _ _ _ _ _ _ Bc L) as Q.
    rewrite B0, S0 in Q. simpl in Q. lia. }
  pose proof (fresh_loop_replay _ _ _ _ _ _ _ _ Sl Pl Bc L Len) as Wk.
  rewrite S0 in Wk.
  assert (U1 : users r1 = assign_all d asg us1) by (rewrite E; reflexivity).
  assert (G1 : dget d (borders r1) = Some (dim_borders c'))
    by (rewrite E; simpl; apply dget_dset_same).
  rewrite (segmentize_recorded d (dim_borders c') r1 G1).
  assert (Gt : forall uid,
            dget uid (users r1)
            = option_map
                (fun u => apply_assignments d uid asg (code_unranked d u))
                (dget uid (users r))).
  { intros uid.
    rewrite U1, dget_assign_all, (dget_classify_unranked d _ _ _ C).
    destruct (dget uid (users r)); reflexivity. }
  assert (Ks : dkeys (users r1) = dkeys (users r)).
  { rewrite U1, dkeys_assign_all.
    exact (proj1 (classify_unranked_keys d _ _ _ C)). }
  pose proof (users_as_map
                (fun uid u => apply_assignments d uid asg (code_unranked d u))
                (users r) (users r1) W Ks Gt) as Mp.
  destruct (classify_unranked_map d
              (fun uid u => apply_assignments d uid asg (code_unranked d u))
              (fun uid u =>
                 eq_trans (user_metric_apply_assignments d d uid asg _)
                   (user_metric_code_unranked d d u))
              (users r) us1 uids0 C) as [us1' C'].
  rewrite <- Mp in C'.
  unfold apply_borders. rewrite C'. cbn [bind]. rewrite Wk. cbn [bind].
  assert (Eq : users r1 = assign_all d asg us1').
  { apply dict_ext.
    - rewrite dkeys_assign_all. symmetry.
      exact (proj1 (classify_unranked_keys d _ _ _ C')).
    - exact (proj1 (segmentize_keeps_users_ok d r r1 S) W).
    - intros uid.
      rewrite dget_assign_all, (dget_classify_unranked d _ _ _ C'), Gt.
      destruct (dget uid (users r)) as [u|]; [|reflexivity]. simpl.
      f_equal. symmetry. apply recode_idempotent. }
  rewrite <- Eq, set_users_same. reflexivity.
Qed.

Lemma segmentize_fresh_then_replay_witness :
  wf_dict (users (metricized_two_customers Py3)) = true
  /\ dget frequency (borders (metricized_two_customers Py3)) = None
  /\ segmentize frequency (metricized_two_customers Py3)
     = Ok frequency_segmented_two_customers
  /\ segmentize frequency frequency_segmented_two_customers
     = Ok frequency_segmented_two_customers.
Proof.
  assert (W : wf_dict (users (metricized_two_customers Py3)) = true)
    by evaluate.
  assert (G : dget frequency (borders (metricized_two_customers Py3)) = None)
    by evaluate.
  assert (S : segmentize frequency (metricized_two_customers Py3)
              = Ok frequency_segmented_two_customers) by evaluate.
  split; [exact W|]. split; [exact G|]. split; [exact S|].
  exact (segmentize_fresh_then_replay frequency (metricized_two_customers Py3)
           frequency_segmented_two_customers W G S).
Defined.

(** ** Ratio Calculator: the ratios are centred *)

#[export] Instance EqKeyOk_micro_segment : EqKeyOk micro_segment.
Proof.
  intros a. unfold keyb, EqKey_micro_segment.
  induction a as [|[k x] a IH]; intros [|[l y] b]; simpl; split; intro E;
    try reflexivity; try discriminate E.
  - apply andb_true_iff in E. destruct E as [E E3].
    apply andb_true_iff in E. destruct E as [E1 E2].
    apply String.eqb_eq in E1. apply IH in E3. subst.
    f_equal. f_equal. destruct x, y; simpl in E2; try discriminate E2.
    + apply String.eqb_eq in E2. subst. reflexivity.
    + apply Z.eqb_eq in E2. subst. reflexivity.
  - injection E as <- <- <-. rewrite String.eqb_refl.
    assert (X : dim_value_eqb x x = true)
      by (destruct x; simpl; [apply String.eqb_refl|apply Z.eqb_refl]).
    rewrite X. simpl. apply IH. reflexivity.
Qed.

Lemma sum_map_ext {A : Type} (g h : A -> Q) (l : list A) :
  (forall x, In x l -> (g x == h x)%Q) ->
  (sum (map g l) == sum (map h l))%Q.
Proof.
  induction l as [|a l IH]; intros E; cbn [map]; [reflexivity|].
  rewrite !sum_cons, IH, (E a (or_introl eq_refl)); [reflexivity|].
  intros x I. apply E. right. exact I.
Qed.

Lemma sum_map_div {A : Type} (g : A -> Q) (c : Q) (l : list A) :
  (sum (map (fun x => g x / c) l) == sum (map g l) / c)%Q.
Proof.
  induction l as [|a l IH]; cbn [map].
  - unfold sum. simpl. unfold Qdiv. ring.
  - rewrite !sum_cons, IH. unfold Qdiv. ring.
Qed.

(** The sum of a weight over the entries of a dict, after [d[k] = s]. *)
Lemma sum_dset (g : micro_segment -> segment_stats -> Q) (k : micro_segment)
    (s : segment_stats) (segs : dict micro_segment segment_stats) :
  (sum (map (fun e => g (fst e) (snd e)) (dset k s segs))
   == sum (map (fun e => g (fst e) (snd e)) segs) + g k s
      - match dget k segs with Some s0 => g k s0 | None => 0 end)%Q.
Proof.
  induction segs as [|[k' s'] segs IH]; cbn [dset dget map fst snd].
  - rewrite sum_cons. ring.
  - destruct (keyb k k') eqn:E; cbn [map fst snd].
    + apply keyb_eq in E. subst k'. rewrite !sum_cons. ring.
    + rewrite !sum_cons, IH. ring.
Qed.

Lemma Forall_dset {K V : Type} {EK : EqKey K} (P : V -> Prop) (k : K) (v : V)
    (d : dict K V) :
  Forall (fun e => P (snd e)) d -> P v ->
  Forall (fun e => P (snd e)) (dset k v d).
Proof.
  intros F Pv. induction d as [|[k' v'] d IH]; simpl.
  - constructor; [exact Pv|constructor].
  - destruct (keyb k k').
    + constructor; [exact Pv|exact (Forall_inv_tail F)].
    + constructor; [exact (Forall_inv F)|].
      apply IH. exact (Forall_inv_tail F).
Qed.

Lemma dget_map_values {K V W : Type} {EK : EqKey K} (h : V -> W) (k : K)
    (d : dict K V) :
  dget k (map (fun e => (fst e, h (snd e))) d) = option_map h (dget k d).
Proof.
  induction d as [|[k' v] d IH]; simpl; [reflexivity|].
  destruct (keyb k k'); [reflexivity|exact IH].
Qed.

(** Lines 280-292 for one user: the user is counted once, in its own
    micro segment, and its future value is added there and to the total. *)
Lemma account_user_step (pd : date) (f : micro_segment -> Q)
    (acc : dict micro_segment segment_stats * Q) (e : user_id * User) :
  (wf_dict (fst acc) = true -> wf_dict (fst (account_user pd acc e)) = true)
  /\ (Forall (fun x => 1 <= users_count (snd x)) (fst acc) ->
      Forall (fun x => 1 <= users_count (snd x))
        (fst (account_user pd acc e)))
  /\ (sum (map (fun x => inject_Z (users_count (snd x)) * f (fst x))
             (fst (account_user pd acc e)))
      == sum (map (fun x => inject_Z (users_count (snd x)) * f (fst x))
                (fst acc))
         + f (sorted_items (u_dimensions (snd e))))%Q
  /\ (sum (map (fun x => orders_value (snd x)) (fst (account_user pd acc e)))
      == sum (map (fun x => orders_value (snd x)) (fst acc))
         + sum (future_orders pd (snd e)))%Q
  /\ (snd (account_user pd acc e)
      == snd acc + sum (future_orders pd (snd e)))%Q.
Proof.
  destruct acc as [segs total]. unfold account_user. cbn [fst snd].
  destruct (dget (sorted_items (u_dimensions (snd e))) segs) as [s0|] eqn:G;
    cbn [fst snd];
    match type of G with
    | _ = ?v =>
        change (@dget micro_segment segment_stats _
                  (sorted_items (u_dimensions (snd e))) segs = v) in G
    end.
  - split; [apply wf_dict_dset|].
    split.
    { intros F. apply (Forall_dset (fun s => 1 <= users_count s)); [exact F|].
      simpl.
      assert (I : In (sorted_items (u_dimensions (snd e)), s0) segs)
        by (apply dget_In; exact G).
      pose proof (proj1 (Forall_forall _ _) F _ I) as P. simpl in P. lia. }
    split.
    { rewrite (sum_dset (fun k s => inject_Z (users_count s) * f k)%Q), G.
      cbn [users_count]. rewrite inject_Z_plus. ring. }
    split; [|reflexivity].
    rewrite (sum_dset (fun k s => orders_value s)), G. cbn [orders_value].
    ring.
  - split; [apply wf_dict_dset|].
    split.
    { intros F. apply (Forall_dset (fun s => 1 <= users_count s)); [exact F|].
      simpl. lia. }
    split.
    { rewrite (sum_dset (fun k s => inject_Z (users_count s) * f k)%Q), G.
      cbn [users_count]. ring. }
    split; [|reflexivity].
    rewrite (sum_dset (fun k s => orders_value s)), G. cbn [orders_value].
    ring.
Qed.

Lemma account_users_fold (pd : date) (f : micro_segment -> Q)
    (us : dict user_id User) :
  forall acc : dict micro_segment segment_stats * Q,
    wf_dict (fst acc) = true ->
    Forall (fun x => 1 <= users_count (snd x)) (fst acc) ->
    (sum (map (fun x => orders_value (snd x)) (fst acc)) == snd acc)%Q ->
    wf_dict (fst (fold_left (account_user pd) us acc)) = true
    /\ Forall (fun x => 1 <= users_count (snd x))
         (fst (fold_left (account_user pd) us acc))
    /\ (sum (map (fun x => orders_value (snd x))
               (fst (fold_left (account_user pd) us acc)))
        == snd (fold_left (account_user pd) us acc))%Q
    /\ (sum (map (fun x => inject_Z (users_count (snd x)) * f (fst x))
               (fst (fold_left (account_user pd) us acc)))
        == sum (map (fun x => inject_Z (users_count (snd x)) * f (fst x))
                  (fst acc))
           + sum (map (fun e => f (sorted_items (u_dimensions (snd e))))
                    us))%Q.
Proof.
  induction us as [|e us IH]; intros acc W F O; cbn [fold_left map].
  - split; [exact W|]. split; [exact F|]. split; [exact O|].
    unfold sum at 3. simpl. ring.
  - destruct (account_user_step pd f acc e) as [W' [F' [S1 [S2 S3]]]].
    destruct (IH (account_user pd acc e) (W' W) (F' F)) as [A [B [C D]]].
    { rewrite S2, S3, O. reflexivity. }
    split; [exact A|]. split; [exact B|]. split; [exact C|].
    rewrite D, S1, sum_cons. ring.
Qed.

Lemma segment_ratios_spec (avg : Q)
    (segs : dict micro_segment segment_stats) (x : dict micro_segment Q) :
  segment_ratios avg segs = Ok x ->
  x = map (fun e => (fst e,
                     (orders_value (snd e) / inject_Z (users_count (snd e))
                      / avg)%Q)) segs
  /\ (segs <> [] -> ~ (avg == 0)%Q).
Proof.
  revert x. induction segs as [|[seg s] segs IH]; intros x; simpl.
  - intros [= <-]. split; [reflexivity|]. intros N. contradiction N.
    reflexivity.
  - unfold checked_div. destruct (Qeq_bool avg 0) eqn:E; cbn [bind];
      [discriminate|].
    destruct (segment_ratios avg segs) as [xs|e]; cbn [bind]; [|discriminate].
    intros [= <-]. destruct (IH xs eq_refl) as [-> _].
    split; [reflexivity|]. intros _ Z0.
    apply Qeq_bool_iff in Z0. rewrite Z0 in E. discriminate E.
Qed.

(** When [rationize] returns, the bid ratios average to one over the
    users it kept: the ratios of the users' micro segments add up to the
    number of users. *)
Theorem rationize_ratios_centred :
  forall (r r2 : Rfmizer),
    rationize r = Ok r2 ->
    (sum (map (fun e => bid_ratio r2 (snd e)) (users r2))
     == inject_Z (Z.of_nat (List.length (users r2))))%Q.
Proof.
  intros r r2. unfold rationize.
  destruct (rfmize (Some (prediction_date r)) r) as [r1|e]; cbn [bind];
    [|discriminate].
  generalize (prediction_date r). intros pd. unfold compute_ratios.
  destruct (account_users pd (users r1)) as [segs total] eqn:AU.
  unfold checked_div at 1.
  destruct (Qeq_bool (inject_Z (Z.of_nat (List.length (users r1)))) 0) eqn:N0;
    cbn [bind]; [discriminate|].
  destruct (segment_ratios _ segs) as [x|e] eqn:SR; cbn [bind];
    [|discriminate].
  intros [= <-]. unfold bid_ratio. cbn [users ratios set_ratios].
  destruct (segment_ratios_spec _ _ _ SR) as [Ex Nz].
  unfold account_users in AU.
  destruct (account_users_fold pd
              (fun k => match dget k x with Some q => q | None => 0%Q end)
              (users r1) ([], 0%Q) eq_refl (Forall_nil _))
    as [W [F [O S]]]; [reflexivity|].
  rewrite AU in W, F, O, S. cbn [fst snd] in W, F, O, S.
  assert (Ne : users r1 <> []).
  { intros E. rewrite E in N0. discriminate N0. }
  assert (Ns : segs <> []).
  { pose proof (fold_account_user_segments pd (users r1) ([], 0%Q)
                  (or_introl Ne)) as P.
    rewrite AU in P. exact P. }
  specialize (Nz Ns).
  assert (Nn : ~ (inject_Z (Z.of_nat (List.length (users r1))) == 0)%Q).
  { intros E. apply Qeq_bool_iff in E. rewrite E in N0. discriminate N0. }
  assert (Nt : ~ (total == 0)%Q).
  { intros E. apply Nz. rewrite E. unfold Qdiv. ring. }
  cbn [map] in S. unfold sum at 2 in S. cbn [fold_left] in S.
  rewrite Qplus_0_l in S. rewrite <- S.
  rewrite (sum_map_ext
             (fun e : micro_segment * segment_stats =>
                (inject_Z (users_count (snd e))
                 * match dget (fst e) x with Some q => q | None => 0 end)%Q)
             (fun e => (orders_value (snd e)
                        / (total / inject_Z (Z.of_nat
                                               (List.length (users r1)))))%Q)).
  - rewrite sum_map_div, O. field. split; assumption.
  - intros [k s] I. cbn [fst snd].
    rewrite Ex, (dget_map_values
                   (fun s => (orders_value s / inject_Z (users_count s)
                              / (total / inject_Z (Z.of_nat
                                   (List.length (users r1)))))%Q)).
    rewrite (In_dget k s segs (proj1 (wf_dict_NoDup segs) W) I). simpl.
    pose proof (proj1 (Forall_forall _ _) F _ I) as P. simpl in P.
    assert (Nu : ~ (inject_Z (users_count s) == 0)%Q).
    { unfold Qeq. simpl. lia. }
    field. repeat split; assumption.
Qed.

Lemma rationize_ratios_centred_witness :
  rationize primary_two_customers = Ok rationized_two_customers
  /\ (sum (map (fun e => bid_ratio rationized_two_customers (snd e))
             (users rationized_two_customers))
      == inject_Z (Z.of_nat (List.length (users rationized_two_customers))))%Q.
Proof.
  assert (R : rationize primary_two_customers = Ok rationized_two_customers)
    by evaluate.
  split; [exact R|].
  exact (rationize_ratios_centred primary_two_customers
           rationized_two_customers R).
Defined.

Lemma account_user_keys (pd : date)
    (acc : dict micro_segment segment_stats * Q) (e : user_id * User)
    (seg : micro_segment) :
  dmem seg (fst (account_user pd acc e)) = true
  <-> dmem seg (fst acc) = true
      \/ seg = sorted_items (u_dimensions (snd e)).
Proof.
  destruct acc as [segs total]. unfold account_user. cbn [fst snd].
  assert (D : forall s,
            dmem seg (dset (sorted_items (u_dimensions (snd e))) s segs)
            = true
            <-> dmem seg segs = true
                \/ seg = sorted_items (u_dimensions (snd e))).
  { intros s. unfold dmem. rewrite dget_dset.
    destruct (keyb seg (sorted_items (u_dimensions (snd e)))) eqn:E.
    - apply keyb_eq in E. split; [right; exact E|reflexivity].
    - apply keyb_neq in E. split; [left; assumption|].
      intros [M|M]; [exact M|contradiction]. }
  destruct (dget (sorted_items (u_dimensions (snd e))) segs) as [s0|];
    cbn [fst]; apply D.
Qed.

Lemma account_users_keys (pd : date) (us : dict user_id User)
    (seg : micro_segment) :
  forall acc : dict micro_segment segment_stats * Q,
    dmem seg (fst (fold_left (account_user pd) us acc)) = true
    <-> dmem seg (fst acc) = true
        \/ exists e, In e us /\ seg = sorted_items (u_dimensions (snd e)).
Proof.
  induction us as [|e us IH]; intros acc; cbn [fold_left].
  - split; [left; assumption|]. intros [M|[e [[] _]]]. exact M.
  - rewrite IH, account_user_keys. split.
    + intros [[M|M]|[e' [I M]]].
      * left. exact M.
      * right. exists e. split; [left; reflexivity|exact M].
      * right. exists e'. split; [right; exact I|exact M].
    + intros [M|[e' [[<-|I] M]]].
      * left. left. exact M.
      * left. right. exact M.
      * right. exists e'. split; assumption.
Qed.

(** When [rationize] returns, [self.ratios] has one entry for each micro
    segment some remaining user is in, and no other: [save_ratios] writes
    a row for every micro segment in use and for none that is empty. *)
Theorem rationize_ratios_cover :
  forall (r r2 : Rfmizer),
    rationize r = Ok r2 ->
    wf_dict (ratios r2) = true
    /\ forall seg : micro_segment,
         dmem seg (ratios r2) = true
         <-> exists uid u, In (uid, u) (users r2)
                           /\ sorted_items (u_dimensions u) = seg.
Proof.
  intros r r2. unfold rationize.
  destruct (rfmize (Some (prediction_date r)) r) as [r1|e]; cbn [bind];
    [|discriminate].
  generalize (prediction_date r). intros pd. unfold compute_ratios.
  destruct (account_users pd (users r1)) as [segs total] eqn:AU.
  unfold checked_div at 1.
  destruct (Qeq_bool (inject_Z (Z.of_nat (List.length (users r1)))) 0);
    cbn [bind]; [discriminate|].
  destruct (segment_ratios _ segs) as [x|e] eqn:SR; cbn [bind];
    [|discriminate].
  intros [= <-]. cbn [users ratios set_ratios].
  destruct (segment_ratios_spec _ _ _ SR) as [Ex _].
  unfold account_users in AU.
  destruct (account_users_fold pd (fun _ => 0%Q) (users r1) ([], 0%Q)
              eq_refl (Forall_nil _)) as [W _]; [reflexivity|].
  rewrite AU in W. cbn [fst] in W.
  assert (Ks : dkeys x = dkeys segs).
  { rewrite Ex. unfold dkeys. rewrite map_map. reflexivity. }
  split.
  - apply wf_dict_NoDup. rewrite Ks. apply wf_dict_NoDup. exact W.
  - intros seg.
    assert (M : dmem seg x = dmem seg segs).
    { unfold dmem.
      rewrite Ex, (dget_map_values
                     (fun s => (orders_value s / inject_Z (users_count s)
                                / (total / inject_Z (Z.of_nat
                                     (List.length (users r1)))))%Q)).
      destruct (dget seg segs); reflexivity. }
    rewrite M.
    pose proof (account_users_keys pd (users r1) seg ([], 0%Q)) as A.
    rewrite AU in A. cbn [fst] in A. rewrite A. split.
    + intros [D|[[uid u] [I E]]]; [discriminate D|].
      exists uid, u. split; [exact I|]. symmetry. exact E.
    + intros [uid [u [I E]]]. right. exists (uid, u).
      split; [exact I|]. symmetry. exact E.
Qed.

Lemma rationize_ratios_cover_witness :
  rationize primary_two_customers = Ok rationized_two_customers
  /\ wf_dict (ratios rationized_two_customers) = true.
Proof.
  assert (R : rationize primary_two_customers = Ok rationized_two_customers)
    by evaluate.
  split; [exact R|].
  exact (proj1 (rationize_ratios_cover primary_two_customers
                  rationized_two_customers R)).
Defined.

(** ** The three dimensions together *)

Lemma user_metrics_shape (start today : date) (u : User) (m : Metrics) :
  user_metrics start today u = Some m ->
  m = stale_metrics
  \/ (exists a b, m_recency m = MNum a /\ m_frequency m = MNum b)
     /\ m_monetary m <> MStale /\ m <> stale_metrics.
Proof.
  unfold user_metrics.
  destruct (Z.of_nat (List.length (w_orders (scan_orders start today
                                               (u_orders u)))) =? 0).
  - destruct (today <? w_min_date (scan_orders start today (u_orders u)));
      [discriminate|].
    intros [= <-]. left. reflexivity.
  - intros [= <-]. right. cbn [m_recency m_frequency m_monetary].
    split; [eexists; eexists; split; reflexivity|].
    split; [|discriminate].
    destruct (0 <? _); discriminate.
Qed.

Lemma user_metric_by_metrics (d : dimension) (u u' : User) :
  u_metrics u' = u_metrics u -> user_metric d u' = user_metric d u.
Proof. unfold user_metric. intros ->. reflexivity. Qed.

(** A returning [rfmize] keeps the users [metricize] left, in their order,
    and gives each of them a segment in all three dimensions, touching no
    other attribute: a stale user gets 0 in all three, any other user at
    least 1 in all three. *)
Theorem rfmize_codes_all_dimensions :
  forall (today : option date) (r r1 : Rfmizer),
    wf_dict (users r) = true ->
    rfmize today r = Ok r1 ->
    dkeys (users r1)
    = dkeys (users (metricize
                      (match today with Some t => t | None => max_date r end)
                      r))
    /\ forall uid u,
         dget uid (users (metricize
                            (match today with
                             | Some t => t
                             | None => max_date r
                             end) r)) = Some u ->
         exists u1 sr sf sm,
           dget uid (users r1) = Some u1
           /\ u_orders u1 = u_orders u
           /\ u_max_date u1 = u_max_date u
           /\ u_metrics u1 = u_metrics u
           /\ dget "recency"%string (u_dimensions u1) = Some (DInt sr)
           /\ dget "frequency"%string (u_dimensions u1) = Some (DInt sf)
           /\ dget "monetary"%string (u_dimensions u1) = Some (DInt sm)
           /\ (forall k, k <> "recency"%string -> k <> "frequency"%string ->
                 k <> "monetary"%string ->
                 dget k (u_dimensions u1) = dget k (u_dimensions u))
           /\ ((u_metrics u = Some stale_metrics
                /\ sr = 0 /\ sf = 0 /\ sm = 0)
               \/ (u_metrics u <> Some stale_metrics
                   /\ 1 <= sr /\ 1 <= sf /\ 1 <= sm)).
Proof.
  intros today r r1 W R. rewrite rfmize_unfold in R.
  set (m := metricize _ r) in *.
  destruct (metricize_measured
              (match today with Some t => t | None => max_date r end) r W)
    as [_ [Wm Sh]].
  fold m in Wm, Sh.
  destruct (segmentize recency m) as [ra|e] eqn:S1; cbn [bind] in R;
    [|discriminate].
  destruct (segmentize frequency ra) as [rb|e] eqn:S2; cbn [bind] in R;
    [|discriminate].
  pose proof (proj1 (segmentize_keeps_users_ok recency m ra S1) Wm) as Wa.
  pose proof (proj1 (segmentize_keeps_users_ok frequency ra rb S2) Wa) as Wb.
  destruct (segmentize_user_codes recency m ra Wm S1) as [K1 C1].
  destruct (segmentize_user_codes frequency ra rb Wa S2) as [K2 C2].
  destruct (segmentize_user_codes monetary rb r1 Wb R) as [K3 C3].
  split; [rewrite K3, K2, K1; reflexivity|].
  intros uid u G.
  destruct (C1 uid u G) as [ua [sr [Ga [O1 [D1 [M1 [F1 [X1 Y1]]]]]]]].
  destruct (C2 uid ua Ga) as [ub [sf [Gb [O2 [D2 [M2 [F2 [X2 Y2]]]]]]]].
  destruct (C3 uid ub Gb) as [uc [sm [Gc [O3 [D3 [M3 [F3 [X3 Y3]]]]]]]].
  rewrite (user_metric_by_metrics frequency u ua M1) in Y2.
  rewrite (user_metric_by_metrics monetary u ub (eq_trans M2 M1)) in Y3.
  exists uc, sr, sf, sm.
  split; [exact Gc|].
  split; [rewrite O3, O2, O1; reflexivity|].
  split; [rewrite D3, D2, D1; reflexivity|].
  split; [rewrite M3, M2, M1; reflexivity|].
  split.
  { rewrite (F3 "recency"%string), (F2 "recency"%string) by discriminate.
    exact X1. }
  split.
  { rewrite (F3 "frequency"%string) by discriminate. exact X2. }
  split; [exact X3|].
  split.
  { intros k N1 N2 N3. rewrite (F3 k N3), (F2 k N2). exact (F1 k N1). }
  destruct (Sh uid u G) as [u0 [mm [_ [Um ->]]]].
  unfold user_metric in Y1, Y2, Y3. cbn [u_metrics set_metrics] in *.
  cbn [metric_of] in Y1, Y2, Y3.
  destruct (user_metrics_shape _ _ _ _ Um) as [->|[[a [b [Ea Eb]]] [Nm Ns]]].
  - left. cbn [m_recency m_frequency m_monetary stale_metrics] in *.
    split; [reflexivity|]. split; [exact Y1|]. split; [exact Y2|exact Y3].
  - right. rewrite Ea in Y1. rewrite Eb in Y2.
    split; [intros [= E]; exact (Ns E)|].
    split; [exact (proj1 Y1)|]. split; [exact (proj1 Y2)|].
    destruct (m_monetary mm) as [| |q]; [lia|contradiction Nm; reflexivity|].
    exact (proj1 Y3).
Qed.

Lemma rfmize_codes_all_dimensions_witness :
  wf_dict (users (load_input rows_two_customers (example_engine Py3 1000)))
  = true
  /\ rfmize None (load_input rows_two_customers (example_engine Py3 1000))
     = Ok primary_two_customers
  /\ dkeys (users primary_two_customers)
     = dkeys (users (metricize
                       (max_date (load_input rows_two_customers
                                    (example_engine Py3 1000)))
                       (load_input rows_two_customers
                          (example_engine Py3 1000)))).
Proof.
  assert (W : wf_dict (users (load_input rows_two_customers
                                (example_engine Py3 1000))) = true)
    by evaluate.
  assert (R : rfmize None (load_input rows_two_customers
                             (example_engine Py3 1000))
              = Ok primary_two_customers) by evaluate.
  split; [exact W|]. split; [exact R|].
  exact (proj1 (rfmize_codes_all_dimensions None
                  (load_input rows_two_customers (example_engine Py3 1000))
                  primary_two_customers W R)).
Defined.

(** ** Frozen mode: what the recorded borders guarantee *)

Lemma walk_frozen_spec (b : dict Z Q) (l : list (user_id * Q)) :
  forall (seg : Z) (asg : list (user_id * Q * Z)),
    StronglySorted metric_le l ->
    walk_frozen b seg l = Ok asg ->
    map fst asg = l
    /\ Forall (fun e => seg <= snd e) asg
    /\ StronglySorted (fun e1 e2 : user_id * Q * Z => snd e1 <= snd e2) asg
    /\ (forall e, In e asg -> seg < snd e ->
          exists x, dget (snd e - 1) b = Some x /\ (x <= snd (fst e))%Q).
Proof.
  induction l as [|[uid q] l IH]; intros seg asg Sl Wk.
  - simpl in Wk. injection Wk as <-.
    split; [reflexivity|]. split; [constructor|]. split; [constructor|].
    intros e [].
  - cbn [walk_frozen] in Wk.
    destruct (StronglySorted_inv Sl) as [Sl' Hq].
    match type of Wk with
    | (seg' <- ?step ;; _) = _ => destruct step as [seg'|e] eqn:St
    end; cbn [bind] in Wk; [|discriminate].
    destruct (walk_frozen b seg' l) as [asg'|e] eqn:Wk'; cbn [bind] in Wk;
      [|discriminate].
    injection Wk as <-.
    destruct (IH seg' asg' Sl' Wk') as [I1 [I2 [I3 I4]]].
    assert (Step : seg' = seg
                   \/ (seg' = seg + 1
                       /\ exists x, dget seg b = Some x /\ (x <= q)%Q)).
    { destruct (seg <? Z.of_nat (List.length b) + 1).
      - destruct (dget seg b) as [x|]; [|discriminate].
        destruct (Qle_bool x q) eqn:Q; injection St as <-.
        + right. split; [reflexivity|]. exists x. split; [reflexivity|].
          apply Qle_bool_iff. exact Q.
        + left. reflexivity.
      - injection St as <-. left. reflexivity. }
    assert (Le : seg <= seg') by (destruct Step as [->|[-> _]]; lia).
    split; [cbn [map fst]; rewrite I1; reflexivity|].
    split.
    { constructor; [exact Le|].
      apply Forall_impl with (2 := I2). intros e He. lia. }
    split; [constructor; [exact I3|exact I2]|].
    intros e [<-|I] Lt; cbn [fst snd] in *.
    + destruct Step as [->|[-> [x [Gx Lx]]]]; [lia|].
      exists x. split; [|exact Lx].
      replace (seg + 1 - 1) with seg by lia. exact Gx.
    + destruct (Z_lt_le_dec seg' (snd e)) as [Lt'|Ge]; [exact (I4 e I Lt')|].
      pose proof (proj1 (Forall_forall _ _) I2 e I) as Le'. cbn beta in Le'.
      assert (Es : snd e = seg') by lia.
      destruct Step as [->|[E1 [x [Gx Lx]]]]; [lia|].
      exists x. split.
      * rewrite Es, E1. replace (seg + 1 - 1) with seg by lia. exact Gx.
      * apply Qle_trans with q; [exact Lx|].
        assert (Il : In (fst e) l) by (rewrite <- I1; apply in_map; exact I).
        exact (proj1 (Forall_forall _ _) Hq (fst e) Il).
Qed.

Lemma sorted_twice_monotone (asg : list (user_id * Q * Z)) :
  StronglySorted metric_le (map fst asg) ->
  StronglySorted (fun e1 e2 : user_id * Q * Z => snd e1 <= snd e2) asg ->
  forall e1 e2, In e1 asg -> In e2 asg ->
    (snd (fst e1) < snd (fst e2))%Q -> snd e1 <= snd e2.
Proof.
  induction asg as [|a asg IH]; intros S1 S2 e1 e2 I1 I2 Lt; [destruct I1|].
  cbn [map] in S1.
  destruct (StronglySorted_inv S1) as [S1' H1].
  destruct (StronglySorted_inv S2) as [S2' H2].
  destruct I1 as [<-|I1], I2 as [<-|I2].
  - lia.
  - exact (proj1 (Forall_forall _ _) H2 e2 I2).
  - exfalso.
    pose proof (proj1 (Forall_forall _ _) H1 (fst e1) (in_map fst _ _ I1))
      as Le.
    unfold metric_le in Le. exact (Qlt_not_le _ _ Lt Le).
  - exact (IH S1' S2' e1 e2 I1 I2 Lt).
Qed.

(** A call by recorded borders, seen as the walk over them, with the
    segments of the ranked users read back from the engine. *)
Lemma segmentize_walk_frozen (d : dimension) (b : dict Z Q) (r r' : Rfmizer) :
  wf_dict (users r) = true ->
  dget d (borders r) = Some b ->
  segmentize d r = Ok r' ->
  exists uids0 asg,
    walk_frozen b 1 (sort_by metric_leb uids0) = Ok asg
    /\ forall uid q t, ranked d r' uid q -> segment_of d r' uid t ->
         In (uid, q, t) asg.
Proof.
  intros W G S. apply wf_dict_NoDup in W.
  rewrite (segmentize_recorded d b r G) in S. unfold apply_borders in S.
  destruct (classify_unranked d (users r)) as [[us1 uids0]|e] eqn:C;
    cbn [bind] in S; [|discriminate].
  destruct (walk_frozen b 1 (sort_by metric_leb uids0)) as [asg|e] eqn:Wk;
    cbn [bind] in S; [|discriminate].
  injection S as <-.
  exists uids0, asg. split; [exact Wk|].
  destruct (walk_frozen_spec b _ 1 asg (sort_by_metric_sorted uids0) Wk)
    as [I2 _].
  assert (NA : NoDup (map (fun e : user_id * Q * Z => fst (fst e)) asg)).
  { rewrite <- (map_map fst fst), I2.
    apply Permutation_NoDup with (map fst uids0).
    - apply Permutation_map, Permutation_sym, sort_by_perm.
    - exact (classify_unranked_NoDup d (users r) us1 uids0 C W). }
  intros uid q t [u2 [G2 M2]] [u2' [G2' D2]]. simpl in G2, G2'.
  rewrite G2 in G2'. injection G2' as <-.
  rewrite dget_assign_all in G2.
  destruct (dget uid us1) as [u1|] eqn:G1; [|discriminate G2].
  injection G2 as <-.
  rewrite user_metric_apply_assignments in M2.
  pose proof (classify_unranked_ranked d (users r) us1 uids0 C uid u1 q
                G1 M2) as F.
  apply (sort_by_In metric_leb) in F. rewrite <- I2 in F.
  apply in_map_iff in F.
  destruct F as [[[uid' q'] t'] [E F]]. simpl in E. injection E as -> ->.
  pose proof (apply_assignments_segment d asg NA (uid, q, t') u1 F) as D.
  simpl in D. rewrite D in D2. injection D2 as ->. exact F.
Qed.

(** By recorded borders, a ranked user is in segment [s >= 2] only if its
    metric reaches the border recorded under [s - 1], and of two ranked
    users the one with the strictly smaller metric never holds the larger
    segment. *)
Theorem segmentize_frozen_respects_borders :
  forall (d : dimension) (b : dict Z Q) (r r' : Rfmizer),
    wf_dict (users r) = true ->
    dget d (borders r) = Some b ->
    segmentize d r = Ok r' ->
    (forall uid q s,
       ranked d r' uid q -> segment_of d r' uid s -> 2 <= s ->
       exists x, dget (s - 1) b = Some x /\ (x <= q)%Q)
    /\ (forall uid1 uid2 q1 q2 s1 s2,
          ranked d r' uid1 q1 -> ranked d r' uid2 q2 ->
          segment_of d r' uid1 s1 -> segment_of d r' uid2 s2 ->
          (q1 < q2)%Q -> s1 <= s2).
Proof.
  intros d b r r' W G S.
  destruct (segmentize_walk_frozen d b r r' W G S) as [uids0 [asg [Wk In']]].
  destruct (walk_frozen_spec b _ 1 asg (sort_by_metric_sorted uids0) Wk)
    as [I1 [_ [I3 I4]]].
  split.
  - intros uid q s Rk Sg Ge.
    destruct (I4 (uid, q, s) (In' uid q s Rk Sg)) as [x [Gx Lx]];
      [simpl; lia|].
    exists x. split; assumption.
  - intros uid1 uid2 q1 q2 s1 s2 R1 R2 T1 T2 Lt.
    apply (sorted_twice_monotone asg) with (e1 := (uid1, q1, s1))
                                           (e2 := (uid2, q2, s2)).
    + rewrite I1. apply sort_by_metric_sorted.
    + exact I3.
    + exact (In' uid1 q1 s1 R1 T1).
    + exact (In' uid2 q2 s2 R2 T2).
    + exact Lt.
Qed.

Lemma segmentize_frozen_respects_borders_witness :
  wf_dict (users frequency_segmented_two_customers) = true
  /\ dget frequency (borders frequency_segmented_two_customers)
     = Some [(1, 3%Q)]
  /\ segmentize frequency frequency_segmented_two_customers
     = Ok frequency_segmented_two_customers
  /\ forall uid q s,
       ranked frequency frequency_segmented_two_customers uid q ->
       segment_of frequency frequency_segmented_two_customers uid s ->
       2 <= s ->
       exists x, dget (s - 1) [(1, 3%Q)] = Some x /\ (x <= q)%Q.
Proof.
  assert (W : wf_dict (users frequency_segmented_two_customers) = true)
    by evaluate.
  assert (G : dget frequency (borders frequency_segmented_two_customers)
              = Some [(1, 3%Q)]) by evaluate.
  assert (S : segmentize frequency frequency_segmented_two_customers
              = Ok frequency_segmented_two_customers) by evaluate.
  split; [exact W|]. split; [exact G|]. split; [exact S|].
  exact (proj1 (segmentize_frozen_respects_borders frequency [(1, 3%Q)]
                  frequency_segmented_two_customers
                  frequency_segmented_two_customers W G S)).
Defined.

(** ** An input without usable order values *)

Lemma In_dset {K V : Type} {EK : EqKey K} (k k' : K) (v v' : V)
    (d : dict K V) :
  In (k', v') (dset k v d) -> In (k', v') d \/ v' = v.
Proof.
  induction d as [|[k0 v0] d IH]; simpl.
  - intros [[= <- <-]|[]]. right. reflexivity.
  - destruct (keyb k k0); simpl.
    + intros [[= <- <-]|I]; [right; reflexivity|left; right; exact I].
    + intros [E|I]; [left; left; exact E|].
      destruct (IH I) as [I'|E]; [left; right; exact I'|right; exact E].
Qed.

Lemma add_order_no_value (d : date) (v : option Q)
    (orders : dict date (option Q)) :
  truthy v = false ->
  (forall d' v', In (d', v') orders -> v' = None) ->
  forall d' v', In (d', v') (add_order d v orders) -> v' = None.
Proof.
  intros T A d' v'. unfold add_order. rewrite T.
  assert (O : In (d', v')
                (if dmem d orders then orders else dset d None orders) ->
              v' = None).
  { destruct (dmem d orders); [apply A|].
    intros I. destruct (In_dset _ _ _ _ _ I) as [I'|E];
      [exact (A d' v' I')|exact E]. }
  destruct v; exact O.
Qed.

Lemma load_row_no_value (row : Row) (r : Rfmizer) :
  truthy (row_order_value row) = false ->
  (forall uid u, In (uid, u) (users r) ->
     forall d v, In (d, v) (u_orders u) -> v = None) ->
  forall uid u, In (uid, u) (users (load_row row r)) ->
    forall d v, In (d, v) (u_orders u) -> v = None.
Proof.
  intros T A uid u. unfold load_row.
  destruct (row_order_date row) as [od|]; [|apply A].
  match goal with
  | |- In _ (users (if _ then set_max_date _ ?r1 else ?r1)) -> _ =>
      assert (U : forall b : bool, users (if b then set_max_date od r1 else r1)
                            = users r1) by (intros []; reflexivity)
  end.
  rewrite U. cbn [users set_users]. intros I.
  destruct (In_dset _ _ _ _ _ I) as [I'| ->]; [exact (A uid u I')|].
  cbn [u_orders]. apply add_order_no_value; [exact T|].
  destruct (dget (row_user_id row) (users r)) as [u0|] eqn:G.
  - apply (A (row_user_id row) u0). apply dget_In. exact G.
  - intros d' v' [].
Qed.

Lemma load_input_no_value (rows : list Row) (r : Rfmizer) :
  (forall row, In row rows -> truthy (row_order_value row) = false) ->
  forall uid u, In (uid, u) (users (load_input rows r)) ->
    forall d v, In (d, v) (u_orders u) -> v = None.
Proof.
  unfold load_input.
  assert (A0 : forall uid u, In (uid, u) (users (set_users [] r)) ->
                 forall d v, In (d, v) (u_orders u) -> v = None)
    by (intros uid u []).
  revert A0. generalize (set_users [] r).
  induction rows as [|row rows IH]; intros r0 A0 T; cbn [fold_left];
    [exact A0|].
  apply IH.
  - apply load_row_no_value; [|exact A0]. apply T. left. reflexivity.
  - intros row' I. apply T. right. exact I.
Qed.

Lemma non_null_no_value (l : list (option Q)) :
  (forall v, In v l -> v = None) -> non_null l = [].
Proof.
  induction l as [|v l IH]; intros A; [reflexivity|].
  rewrite (A v (or_introl eq_refl)). simpl. apply IH.
  intros v' I. apply A. right. exact I.
Qed.

Lemma user_metrics_no_value (start today : date) (u : User) (m : Metrics) :
  (forall d v, In (d, v) (u_orders u) -> v = None) ->
  user_metrics start today u = Some m ->
  m_monetary m = MNone \/ m_monetary m = MStale.
Proof.
  intros A. rewrite user_metrics_scan. cbv zeta.
  destruct (Z.of_nat (List.length (in_window start today (u_orders u))) =? 0).
  - destruct (today <? _); [discriminate|]. intros [= <-]. right. reflexivity.
  - intros [= <-]. left. cbn [m_monetary].
    rewrite non_null_no_value; [reflexivity|].
    intros v I. apply in_map_iff in I. destruct I as [[d v'] [E I]].
    simpl in E. subst v'. apply in_window_In in I.
    exact (A d v (proj1 I)).
Qed.

(** An input in which no order value is usable (none parses, or all are
    zero) gives no output: the run stops in [segmentize], on the division
    of line 216 or on [uids[0]] of line 217, at the latest for the
    monetary dimension, where nobody is ranked. *)
Theorem save_output_without_values :
  forall (v : py_version) (segments_count : dimension -> Z)
         (output_columns : dict string string)
         (look_back_period prediction_period : Z) (rows : list Row),
    (forall row, In row rows -> truthy (row_order_value row) = false) ->
    exists e,
      save_output
        (load_input rows
           (init v segments_count output_columns look_back_period
              prediction_period))
      = Raise e
      /\ (e = ZeroDivisionError at_max_i \/ e = IndexError at_first_ranked).
Proof.
  intros v sc cols lb pd rows T.
  set (r := load_input rows (init v sc cols lb pd)).
  assert (B : borders r = [])
    by (unfold r; rewrite load_input_borders; reflexivity).
  assert (W : wf_dict (users r) = true)
    by exact (proj1 (load_input_invariant rows _)).
  pose proof (rfmize_primary None r B W) as P.
  destruct (rfmize None r) as [r1|e] eqn:R.
  2:{ exists e. split; [|exact P]. unfold save_output. rewrite R.
      reflexivity. }
  exfalso. rewrite rfmize_unfold in R.
  set (m := metricize (max_date r) r) in *.
  destruct (metricize_measured (max_date r) r W) as [_ [Wm Sh]].
  fold m in Wm, Sh.
  assert (Bm : borders m = [])
    by (unfold m; rewrite metricize_borders; exact B).
  destruct (segmentize recency m) as [ra|e] eqn:S1; cbn [bind] in R;
    [|discriminate].
  destruct (segmentize frequency ra) as [rb|e] eqn:S2; cbn [bind] in R;
    [|discriminate].
  pose proof (proj1 (segmentize_keeps_users_ok recency m ra S1) Wm) as Wa.
  pose proof (proj1 (segmentize_keeps_users_ok frequency ra rb S2) Wa) as Wb.
  destruct (segmentize_user_codes recency m ra Wm S1) as [K1 C1].
  destruct (segmentize_user_codes frequency ra rb Wa S2) as [K2 C2].
  assert (G3 : dget monetary (borders rb) = None).
  { destruct (segmentize_borders frequency ra rb S2) as [b' [E _]].
    destruct (segmentize_borders recency m ra S1) as [b'' [E' _]].
    rewrite E, E', Bm. reflexivity. }
  assert (A : forall uid u, In (uid, u) (users rb) ->
                user_metric monetary u = Ok MNone
                \/ user_metric monetary u = Ok MStale).
  { intros uid u I.
    assert (Gb : dget uid (users rb) = Some u)
      by (apply In_dget; [apply wf_dict_NoDup; exact Wb|exact I]).
    destruct (dget uid (users m)) as [um|] eqn:Gm.
    - destruct (C1 uid um Gm) as [ua [sr [Ga [_ [_ [M1 _]]]]]].
      destruct (C2 uid ua Ga) as [ub [sf [Gb' [_ [_ [M2 _]]]]]].
      rewrite Gb in Gb'. injection Gb' as <-.
      destruct (Sh uid um Gm) as [u0 [mm [G0 [Um ->]]]].
      unfold user_metric. rewrite M2, M1. cbn [u_metrics set_metrics metric_of].
      assert (Nv : forall d x, In (d, x) (u_orders u0) -> x = None).
      { apply (load_input_no_value rows (init v sc cols lb pd) T uid u0).
        apply dget_In. exact G0. }
      destruct (user_metrics_no_value _ _ _ _ Nv Um) as [->| ->];
        [left|right]; reflexivity.
    - exfalso. apply dget_None_keys in Gm. apply Gm.
      rewrite <- K1, <- K2. apply in_map_iff. exists (uid, u).
      split; [reflexivity|exact I]. }
  destruct (classify_unranked_none monetary (users rb) A) as [us1 C].
  destruct (segmentize_unfold monetary rb r1 R)
    as [us1' [uids0 [c0 [c' [asg [C' [I _]]]]]]].
  rewrite C in C'. injection C' as <- <-.
  unfold dmem in I. rewrite G3 in I.
  destruct (initial_cursor_fresh _ _ _ _ _ I) as [_ [_ [uid [q [l' [El _]]]]]].
  discriminate El.
Qed.

Lemma save_output_without_values_witness :
  (forall row, In row rows_zero_value ->
     truthy (row_order_value row) = false)
  /\ exists e,
       save_output
         (load_input rows_zero_value
            (init Py3 (fun _ => 2) example_columns 365 30))
       = Raise e
       /\ (e = ZeroDivisionError at_max_i \/ e = IndexError at_first_ranked).
Proof.
  assert (T : forall row, In row rows_zero_value ->
                truthy (row_order_value row) = false).
  { intros row [<-|[]]. reflexivity. }
  split; [exact T|].
  exact (save_output_without_values Py3 (fun _ => 2) example_columns 365 30
           rows_zero_value T).
Defined.

(** ** The pipeline in every iteration order of [RFM_DIMENSIONS] *)

Lemma rfmize_in_RFM_DIMENSIONS (today : option date) (r : Rfmizer) :
  rfmize_in RFM_DIMENSIONS today r = rfmize today r.
Proof. reflexivity. Qed.

Lemma save_output_in_RFM_DIMENSIONS (r : Rfmizer) :
  save_output_in RFM_DIMENSIONS r = save_output r.
Proof. reflexivity. Qed.

Lemma fold_segmentize_raise (order : list dimension) (e : exn) :
  fold_left (fun acc d => r' <- acc ;; segmentize d r') order (Raise e)
  = Raise e.
Proof. induction order as [|d order IH]; simpl; [reflexivity|exact IH]. Qed.

(** One call of [segmentize] on a replayable engine: it returns and leaves
    a replayable engine with borders for the dimension, or it is a fresh
    call and fails at line 216 or 217. *)
Lemma segmentize_replayable (d : dimension) (r : Rfmizer) :
  replayable r ->
  match segmentize d r with
  | Ok r' =>
      replayable r'
      /\ dget d (borders r') <> None
      /\ (forall d', dget d' (borders r) <> None ->
            dget d' (borders r') <> None)
      /\ (users r <> [] -> users r' <> [])
      /\ (dget d (borders r) = None -> users r' <> [])
  | Raise e =>
      dget d (borders r) = None
      /\ (e = ZeroDivisionError at_max_i \/ e = IndexError at_first_ranked)
  end.
Proof.
  intros [W [A Bs]].
  destruct (dget d (borders r)) as [b|] eqn:G.
  - destruct (segmentize_recorded_total d b r G (Bs d b G) A) as [r' S].
    rewrite S.
    destruct (segmentize_keeps_users_ok d r r' S) as [K1 [K2 K3]].
    assert (Br : borders r' = borders r).
    { rewrite (segmentize_recorded d b r G) in S.
      destruct (apply_borders d b (users r)); cbn [bind] in S;
        [|discriminate].
      injection S as <-. reflexivity. }
    split.
    { split; [exact (K1 W)|]. split; [exact (K2 A)|]. rewrite Br. exact Bs. }
    rewrite Br. split; [rewrite G; discriminate|].
    split; [intros d' N; exact N|]. split; [exact K3|].
    intros N. discriminate N.
  - destruct (segmentize d r) as [r'|e] eqn:S.
    + destruct (segmentize_keeps_users_ok d r r' S) as [K1 [K2 K3]].
      destruct (segmentize_fresh_contiguous d r r' G S) as [b [Gb Cb]].
      destruct (segmentize_borders d r r' S) as [b' [E _]].
      split.
      { split; [exact (K1 W)|]. split; [exact (K2 A)|].
        intros d' b0 G0. rewrite E, dget_dset in G0.
        rewrite E, dget_dset_same in Gb. injection Gb as ->.
        destruct (keyb d' d); [injection G0 as <-; exact Cb|].
        exact (Bs d' b0 G0). }
      split; [rewrite Gb; discriminate|].
      split.
      { intros d' N. rewrite E, dget_dset.
        destruct (keyb d' d); [discriminate|exact N]. }
      split; [exact K3|].
      intros _. exact (K3 (segmentize_fresh_nonempty d r r' G S)).
    + split; [reflexivity|]. exact (segmentize_fresh_raises d r e G A S).
Qed.

Lemma fold_segmentize_replayable (order : list dimension) :
  forall r : Rfmizer,
    replayable r ->
    match fold_left (fun acc d => r' <- acc ;; segmentize d r') order (Ok r)
    with
    | Ok r' =>
        replayable r'
        /\ (forall d, In d order -> dget d (borders r') <> None)
        /\ (forall d, dget d (borders r) <> None ->
              dget d (borders r') <> None)
        /\ (users r <> [] -> users r' <> [])
    | Raise e =>
        (exists d, In d order /\ dget d (borders r) = None)
        /\ (e = ZeroDivisionError at_max_i \/ e = IndexError at_first_ranked)
    end.
Proof.
  induction order as [|d order IH]; intros r I; cbn [fold_left bind].
  - split; [exact I|]. split; [intros d []|]. split; auto.
  - pose proof (segmentize_replayable d r I) as P.
    destruct (segmentize d r) as [r1|e].
    + destruct P as [I1 [N1 [M1 [U1 _]]]]. specialize (IH r1 I1).
      destruct (fold_left _ order (Ok r1)) as [r'|e].
      * destruct IH as [I2 [N2 [M2 U2]]]. split; [exact I2|]. split.
        { intros d' [<-|In']; [apply M2; exact N1|apply N2; exact In']. }
        split; [intros d' N; apply M2, M1; exact N|].
        intros N. apply U2, U1. exact N.
      * destruct IH as [[d' [In' G']] E]. split; [|exact E].
        exists d'. split; [right; exact In'|].
        destruct (dget d' (borders r)) eqn:G; [|reflexivity].
        exfalso. apply (M1 d'); [rewrite G; discriminate|exact G'].
    + rewrite fold_segmentize_raise. destruct P as [G E].
      split; [|exact E]. exists d. split; [left; reflexivity|exact G].
Qed.

Lemma replayable_metricize (today : date) (r : Rfmizer) :
  wf_dict (users r) = true ->
  (forall d b, dget d (borders r) = Some b -> contiguous b) ->
  replayable (metricize today r).
Proof.
  intros W Bs.
  split; [exact (proj1 (proj2 (metricize_measured today r W)))|].
  split; [apply all_measured_metricize; exact W|].
  rewrite metricize_borders. exact Bs.
Qed.

(** The primary run, in any order: it fails at line 216 or 217 only; when
    it returns, every dimension of the order has borders and somebody is
    left. *)
Lemma rfmize_in_primary (order : list dimension) (today : option date)
    (r : Rfmizer) :
  order <> [] ->
  borders r = [] ->
  wf_dict (users r) = true ->
  match rfmize_in order today r with
  | Ok r1 =>
      replayable r1
      /\ (forall d, In d order -> dget d (borders r1) <> None)
      /\ users r1 <> []
  | Raise e => e = ZeroDivisionError at_max_i \/ e = IndexError at_first_ranked
  end.
Proof.
  intros Ne B W. destruct order as [|d0 order]; [contradiction Ne; reflexivity|].
  unfold rfmize_in.
  set (m := metricize (match today with Some t => t | None => max_date r end)
              r).
  cbn [fold_left bind].
  assert (Im : replayable m).
  { apply replayable_metricize; [exact W|]. rewrite B. intros d b G.
    discriminate G. }
  assert (G0 : dget d0 (borders m) = None).
  { unfold m. rewrite metricize_borders, B. reflexivity. }
  pose proof (segmentize_replayable d0 m Im) as P.
  destruct (segmentize d0 m) as [ra|e].
  - destruct P as [Ia [Na [Ma [_ Ua]]]]. specialize (Ua G0).
    pose proof (fold_segmentize_replayable order ra Ia) as F.
    destruct (fold_left _ order (Ok ra)) as [r1|e].
    + destruct F as [I1 [N1 [M1 U1]]]. split; [exact I1|]. split.
      * intros d [<-|In']; [apply M1; exact Na|apply N1; exact In'].
      * apply U1. exact Ua.
    + exact (proj2 F).
  - rewrite fold_segmentize_raise. exact (proj2 P).
Qed.

(** A later run over dimensions that all have borders returns. *)
Lemma rfmize_in_replay (order : list dimension) (today : option date)
    (r : Rfmizer) :
  replayable r ->
  (forall d, In d order -> dget d (borders r) <> None) ->
  exists r', rfmize_in order today r = Ok r'.
Proof.
  intros [W [_ Bs]] N. unfold rfmize_in.
  set (m := metricize (match today with Some t => t | None => max_date r end)
              r).
  pose proof (fold_segmentize_replayable order m
                (replayable_metricize _ r W Bs)) as F.
  destruct (fold_left _ order (Ok m)) as [r'|e]; [eexists; reflexivity|].
  destruct F as [[d [In' G]] _]. exfalso. apply (N d In').
  unfold m in G. rewrite metricize_borders in G. exact G.
Qed.

Lemma save_output_in_raises (order : list dimension) (r : Rfmizer)
    (e : exn) :
  order <> [] ->
  borders r = [] ->
  wf_dict (users r) = true ->
  save_output_in order r = Raise e ->
  e = ZeroDivisionError at_max_i
  \/ e = IndexError at_first_ranked
  \/ e = KeyError at_output_columns
  \/ e = ZeroDivisionError at_population_mean
  \/ e = ZeroDivisionError at_segment_ratio.
Proof.
  intros Ne B W. unfold save_output_in.
  pose proof (rfmize_in_primary order None r Ne B W) as P.
  destruct (rfmize_in order None r) as [r1|e1]; cbn [bind].
  2:{ intros [= <-]. destruct P as [->| ->]; auto. }
  destruct P as [I1 [N1 U1]].
  destruct (save_mapping r1) as [mapping|e2] eqn:M; cbn [bind].
  2:{ intros [= <-]. destruct (save_mapping_raises r1 e2 M) as [[E _]| ->];
        [contradiction|auto]. }
  destruct (rfmize_in_replay order (Some (prediction_date r1)) r1 I1 N1)
    as [rp Rp].
  unfold rationize_in. rewrite Rp. cbn [bind].
  pose proof (compute_ratios_result (prediction_date r1) rp) as C.
  destruct (compute_ratios (prediction_date r1) rp) as [r2|e3]; cbn [bind].
  2:{ intros [= <-]. destruct C as [->| ->]; auto. }
  destruct C as [U Ne2]. rewrite <- U in Ne2.
  destruct (save_ratios_returns r2 Ne2) as [out ->]. cbn [bind]. discriminate.
Qed.

(** In a run of [save_output] on what [load_input] has built, whatever the
    order in which the set [RFM_DIMENSIONS] iterates, four operations never
    fail: the lookup of a user's metrics (line 206), the lookup of a
    recorded border (line 223), the division of line 229, and
    [next(iter(self.users.values()))] in [save_mapping] and
    [save_ratios]. *)
Theorem save_output_safe_sites :
  forall (order : list dimension) (v : py_version)
         (segments_count : dimension -> Z)
         (output_columns : dict string string)
         (look_back_period prediction_period : Z) (rows : list Row)
         (e : exn),
    Permutation order RFM_DIMENSIONS ->
    save_output_in order
      (load_input rows
         (init v segments_count output_columns look_back_period
            prediction_period))
    = Raise e ->
    e <> KeyError at_metrics_lookup
    /\ e <> KeyError at_border_lookup
    /\ e <> ZeroDivisionError at_next_max_i
    /\ e <> StopIteration at_first_user.
Proof.
  intros order v sc cols lb pd rows e P S.
  assert (Ne : order <> []).
  { intros E. rewrite E in P. apply Permutation_nil in P. discriminate P. }
  assert (B : borders (load_input rows (init v sc cols lb pd)) = [])
    by (rewrite load_input_borders; reflexivity).
  destruct (save_output_in_raises order _ e Ne B
              (proj1 (load_input_invariant rows _)) S)
    as [->|[->|[->|[->| ->]]]]; conjuncts; discriminate.
Qed.

Lemma save_output_safe_sites_witness :
  Permutation order_frequency_first RFM_DIMENSIONS
  /\ save_output_in order_frequency_first
       (load_input rows_single_order
          (init Py3 (fun _ => 2) example_columns 365 30))
     = Raise (ZeroDivisionError at_population_mean)
  /\ ZeroDivisionError at_population_mean <> StopIteration at_first_user.
Proof.
  assert (P : Permutation order_frequency_first RFM_DIMENSIONS).
  { unfold order_frequency_first, RFM_DIMENSIONS.
    apply Permutation_sym. apply (Permutation_cons_app [frequency; monetary] []).
    apply Permutation_refl. }
  assert (S : save_output_in order_frequency_first
                (load_input rows_single_order
                   (init Py3 (fun _ => 2) example_columns 365 30))
              = Raise (ZeroDivisionError at_population_mean)) by evaluate.
  split; [exact P|]. split; [exact S|].
  exact (proj2 (proj2 (proj2
           (save_output_safe_sites order_frequency_first Py3 (fun _ => 2)
              example_columns 365 30 rows_single_order
              (ZeroDivisionError at_population_mean) P S)))).
Defined.

(** When no row has a date that [parse_date] finds, nobody is loaded and
    [save_output] fails in its first call of [segmentize], for the
    dimension the set [RFM_DIMENSIONS] yields first: on the division of
    line 216 when the configured count of that dimension is zero, on
    [uids[0]] at line 217 otherwise. *)
Theorem save_output_without_dated_rows :
  forall (d0 : dimension) (ds : list dimension) (v : py_version)
         (segments_count : dimension -> Z)
         (output_columns : dict string string)
         (look_back_period prediction_period : Z) (rows : list Row),
    (forall row, In row rows -> dated row = false) ->
    save_output_in (d0 :: ds)
      (load_input rows
         (init v segments_count output_columns look_back_period
            prediction_period))
    = Raise (if segments_count d0 =? 0
             then ZeroDivisionError at_max_i
             else IndexError at_first_ranked).
Proof.
  intros d0 ds v sc cols lb pd rows U. rewrite (load_input_undated rows _ U).
  assert (S : forall t,
            segmentize d0 (metricize t (set_users [] (init v sc cols lb pd)))
            = Raise (if sc d0 =? 0 then ZeroDivisionError at_max_i
                     else IndexError at_first_ranked)).
  { intros t. unfold segmentize, metricize, init. simpl.
    destruct (sc d0 =? 0); reflexivity. }
  unfold save_output_in, rfmize_in. cbn [fold_left bind].
  rewrite S, fold_segmentize_raise. reflexivity.
Qed.

Lemma save_output_without_dated_rows_witness :
  (forall row,
     In row [{| row_user_id := "A"%string; row_order_date := None;
                row_order_value := Some (5 # 1); row_dimensions := [] |}] ->
     dated row = false)
  /\ save_output_in [frequency; monetary; recency]
       (load_input
          [{| row_user_id := "A"%string; row_order_date := None;
              row_order_value := Some (5 # 1); row_dimensions := [] |}]
          (init Py3 counts_recency_zero example_columns 365 30))
     = Raise (IndexError at_first_ranked).
Proof.
  assert (U : forall row,
            In row [{| row_user_id := "A"%string; row_order_date := None;
                       row_order_value := Some (5 # 1);
                       row_dimensions := [] |}] ->
            dated row = false).
  { intros row [<-|[]]. reflexivity. }
  split; [exact U|].
  exact (save_output_without_dated_rows frequency [monetary; recency] Py3
           counts_recency_zero example_columns 365 30 _ U).
Defined.
